(** * Calendar tools of the voice assistant: a shallow embedding

    This development models the two tools of
    [src/voice_assistant/tools]: [CreateCalendarEvent] and
    [CancelCalendarEvent].  Both share, verbatim, the helper
    [authenticate_calendar]; each has a [run] method that talks to the remote
    calendar service.

    The Python code is effectful: it reads and writes the token file, sleeps,
    logs, and calls the OAuth and calendar client libraries, each of which can
    raise.  The embedding is a small monad [M] that threads the token file,
    returns either a value or a raised exception, and records every effect in
    the order the code performs it.  The answers of the outside world (the
    OAuth flow, the refresh request, the calendar API, the string parsers of
    the standard library) are read from an environment record [Env]. *)

From Stdlib Require Import ZArith String Ascii List Bool Lia QArith.
From Stdlib Require Import DecimalString DecimalPos.
Import ListNotations.

Local Open Scope Z_scope.
Local Open Scope string_scope.

(** ** Python values *)

Module Py.

(** The two exception classes the handlers of the source tell apart:
    [except TimeoutError] is tried first, [except Exception] catches the
    rest.  The string is what [str(e)] gives.  Exceptions outside
    [Exception] ([asyncio.CancelledError], [KeyboardInterrupt]), which no
    handler of the source catches, are not part of the model: a statement
    about what is raised speaks of these two classes only. *)
Inductive exn : Type :=
| TimeoutError (msg : string)
| Exception (msg : string).

Inductive result (A : Type) : Type :=
| Ok (a : A)
| Raise (e : exn).
Arguments Ok {A} a.
Arguments Raise {A} e.

(** [str(e)] *)
Definition str_exn (e : exn) : string :=
  match e with
  | TimeoutError msg => msg
  | Exception msg => msg
  end.

(** [str(n)] for an [int]. *)
Definition str_int (n : Z) : string := NilZero.string_of_int (Z.to_int n).

(** [f"{x}"] for a value that is a [str] or [None]. *)
Definition str_opt (s : option string) : string :=
  match s with
  | Some x => x
  | None => "None"
  end.

(** Truth value of a [str]: the empty string is false. *)
Definition truthy (s : string) : bool :=
  match s with
  | EmptyString => false
  | String _ _ => true
  end.

(** Truth value of a value that is a [str] or [None]. *)
Definition truthy_opt (s : option string) : bool :=
  match s with
  | Some x => truthy x
  | None => false
  end.

(** [s.replace(c, by)] for a one-character pattern. *)
Fixpoint replace_char (c : ascii) (by_ : string) (s : string) : string :=
  match s with
  | EmptyString => EmptyString
  | String a rest =>
      if Ascii.eqb a c then by_ ++ replace_char c by_ rest
      else String a (replace_char c by_ rest)
  end.

(** [range(n)]: empty when [n <= 0]. *)
Definition range (n : Z) : list nat := seq 0 (Z.to_nat n).

End Py.
Import Py.

(** ** Credentials and the token file *)

(** What the code reads of a [google.oauth2.credentials.Credentials]:
    [creds.expired], [creds.refresh_token], and [creds.valid], which the
    library defines as [token is not None and not expired]. *)
Record Credentials : Type := mkCredentials {
  token : option string;
  expired : bool;
  refresh_token : option string
}.

Definition valid (c : Credentials) : bool :=
  match token c with
  | Some _ => negb (expired c)
  | None => false
  end.

(** Content of the file at [TOKEN_PATH]: a pickled credential, or bytes that
    [pickle.load] rejects with the given message. *)
Inductive TokenBlob : Type :=
| Pickled (c : Credentials)
| Corrupt (msg : string).

(** The token file: [None] when [os.path.exists(TOKEN_PATH)] is false. *)
Definition FS : Type := option TokenBlob.

(** ** Configuration constants *)

Record Config : Type := mkConfig {
  AUTH_TIMEOUT : Z;
  API_TIMEOUT : Z;
  MAX_RETRIES : Z;
  RETRY_DELAY : Q
}.

(** The values used when the environment variables are not set. *)
Definition default_config : Config :=
  {| AUTH_TIMEOUT := 15; API_TIMEOUT := 10; MAX_RETRIES := 3; RETRY_DELAY := 1 # 1 |}.

(** ** Dates and times

    [datetime] as the standard library has it, restricted to the fields the
    tools set (there are no microseconds and no time zone).  The calendar
    arithmetic follows the reference implementation of the [datetime] module
    ([_ymd2ord], [_ord2ymd], [datetime.__add__]). *)

Module DT.

Local Open Scope Z_scope.

Record datetime : Type := mkdt {
  year : Z; month : Z; day : Z;
  hour : Z; minute : Z; second : Z
}.

Definition MINYEAR : Z := 1.
Definition MAXYEAR : Z := 9999.

Definition is_leap (y : Z) : bool :=
  (y mod 4 =? 0) && (negb (y mod 100 =? 0) || (y mod 400 =? 0)).

Definition DAYS_IN_MONTH (m : Z) : Z :=
  match m with
  | 1 => 31 | 2 => 28 | 3 => 31 | 4 => 30 | 5 => 31 | 6 => 30
  | 7 => 31 | 8 => 31 | 9 => 30 | 10 => 31 | 11 => 30 | 12 => 31
  | _ => -1
  end.

Definition DAYS_BEFORE_MONTH (m : Z) : Z :=
  match m with
  | 1 => 0 | 2 => 31 | 3 => 59 | 4 => 90 | 5 => 120 | 6 => 151
  | 7 => 181 | 8 => 212 | 9 => 243 | 10 => 273 | 11 => 304 | 12 => 334
  | _ => -1
  end.

Definition days_before_year (y : Z) : Z :=
  let y1 := y - 1 in
  y1 * 365 + y1 / 4 - y1 / 100 + y1 / 400.

Definition days_in_month (y m : Z) : Z :=
  if (m =? 2) && is_leap y then 29 else DAYS_IN_MONTH m.

Definition days_before_month (y m : Z) : Z :=
  DAYS_BEFORE_MONTH m + (if (2 <? m) && is_leap y then 1 else 0).

Definition ymd2ord (y m d : Z) : Z :=
  days_before_year y + days_before_month y m + d.

Definition DI400Y : Z := 146097.
Definition DI100Y : Z := 36524.
Definition DI4Y : Z := 1461.
Definition MAXORDINAL : Z := 3652059.

Definition ord2ymd (n0 : Z) : Z * Z * Z :=
  let n := n0 - 1 in
  let n400 := n / DI400Y in
  let n := n mod DI400Y in
  let n100 := n / DI100Y in
  let n := n mod DI100Y in
  let n4 := n / DI4Y in
  let n := n mod DI4Y in
  let n1 := n / 365 in
  let n := n mod 365 in
  let y := n400 * 400 + 1 + n100 * 100 + n4 * 4 + n1 in
  if (n1 =? 4) || (n100 =? 4) then (y - 1, 12, 31)
  else
    let leapyear := (n1 =? 3) && (negb (n4 =? 24) || (n100 =? 3)) in
    let m := Z.shiftr (n + 50) 5 in
    let preceding := DAYS_BEFORE_MONTH m + (if (2 <? m) && leapyear then 1 else 0) in
    if n <? preceding then
      let m' := m - 1 in
      let preceding' :=
        preceding - (DAYS_IN_MONTH m' + (if (m' =? 2) && leapyear then 1 else 0)) in
      (y, m', n - preceding' + 1)
    else (y, m, n - preceding + 1).

(** The range checks of the [datetime] constructor. *)
Definition check (dt : datetime) : bool :=
  (MINYEAR <=? year dt) && (year dt <=? MAXYEAR) &&
  (1 <=? month dt) && (month dt <=? 12) &&
  (1 <=? day dt) && (day dt <=? days_in_month (year dt) (month dt)) &&
  (0 <=? hour dt) && (hour dt <=? 23) &&
  (0 <=? minute dt) && (minute dt <=? 59) &&
  (0 <=? second dt) && (second dt <=? 59).

(** The [datetime] constructor: the first field out of range, in the order
    year, month, day, hour, minute, second, is a [ValueError]; the texts are
    those of the C implementation of CPython 3.9 to 3.13. *)
Definition construct (dt : datetime) : result datetime :=
  if negb ((MINYEAR <=? year dt) && (year dt <=? MAXYEAR)) then
    Raise (Exception ("year " ++ str_int (year dt) ++ " is out of range"))
  else if negb ((1 <=? month dt) && (month dt <=? 12)) then
    Raise (Exception "month must be in 1..12")
  else if negb ((1 <=? day dt) && (day dt <=? days_in_month (year dt) (month dt))) then
    Raise (Exception "day is out of range for month")
  else if negb ((0 <=? hour dt) && (hour dt <=? 23)) then
    Raise (Exception "hour must be in 0..23")
  else if negb ((0 <=? minute dt) && (minute dt <=? 59)) then
    Raise (Exception "minute must be in 0..59")
  else if negb ((0 <=? second dt) && (second dt <=? 59)) then
    Raise (Exception "second must be in 0..59")
  else Ok dt.

Definition toordinal (dt : datetime) : Z :=
  ymd2ord (year dt) (month dt) (day dt).

(** [dt + timedelta(minutes=mins)]: the sum is normalised into days and
    seconds; a day count outside [1, MAXORDINAL] is an [OverflowError]. *)
Definition add_minutes (dt : datetime) (mins : Z) : result datetime :=
  let secs := hour dt * 3600 + minute dt * 60 + second dt + mins * 60 in
  let days := toordinal dt + secs / 86400 in
  let secs := secs mod 86400 in
  let h := secs / 3600 in
  let rem := secs mod 3600 in
  if (0 <? days) && (days <=? MAXORDINAL) then
    let '(y, m, d) := ord2ymd days in
    Ok (mkdt y m d h (rem / 60) (rem mod 60))
  else Raise (Exception "date value out of range").

(** [dt.replace(hour=h, minute=mi, second=s)]. *)
Definition replace_time (dt : datetime) (h mi s : Z) : datetime :=
  mkdt (year dt) (month dt) (day dt) h mi s.

(** Decimal digits of [n], left-padded with zeros to [width] characters. *)
Fixpoint zeros (k : nat) : string :=
  match k with
  | O => EmptyString
  | S k' => String "0" (zeros k')
  end.

Definition pad (width : nat) (n : Z) : string :=
  let s := str_int n in
  zeros (width - String.length s) ++ s.

(** [dt.isoformat()]: [YYYY-MM-DDTHH:MM:SS]. *)
Definition isoformat (dt : datetime) : string :=
  pad 4 (year dt) ++ "-" ++ pad 2 (month dt) ++ "-" ++ pad 2 (day dt) ++ "T" ++
  pad 2 (hour dt) ++ ":" ++ pad 2 (minute dt) ++ ":" ++ pad 2 (second dt).

(** Minutes elapsed since the start of day 0 of the proleptic calendar:
    the position of a timestamp on the time line. *)
Definition minutes_of (dt : datetime) : Z :=
  toordinal dt * 1440 + hour dt * 60 + minute dt.

End DT.
Import DT.

(** ** The remote calendar: records exchanged with the service *)

Module Calendar.

Record TimePoint : Type := mkTimePoint {
  dateTime : string;
  timeZone : string
}.

Record ReminderOverride : Type := mkOverride {
  method : string;
  minutes : Z
}.

Record Reminders : Type := mkReminders {
  useDefault : bool;
  overrides : list ReminderOverride
}.

(** The dictionary [event] that [CreateCalendarEvent.run] builds. *)
Record EventBody : Type := mkEventBody {
  summary : string;
  description : string;
  start : TimePoint;
  end_ : TimePoint;
  reminders : Reminders;
  attendees : list string;
  sendUpdates : string
}.

(** What [run] reads of the answer to an insert: [result.get('id')] and
    [result.get('htmlLink')]. *)
Record InsertResult : Type := mkInsertResult {
  res_id : option string;
  res_htmlLink : option string
}.

(** An item of the answer to a list request: [event['id']] and the two keys
    [run] looks up in [event['start']]. *)
Record RemoteEvent : Type := mkRemoteEvent {
  ev_id : string;
  ev_dateTime : option string;
  ev_date : option string
}.

(** The arguments of [service.events().list(...)]. *)
Record ListQuery : Type := mkListQuery {
  q_calendarId : string;
  q_timeMin : string;
  q_timeMax : string;
  q_q : option string;
  q_singleEvents : bool;
  q_orderBy : string
}.

End Calendar.
Import Calendar.

(** ** Effects *)

Inductive Level : Type := DEBUG | INFO | WARNING | ERROR.

(** Every action of the code that is visible outside it, in program order. *)
Inductive Effect : Type :=
| Log (lvl : Level) (msg : string)
| Sleep (seconds : Q)
| ReadToken
| RefreshRequest (c : Credentials)
| RunLocalServer
| WriteToken (c : Credentials)
| BuildService
| SetDefaultTimeout (seconds : Z)
| LogEventBody (lvl : Level) (body : EventBody)
| ApiInsert (calendarId : string) (body : EventBody)
| ApiList (q : ListQuery)
| ApiDelete (calendarId : string) (eventId : string).

(** ** The outside world

    The answers of everything the tools call but do not define.  The
    authentication answers are indexed by the attempt that asks. *)
Record Env : Type := mkEnv {
  (** [datetime.now().strftime("%Y-%m-%d")] when the module was imported:
      the default of the [date] field *)
  import_day : string;
  (** [datetime.now().strftime("%Y-%m-%d")] when [run] executes *)
  today : string;
  (** [os.getenv('GOOGLE_CALENDAR_EMAIL', '')] *)
  calendar_email : string;
  (** [os.path.exists(CREDENTIALS_PATH)] *)
  credentials_exists : bool;
  (** [InstalledAppFlow.from_client_secrets_file]: [Some e] when it raises *)
  from_client_secrets_file : nat -> option exn;
  (** [flow.run_local_server] awaited through [future.result(timeout=...)] *)
  run_local_server : nat -> result Credentials;
  (** [creds.refresh(Request())]: the state of [creds] afterwards *)
  refresh : nat -> Credentials -> result Credentials;
  (** [build('calendar', 'v3', credentials=creds)]: [Some e] when it raises *)
  build : option exn;
  (** the fields year, month, day, hour, minute that
      [datetime.strptime(s, "%Y-%m-%d %H:%M")] reads from [s], before it
      passes them to the [datetime] constructor *)
  parse_Ymd_HM : string -> result (Z * Z * Z * Z * Z);
  (** the same for [datetime.strptime(s, "%Y-%m-%d")] *)
  parse_Ymd : string -> result (Z * Z * Z);
  (** [datetime.fromisoformat(s)] *)
  fromisoformat : string -> result datetime;
  events_insert : EventBody -> result InsertResult;
  events_list : ListQuery -> result (list RemoteEvent);
  (** the [k]-th delete request of a run, for the given event id *)
  events_delete : nat -> string -> option exn
}.

(** [datetime.strptime(s, "%Y-%m-%d %H:%M")]: the fields are parsed, then
    the constructor checks them; the second is 0. *)
Definition strptime_datetime (env : Env) (s : string) : result datetime :=
  match parse_Ymd_HM env s with
  | Ok (y, m, d, H, Mi) => construct (mkdt y m d H Mi 0)
  | Raise e => Raise e
  end.

(** [datetime.strptime(s, "%Y-%m-%d")]: midnight of the day. *)
Definition strptime_date (env : Env) (s : string) : result datetime :=
  match parse_Ymd env s with
  | Ok (y, m, d) => construct (mkdt y m d 0 0 0)
  | Raise e => Raise e
  end.

(** ** The monad of the tools *)

Module Monad.

Local Open Scope list_scope.

Definition M (A : Type) : Type := FS -> result A * FS * list Effect.

Definition ret {A} (a : A) : M A := fun fs => (Ok a, fs, []).

Definition bind {A B} (m : M A) (k : A -> M B) : M B :=
  fun fs =>
    match m fs with
    | (Ok a, fs1, t1) =>
        match k a fs1 with
        | (r, fs2, t2) => (r, fs2, t1 ++ t2)
        end
    | (Raise e, fs1, t1) => (Raise e, fs1, t1)
    end.

Definition raise {A} (e : exn) : M A := fun fs => (Raise e, fs, []).

(** [try: m  except ... as e: handler e] *)
Definition try_except {A} (m : M A) (handler : exn -> M A) : M A :=
  fun fs =>
    match m fs with
    | (Ok a, fs1, t1) => (Ok a, fs1, t1)
    | (Raise e, fs1, t1) =>
        match handler e fs1 with
        | (r, fs2, t2) => (r, fs2, t1 ++ t2)
        end
    end.

Definition emit (e : Effect) : M unit := fun fs => (Ok tt, fs, [e]).

Definition lift {A} (r : result A) : M A := fun fs => (r, fs, []).

Definition lift_unit (r : option exn) : M unit :=
  match r with
  | Some e => raise e
  | None => ret tt
  end.

Definition get_fs : M FS := fun fs => (Ok fs, fs, []).
Definition put_fs (fs' : FS) : M unit := fun _ => (Ok tt, fs', []).

Definition value {A} (x : result A * FS * list Effect) : result A := fst (fst x).
Definition final_fs {A} (x : result A * FS * list Effect) : FS := snd (fst x).
Definition effects {A} (x : result A * FS * list Effect) : list Effect := snd x.

End Monad.
Import Monad.

Declare Scope py_scope.
Delimit Scope py_scope with py.
Notation "x <- m ;; k" := (bind m (fun x => k))
  (at level 100, m at next level, right associativity) : py_scope.
Notation "m ;; k" := (bind m (fun _ => k))
  (at level 100, right associativity) : py_scope.
Local Open Scope py_scope.

Definition log (lvl : Level) (msg : string) : M unit := emit (Log lvl msg).

(** [await asyncio.sleep(seconds)] returns.  The cancellation of the task,
    which it would raise as [asyncio.CancelledError], is a [BaseException]
    and is outside the model (see [Py.exn]). *)
Definition sleep (seconds : Q) : M unit := emit (Sleep seconds).

(** ** [authenticate_calendar]

    The method is the same, line for line, in both tools. *)

(** The tuple the method returns: [(creds, None)] or [(None, message)]. *)
Definition AuthResult : Type := (option Credentials * option string)%type.

Section Authenticate.

Variable cfg : Config.
Variable env : Env.

(** [if os.path.exists(TOKEN_PATH): ... creds = pickle.load(token)] *)
Definition load_token : M (option Credentials) :=
  fs <- get_fs ;;
  match fs with
  | None => ret None
  | Some blob =>
      log DEBUG "Loading existing token" ;;
      emit ReadToken ;;
      match blob with
      | Pickled c => ret (Some c)
      | Corrupt msg => raise (Exception msg)
      end
  end.

(** [with open(TOKEN_PATH, 'wb') as token: pickle.dump(creds, token)]

    The effect [WriteToken c] records that the write is attempted.  The write
    itself is taken to complete: a disk that fails under [open] or under
    [pickle.dump] is outside this model, which has no answer of the world for
    it. *)
Definition dump_token (c : Credentials) : M unit :=
  emit (WriteToken c) ;;
  put_fs (Some (Pickled c)).

(** The branch [creds.refresh(Request())]. *)
Definition refresh_credentials (attempt : nat) (c : Credentials) : M AuthResult :=
  log INFO "Refreshing expired credentials" ;;
  sleep (1 # 2)%Q ;;
  emit (RefreshRequest c) ;;
  c' <- lift (refresh env attempt c) ;;
  ret (Some c', None).

(** The branch that runs the interactive flow and stores its credential. *)
Definition new_authentication_flow (attempt : nat) : M AuthResult :=
  log INFO "Initiating new authentication flow" ;;
  if negb (credentials_exists env) then
    ret (None, Some "Error: credentials.json file not found.")
  else
    sleep (1 # 2)%Q ;;
    lift_unit (from_client_secrets_file env attempt) ;;
    emit RunLocalServer ;;
    c <- lift (run_local_server env attempt) ;;
    dump_token c ;;
    ret (Some c, None).

(** The body of the [try] of one iteration. *)
Definition attempt_body (attempt : nat) : M AuthResult :=
  log INFO ("Authentication attempt " ++ str_int (Z.of_nat attempt + 1) ++ "/"
            ++ str_int (MAX_RETRIES cfg)) ;;
  sleep (1 # 2)%Q ;;
  creds <- load_token ;;
  match creds with
  | Some c =>
      if negb (valid c) then
        if expired c && truthy_opt (refresh_token c) then refresh_credentials attempt c
        else new_authentication_flow attempt
      else ret (Some c, None)
  | None => new_authentication_flow attempt
  end.

(** One iteration of the loop with its two handlers: [Some r] when the
    iteration executes [return r], [None] when it executes [continue]. *)
Definition attempt_iteration (attempt : nat) : M (option AuthResult) :=
  try_except
    (r <- attempt_body attempt ;; ret (Some r))
    (fun e =>
       match e with
       | TimeoutError _ =>
           log WARNING ("Authentication timeout on attempt "
                        ++ str_int (Z.of_nat attempt + 1)) ;;
           if (Z.of_nat attempt <? MAX_RETRIES cfg - 1)%Z then
             sleep (RETRY_DELAY cfg) ;; ret None
           else ret (Some (None, Some "Authentication timed out after multiple attempts."))
       | Exception msg =>
           log ERROR ("Authentication error on attempt "
                      ++ str_int (Z.of_nat attempt + 1) ++ ": " ++ msg) ;;
           if (Z.of_nat attempt <? MAX_RETRIES cfg - 1)%Z then
             sleep (RETRY_DELAY cfg) ;; ret None
           else ret (Some (None, Some ("Authentication failed: " ++ msg)))
       end).

(** [for attempt in attempts: ...]; a loop that runs out of iterations
    falls off the end of the method, which then returns a bare [None]. *)
Fixpoint for_attempts (attempts : list nat) : M (option AuthResult) :=
  match attempts with
  | [] => ret None
  | attempt :: rest =>
      r <- attempt_iteration attempt ;;
      match r with
      | Some v => ret (Some v)
      | None => for_attempts rest
      end
  end.

Definition authenticate_calendar : M (option AuthResult) :=
  for_attempts (range (MAX_RETRIES cfg)).

End Authenticate.

(** ** [CreateCalendarEvent] *)

Module CreateCalendarEvent.

(** The fields of the tool, after validation. *)
Record t : Type := mk {
  title : option string;
  date : string;
  time : option string;
  duration_minutes : Z;
  description : string
}.

(** The keyword arguments a caller passes; [None] is an omitted argument,
    which takes the default of its [Field]. *)
Record Args : Type := mkArgs {
  arg_title : option string;
  arg_date : option string;
  arg_time : option string;
  arg_duration_minutes : option Z;
  arg_description : option string
}.

Inductive ValidationError : Type :=
| greater_than (bound : Z)
| less_than_equal (bound : Z).

(** The constraints [gt=0, le=480] of the field [duration_minutes]. *)
Definition validate_duration (d : Z) : ValidationError + Z :=
  if negb (0 <? d)%Z then inl (greater_than 0)
  else if negb (d <=? 480)%Z then inl (less_than_equal 480)
  else inr d.

(** Construction of the tool from its arguments: defaults, then the field
    constraints. *)
Definition new (env : Env) (args : Args) : ValidationError + t :=
  let d := match arg_duration_minutes args with Some d => d | None => 30%Z end in
  match validate_duration d with
  | inl err => inl err
  | inr d =>
      inr {| title := arg_title args;
             date := match arg_date args with Some s => s | None => import_day env end;
             time := arg_time args;
             duration_minutes := d;
             description := match arg_description args with Some s => s | None => EmptyString end |}
  end.

Section Run.

Variable cfg : Config.
Variable env : Env.

(** The dictionary literal [event] of [run]. *)
Definition event_body (self : t) (start_time end_time : datetime) : EventBody :=
  {| summary := str_opt (title self);
     Calendar.description := description self;
     start := {| dateTime := isoformat start_time; timeZone := "UTC" |};
     end_ := {| dateTime := isoformat end_time; timeZone := "UTC" |};
     reminders :=
       {| useDefault := false;
          overrides := [ {| method := "email"; minutes := 30 |};
                         {| method := "popup"; minutes := 15 |} ] |};
     attendees := [calendar_email env];
     sendUpdates := "all" |}.

(** [socket.setdefaulttimeout(API_TIMEOUT)], which rejects a negative
    value. *)
Definition setdefaulttimeout : M unit :=
  emit (SetDefaultTimeout (API_TIMEOUT cfg)) ;;
  if (API_TIMEOUT cfg <? 0)%Z then raise (Exception "Timeout value out of range")
  else ret tt.

(** The inner [try] block of [run]. *)
Definition submit (self : t) (date : string) : M string :=
  emit BuildService ;;
  lift_unit (build env) ;;
  setdefaulttimeout ;;
  start_time <- lift (strptime_datetime env (date ++ " " ++ str_opt (time self))) ;;
  end_time <- lift (add_minutes start_time (duration_minutes self)) ;;
  let event := event_body self start_time end_time in
  emit (LogEventBody DEBUG event) ;;
  emit (ApiInsert "primary" event) ;;
  result <- lift (events_insert env event) ;;
  ret ("Meeting '" ++ str_opt (title self) ++ "' scheduled for " ++ date ++ " at "
       ++ str_opt (time self) ++ " (Duration: " ++ str_int (duration_minutes self)
       ++ " minutes)" ++ String "010" "Calendar link: " ++ str_opt (res_htmlLink result)).

Definition run (self : t) : M string :=
  try_except
    (log INFO ("Creating calendar event: " ++ str_opt (title self)) ;;
     let date := if truthy (date self) then date self else today env in
     auth <- authenticate_calendar cfg env ;;
     match auth with
     | None => raise (Exception "cannot unpack non-iterable NoneType object")
     | Some (creds, error) =>
         if truthy_opt error then ret (str_opt error)
         else
           match creds with
           | None => ret "Failed to authenticate with Google Calendar."
           | Some _ =>
               try_except (submit self date)
                 (fun e =>
                    match e with
                    | TimeoutError _ =>
                        log WARNING "API timeout" ;;
                        ret "Calendar API request timed out. Please try again."
                    | Exception msg =>
                        log ERROR ("API error: " ++ msg) ;;
                        ret ("Error creating calendar event: " ++ msg)
                    end)
           end
     end)
    (fun e =>
       log ERROR ("Unexpected error: " ++ str_exn e) ;;
       ret ("Error creating calendar event: " ++ str_exn e)).

(** A call of the tool: the arguments are validated when the tool object
    is constructed, and [run] is invoked on the object only afterwards. *)
Definition call (args : Args) (fs : FS)
  : (ValidationError + result string) * FS * list Effect :=
  match new env args with
  | inl err => (inl err, fs, [])
  | inr self =>
      match run self fs with
      | (r, fs', t) => (inr r, fs', t)
      end
  end.

End Run.

End CreateCalendarEvent.

(** ** [CancelCalendarEvent] *)

Module CancelCalendarEvent.

Record t : Type := mk {
  title : option string;
  date : string;
  time : option string
}.

Section Run.

Variable cfg : Config.
Variable env : Env.

Definition setdefaulttimeout : M unit :=
  emit (SetDefaultTimeout (API_TIMEOUT cfg)) ;;
  if (API_TIMEOUT cfg <? 0)%Z then raise (Exception "Timeout value out of range")
  else ret tt.

(** [event['start'].get('dateTime', event['start'].get('date'))] *)
Definition start_of (event : RemoteEvent) : option string :=
  match ev_dateTime event with
  | Some s => Some s
  | None => ev_date event
  end.

(** [datetime.fromisoformat(start.replace('Z', '+00:00'))] *)
Definition event_time_of (event : RemoteEvent) : result datetime :=
  match start_of event with
  | None => Raise (Exception "'NoneType' object has no attribute 'replace'")
  | Some s => fromisoformat env (replace_char "Z" "+00:00" s)
  end.

(** The loop that keeps the events starting at the hour and minute of
    [target_time]; it performs no effect, and stops at the first event whose
    start cannot be read. *)
Fixpoint filter_by_time (target_time : datetime) (events : list RemoteEvent)
  : result (list RemoteEvent) :=
  match events with
  | [] => Ok []
  | event :: rest =>
      match event_time_of event with
      | Raise e => Raise e
      | Ok event_time =>
          match filter_by_time target_time rest with
          | Raise e => Raise e
          | Ok matching =>
              if (hour event_time =? hour target_time)%Z
                 && (minute event_time =? minute target_time)%Z
              then Ok (event :: matching)
              else Ok matching
          end
      end
  end.

(** [if self.time: ... events = matching_events] *)
Definition matching_events (self : t) (date : string) (events : list RemoteEvent)
  : result (list RemoteEvent) :=
  if truthy_opt (time self) then
    match strptime_datetime env (date ++ " " ++ str_opt (time self)) with
    | Raise e => Raise e
    | Ok target_time => filter_by_time target_time events
    end
  else Ok events.

(** The arguments of the list request. *)
Definition list_query (self : t) (date_obj : datetime) : ListQuery :=
  {| q_calendarId := "primary";
     q_timeMin := isoformat (replace_time date_obj 0 0 0) ++ "Z";
     q_timeMax := isoformat (replace_time date_obj 23 59 59) ++ "Z";
     q_q := title self;
     q_singleEvents := true;
     q_orderBy := "startTime" |}.

(** One iteration of the delete loop: the request, and the handler that logs
    a failure and goes on. *)
Definition delete_one (k : nat) (event : RemoteEvent) (deleted_count : Z) : M Z :=
  try_except
    (emit (ApiDelete "primary" (ev_id event)) ;;
     lift_unit (events_delete env k (ev_id event)) ;;
     ret (deleted_count + 1)%Z)
    (fun e =>
       log ERROR ("Error deleting event " ++ ev_id event ++ ": " ++ str_exn e) ;;
       ret deleted_count).

(** [for event in events: ...], [k] counting the delete requests made. *)
Fixpoint delete_events (k : nat) (events : list RemoteEvent) (deleted_count : Z) : M Z :=
  match events with
  | [] => ret deleted_count
  | event :: rest =>
      c <- delete_one k event deleted_count ;;
      delete_events (S k) rest c
  end.

(** The message chosen from [deleted_count]. *)
Definition report (self_title : option string) (date : string) (deleted_count : Z) : string :=
  if (deleted_count =? 1)%Z then
    "Successfully cancelled the meeting '" ++ str_opt self_title ++ "' on " ++ date
  else if (1 <? deleted_count)%Z then
    "Successfully cancelled " ++ str_int deleted_count ++ " occurrences of '"
    ++ str_opt self_title ++ "' on " ++ date
  else "Failed to cancel any events".

Definition is_empty {A} (l : list A) : bool :=
  match l with
  | [] => true
  | _ :: _ => false
  end.

(** The inner [try] block of [run]. *)
Definition search_and_delete (self : t) (date : string) : M string :=
  emit BuildService ;;
  lift_unit (build env) ;;
  setdefaulttimeout ;;
  date_obj <- lift (strptime_date env date) ;;
  let query := list_query self date_obj in
  emit (ApiList query) ;;
  events <- lift (events_list env query) ;;
  if is_empty events then
    ret ("No events found matching '" ++ str_opt (title self) ++ "' on " ++ date)
  else
    events <- lift (matching_events self date events) ;;
    if is_empty events then
      ret ("No events found matching '" ++ str_opt (title self) ++ "' at "
           ++ str_opt (time self) ++ " on " ++ date)
    else
      deleted_count <- delete_events 0 events 0%Z ;;
      ret (report (title self) date deleted_count).

Definition run (self : t) : M string :=
  try_except
    (log INFO ("Attempting to cancel event: " ++ str_opt (title self)) ;;
     let date := if truthy (date self) then date self else today env in
     auth <- authenticate_calendar cfg env ;;
     match auth with
     | None => raise (Exception "cannot unpack non-iterable NoneType object")
     | Some (creds, error) =>
         if truthy_opt error then ret (str_opt error)
         else
           match creds with
           | None => ret "Failed to authenticate with Google Calendar."
           | Some _ =>
               try_except (search_and_delete self date)
                 (fun e =>
                    match e with
                    | TimeoutError _ =>
                        log WARNING "API timeout" ;;
                        ret "Calendar API request timed out. Please try again."
                    | Exception msg =>
                        log ERROR ("API error: " ++ msg) ;;
                        ret ("Error cancelling calendar event: " ++ msg)
                    end)
           end
     end)
    (fun e =>
       log ERROR ("Unexpected error: " ++ str_exn e) ;;
       ret ("Error cancelling calendar event: " ++ str_exn e)).

End Run.

End CancelCalendarEvent.

(** ** Vocabulary of the statements *)

(** The effects that [authenticate_calendar] can perform. *)
Definition is_auth_effect (e : Effect) : bool :=
  match e with
  | Log _ _ | Sleep _ | ReadToken | RefreshRequest _ | RunLocalServer | WriteToken _ => true
  | _ => false
  end.

Definition is_interactive_flow (e : Effect) : bool :=
  match e with
  | RunLocalServer => true
  | _ => false
  end.

Definition is_token_write (e : Effect) : bool :=
  match e with
  | WriteToken _ => true
  | _ => false
  end.

Definition is_remote_call (e : Effect) : bool :=
  match e with
  | RefreshRequest _ | RunLocalServer | BuildService
  | ApiInsert _ _ | ApiList _ | ApiDelete _ _ => true
  | _ => false
  end.

(** The two shapes of the pair that [authenticate_calendar] is declared to
    return: a credential and no error, or no credential and a message. *)
Definition well_shaped (r : AuthResult) : Prop :=
  (exists c, r = (Some c, None)) \/
  (exists msg, r = (None, Some msg) /\ truthy msg = true).

(** The event ids of the delete requests among some effects, in order. *)
Fixpoint delete_requests (t : list Effect) : list string :=
  match t with
  | [] => []
  | ApiDelete _ eventId :: rest => eventId :: delete_requests rest
  | _ :: rest => delete_requests rest
  end.

(** How many of the delete requests for [events] succeed, when the first of
    them is the [k]-th request of the run. *)
Fixpoint deleted (env : Env) (k : nat) (events : list RemoteEvent) : Z :=
  match events with
  | [] => 0
  | event :: rest =>
      (match events_delete env k (ev_id event) with
       | None => 1
       | Some _ => 0
       end + deleted env (S k) rest)%Z
  end.

(** What one timed-out attempt leaves in the trace: its own effects, the
    warning of the handler, and the retry delay unless it was the last. *)
Definition timed_out_attempt (cfg : Config) (env : Env) (fs : FS) (attempt : nat)
  : list Effect :=
  (effects (attempt_body cfg env attempt fs)
   ++ [Log WARNING ("Authentication timeout on attempt " ++ str_int (Z.of_nat attempt + 1))]
   ++ (if (Z.of_nat attempt <? MAX_RETRIES cfg - 1)%Z then [Sleep (RETRY_DELAY cfg)]
       else []))%list.

(** The start of [event] is at another hour or minute than [target]. *)
Definition starts_elsewhere (env : Env) (target : datetime) (event : RemoteEvent) : Prop :=
  exists event_time,
    CancelCalendarEvent.event_time_of env event = Ok event_time /\
    (hour event_time <> hour target \/ minute event_time <> minute target).

(** Decimal digits, for reading a count back from a message. *)
Definition is_digit (c : ascii) : bool :=
  match c with
  | "0" | "1" | "2" | "3" | "4" | "5" | "6" | "7" | "8" | "9" => true
  | _ => false
  end%char.

Fixpoint all_digits (s : string) : bool :=
  match s with
  | EmptyString => true
  | String c rest => is_digit c && all_digits rest
  end.

Module DTFacts.

Local Open Scope Z_scope.

Definition ord_of (p : Z * Z * Z) : Z :=
  match p with (y, m, d) => ymd2ord y m d end.

(** The month and the day that [ord2ymd] finds for day [n] of a year. *)
Definition month_day (n : Z) (leapyear : bool) : Z * Z :=
  let m := Z.shiftr (n + 50) 5 in
  let preceding := DAYS_BEFORE_MONTH m + (if (2 <? m) && leapyear then 1 else 0) in
  if n <? preceding then
    let m' := m - 1 in
    let preceding' :=
      preceding - (DAYS_IN_MONTH m' + (if (m' =? 2) && leapyear then 1 else 0)) in
    (m', n - preceding' + 1)
  else (m, n - preceding + 1).

Definition month_day_ok (leapyear : bool) (n : Z) : bool :=
  match month_day n leapyear with
  | (m, d) =>
      DAYS_BEFORE_MONTH m + (if (2 <? m) && leapyear then 1 else 0) + d =? n + 1
  end.

Fixpoint holds_from (p : Z -> bool) (fuel : nat) (n : Z) : bool :=
  match fuel with
  | O => true
  | S fuel' => p n && holds_from p fuel' (n + 1)
  end.

(** The month and the day found for day [n] of a year are a month of the
    year and a day of that month. *)
Definition month_day_valid (leapyear : bool) (n : Z) : bool :=
  match month_day n leapyear with
  | (m, d) =>
      (1 <=? m) && (m <=? 12) && (1 <=? d)
      && (d <=? DAYS_IN_MONTH m + (if (m =? 2) && leapyear then 1 else 0))
  end.

End DTFacts.

(** ** Sample worlds *)

Module Sample.

Definition stored : Credentials :=
  {| token := Some "ya29.stored"; expired := false; refresh_token := Some "1//r" |}.

Definition stale : Credentials :=
  {| token := Some "ya29.stale"; expired := true; refresh_token := Some "1//r" |}.

Definition fresh : Credentials :=
  {| token := Some "ya29.fresh"; expired := false; refresh_token := Some "1//r" |}.

Definition standup : RemoteEvent :=
  {| ev_id := "ev1"; ev_dateTime := Some "2024-03-15T09:00:00Z"; ev_date := None |}.

Definition standup_again : RemoteEvent :=
  {| ev_id := "ev2"; ev_dateTime := Some "2024-03-15T16:00:00Z"; ev_date := None |}.

(** A world in which the OAuth flow and the refresh answer with [fresh], the
    calendar holds [events] on 2024-03-15, and every request succeeds. *)
Definition env_with (events : list RemoteEvent) : Env :=
  {| import_day := "2024-03-01";
     today := "2024-03-15";
     calendar_email := "me@example.com";
     credentials_exists := true;
     from_client_secrets_file := fun _ => None;
     run_local_server := fun _ => Ok fresh;
     refresh := fun _ _ => Ok fresh;
     build := None;
     parse_Ymd_HM := fun s =>
       if (s =? "2024-03-15 14:30")%string then Ok (2024, 3, 15, 14, 30)%Z
       else if (s =? "2024-12-31 23:30")%string then Ok (2024, 12, 31, 23, 30)%Z
       else Raise (Exception ("time data '" ++ s
                              ++ "' does not match format '%Y-%m-%d %H:%M'"));
     parse_Ymd := fun s =>
       if (s =? "2024-03-15")%string then Ok (2024, 3, 15)%Z
       else Raise (Exception ("time data '" ++ s
                              ++ "' does not match format '%Y-%m-%d'"));
     fromisoformat := fun s =>
       if (s =? "2024-03-15T09:00:00+00:00")%string then Ok (mkdt 2024 3 15 9 0 0)
       else if (s =? "2024-03-15T16:00:00+00:00")%string then Ok (mkdt 2024 3 15 16 0 0)
       else Raise (Exception ("Invalid isoformat string: '" ++ s ++ "'"));
     events_insert := fun _ =>
       Ok {| res_id := Some "new1";
             res_htmlLink := Some "https://calendar.example/event?eid=new1" |};
     events_list := fun _ => Ok events;
     events_delete := fun _ _ => None |}.

Definition env : Env := env_with [standup; standup_again].

(** The same world, except that every run of the OAuth flow times out. *)
Definition env_timeout : Env :=
  {| import_day := import_day env; today := today env;
     calendar_email := calendar_email env;
     credentials_exists := true;
     from_client_secrets_file := fun _ => None;
     run_local_server := fun _ => Raise (TimeoutError EmptyString);
     refresh := refresh env; build := None;
     parse_Ymd_HM := parse_Ymd_HM env; parse_Ymd := parse_Ymd env;
     fromisoformat := fromisoformat env;
     events_insert := events_insert env; events_list := events_list env;
     events_delete := events_delete env |}.

Definition no_retries : Config :=
  {| AUTH_TIMEOUT := 15; API_TIMEOUT := 10; MAX_RETRIES := 0; RETRY_DELAY := 1 # 1 |}.

Definition meeting : CreateCalendarEvent.t :=
  {| CreateCalendarEvent.title := Some "Review";
     CreateCalendarEvent.date := "2024-12-31";
     CreateCalendarEvent.time := Some "23:30";
     CreateCalendarEvent.duration_minutes := 45;
     CreateCalendarEvent.description := EmptyString |}.

Definition cancel_all : CancelCalendarEvent.t :=
  {| CancelCalendarEvent.title := Some "Standup";
     CancelCalendarEvent.date := "2024-03-15";
     CancelCalendarEvent.time := None |}.

Definition cancel_at_1430 : CancelCalendarEvent.t :=
  {| CancelCalendarEvent.title := Some "Standup";
     CancelCalendarEvent.date := "2024-03-15";
     CancelCalendarEvent.time := Some "14:30" |}.

End Sample.

(** ** The schemas and the construction of [CancelCalendarEvent]

    The rest of the two classes: the property [schema] of each tool, and the
    fields of [CancelCalendarEvent], none of which carries a constraint. *)

Module Json.

Local Set Warnings "-register-all".

(** The values a schema dictionary is made of. *)
Inductive t : Type :=
| Null
| Str (s : string)
| Int (n : Z)
| Arr (items : list t)
| Obj (fields : list (string * t)).

Fixpoint assoc (key : string) (fields : list (string * t)) : option t :=
  match fields with
  | [] => None
  | (k, v) :: rest => if (k =? key)%string then Some v else assoc key rest
  end.

(** [j[key]] for a dictionary [j]; [None] when [j] is no dictionary or has
    no such key. *)
Definition get (key : string) (j : t) : option t :=
  match j with
  | Obj fields => assoc key fields
  | _ => None
  end.

(** [j[k1][k2]...] *)
Fixpoint path (keys : list string) (j : t) : option t :=
  match keys with
  | [] => Some j
  | k :: rest =>
      match get k j with
      | Some j' => path rest j'
      | None => None
      end
  end.

Definition keys (j : t) : list string :=
  match j with
  | Obj fields => map fst fields
  | _ => []
  end.

End Json.

(** [CreateCalendarEvent.schema]; the default of [date] is computed each time
    the property is read. *)
Definition CreateCalendarEvent_schema (env : Env) : Json.t :=
  Json.Obj
    [ ("name", Json.Str "createcalendarevent");
      ("type", Json.Str "function");
      ("description", Json.Str "Creates a new event in Google Calendar");
      ("parameters", Json.Obj
         [ ("type", Json.Str "object");
           ("properties", Json.Obj
              [ ("title", Json.Obj
                   [ ("type", Json.Str "string");
                     ("description", Json.Str "Title of the meeting") ]);
                ("date", Json.Obj
                   [ ("type", Json.Str "string");
                     ("description", Json.Str "Date of the meeting (YYYY-MM-DD format)");
                     ("default", Json.Str (today env)) ]);
                ("time", Json.Obj
                   [ ("type", Json.Str "string");
                     ("description",
                      Json.Str "Start time of the meeting (HH:MM format in 24-hour)") ]);
                ("duration_minutes", Json.Obj
                   [ ("type", Json.Str "integer");
                     ("description", Json.Str "Duration of the meeting in minutes");
                     ("default", Json.Int 30);
                     ("minimum", Json.Int 1);
                     ("maximum", Json.Int 480) ]);
                ("description", Json.Obj
                   [ ("type", Json.Str "string");
                     ("description", Json.Str "Optional description for the meeting");
                     ("default", Json.Str EmptyString) ]) ]);
           ("required", Json.Arr [Json.Str "title"; Json.Str "time"]) ]) ].

(** [CancelCalendarEvent.schema] *)
Definition CancelCalendarEvent_schema (env : Env) : Json.t :=
  Json.Obj
    [ ("name", Json.Str "cancelcalendarevent");
      ("type", Json.Str "function");
      ("description",
       Json.Str "Cancels/deletes a calendar event based on title and date/time");
      ("parameters", Json.Obj
         [ ("type", Json.Str "object");
           ("properties", Json.Obj
              [ ("title", Json.Obj
                   [ ("type", Json.Str "string");
                     ("description", Json.Str "Title of the meeting to cancel") ]);
                ("date", Json.Obj
                   [ ("type", Json.Str "string");
                     ("description", Json.Str "Date of the meeting (YYYY-MM-DD format)");
                     ("default", Json.Str (today env)) ]);
                ("time", Json.Obj
                   [ ("type", Json.Str "string");
                     ("description",
                      Json.Str "Time of the meeting (HH:MM format in 24-hour). Optional.");
                     ("default", Json.Null) ]) ]);
           ("required", Json.Arr [Json.Str "title"]) ]) ].

(** The keyword arguments of [CancelCalendarEvent]; [None] is an omitted
    argument. *)
Record CancelArgs : Type := mkCancelArgs {
  cancel_arg_title : option string;
  cancel_arg_date : option string;
  cancel_arg_time : option string
}.

(** Construction of [CancelCalendarEvent]: the defaults of its three fields;
    no field has a constraint, so no argument is rejected. *)
Definition CancelCalendarEvent_new (env : Env) (args : CancelArgs) : CancelCalendarEvent.t :=
  {| CancelCalendarEvent.title := cancel_arg_title args;
     CancelCalendarEvent.date :=
       match cancel_arg_date args with Some s => s | None => import_day env end;
     CancelCalendarEvent.time := cancel_arg_time args |}.

(** ** More vocabulary *)

(** The message a handler of [authenticate_calendar] returns for the
    exception of the last attempt. *)
Definition terminal_message (e : exn) : string :=
  match e with
  | TimeoutError _ => "Authentication timed out after multiple attempts."
  | Exception msg => "Authentication failed: " ++ msg
  end.

(** The line a handler of [authenticate_calendar] logs. *)
Definition handler_log (attempt : nat) (e : exn) : Effect :=
  match e with
  | TimeoutError _ =>
      Log WARNING ("Authentication timeout on attempt " ++ str_int (Z.of_nat attempt + 1))
  | Exception msg =>
      Log ERROR ("Authentication error on attempt " ++ str_int (Z.of_nat attempt + 1)
                 ++ ": " ++ msg)
  end.

(** What one failed attempt leaves in the trace: its own effects, the line of
    the handler, and the retry delay unless it was the last. *)
Definition failed_attempt (cfg : Config) (env : Env) (fs : FS) (attempt : nat)
  : list Effect :=
  (effects (attempt_body cfg env attempt fs)
   ++ match value (attempt_body cfg env attempt fs) with
      | Raise e => [handler_log attempt e]
      | Ok _ => []
      end
   ++ (if (Z.of_nat attempt <? MAX_RETRIES cfg - 1)%Z then [Sleep (RETRY_DELAY cfg)]
       else []))%list.

(** The token file holds nothing that an attempt could return or refresh:
    there is no file, or its credential is neither valid nor both expired and
    equipped with a refresh token. *)
Definition needs_interactive_flow (fs : FS) : Prop :=
  fs = None \/
  exists c, fs = Some (Pickled c) /\ valid c = false /\
            expired c && truthy_opt (refresh_token c) = false.

(** The credentials written to the token file among some effects, in order. *)
Fixpoint token_writes (t : list Effect) : list Credentials :=
  match t with
  | [] => []
  | WriteToken c :: rest => c :: token_writes rest
  | _ :: rest => token_writes rest
  end.

(** The bodies of the insert requests among some effects, in order. *)
Fixpoint insert_requests (t : list Effect) : list EventBody :=
  match t with
  | [] => []
  | ApiInsert _ body :: rest => body :: insert_requests rest
  | _ :: rest => insert_requests rest
  end.

(** The keyword arguments of a call of [service.events().insert]: the two
    that the source passes, and [sendUpdates], the request parameter by which
    the service is asked to notify the attendees. *)
Record InsertCall : Type := mkInsertCall {
  call_calendarId : string;
  call_body : EventBody;
  call_sendUpdates : option string
}.

(** [service.events().insert(calendarId='primary', body=event)]: the call of
    the source passes [calendarId] and [body] and no [sendUpdates]. *)
Definition insert_call (calendarId : string) (body : EventBody) : InsertCall :=
  {| call_calendarId := calendarId; call_body := body; call_sendUpdates := None |}.

(** The insert calls among some effects, in order. *)
Fixpoint insert_calls (t : list Effect) : list InsertCall :=
  match t with
  | [] => []
  | ApiInsert calendarId body :: rest => insert_call calendarId body :: insert_calls rest
  | _ :: rest => insert_calls rest
  end.

(** The effects that reach the calendar service. *)
Definition is_calendar_request (e : Effect) : bool :=
  match e with
  | BuildService | ApiInsert _ _ | ApiList _ | ApiDelete _ _ => true
  | _ => false
  end.

(** [event] starts at the hour and the minute of [target]. *)
Definition starts_at (env : Env) (target : datetime) (event : RemoteEvent) : bool :=
  match CancelCalendarEvent.event_time_of env event with
  | Ok event_time =>
      (hour event_time =? hour target)%Z && (minute event_time =? minute target)%Z
  | Raise _ => false
  end.

(** What [CreateCalendarEvent.run] answers for the outcome of the insert
    request. *)
Definition create_answer (self : CreateCalendarEvent.t) (date : string)
  (outcome : result InsertResult) : string :=
  match outcome with
  | Ok result =>
      "Meeting '" ++ str_opt (CreateCalendarEvent.title self) ++ "' scheduled for "
      ++ date ++ " at " ++ str_opt (CreateCalendarEvent.time self) ++ " (Duration: "
      ++ str_int (CreateCalendarEvent.duration_minutes self) ++ " minutes)"
      ++ String "010" "Calendar link: " ++ str_opt (res_htmlLink result)
  | Raise (TimeoutError _) => "Calendar API request timed out. Please try again."
  | Raise (Exception msg) => "Error creating calendar event: " ++ msg
  end.

(** What the handlers of the inner [try] of [CreateCalendarEvent.run] make of
    the outcome of the inner block. *)
Definition create_handled (x : result string * FS * list Effect)
  : result string * FS * list Effect :=
  match x with
  | (Ok msg, fs2, t2) => (Ok msg, fs2, t2)
  | (Raise (TimeoutError _), fs2, t2) =>
      (Ok "Calendar API request timed out. Please try again.", fs2,
       (t2 ++ [Log WARNING "API timeout"])%list)
  | (Raise (Exception m), fs2, t2) =>
      (Ok ("Error creating calendar event: " ++ m), fs2,
       (t2 ++ [Log ERROR ("API error: " ++ m)])%list)
  end.

(** The same for [CancelCalendarEvent.run]. *)
Definition cancel_handled (x : result string * FS * list Effect)
  : result string * FS * list Effect :=
  match x with
  | (Ok msg, fs2, t2) => (Ok msg, fs2, t2)
  | (Raise (TimeoutError _), fs2, t2) =>
      (Ok "Calendar API request timed out. Please try again.", fs2,
       (t2 ++ [Log WARNING "API timeout"])%list)
  | (Raise (Exception m), fs2, t2) =>
      (Ok ("Error cancelling calendar event: " ++ m), fs2,
       (t2 ++ [Log ERROR ("API error: " ++ m)])%list)
  end.

(** What [CancelCalendarEvent.run] answers when its inner block raises. *)
Definition cancel_error_answer (e : exn) : string :=
  match e with
  | TimeoutError _ => "Calendar API request timed out. Please try again."
  | Exception msg => "Error cancelling calendar event: " ++ msg
  end.

(** The queries of the list requests among some effects, in order. *)
Fixpoint list_requests (t : list Effect) : list ListQuery :=
  match t with
  | [] => []
  | ApiList q :: rest => q :: list_requests rest
  | _ :: rest => list_requests rest
  end.

(** ** More sample worlds *)

Module Scenario.

(** A stored credential that is expired and cannot be refreshed. *)
Definition lapsed : Credentials :=
  {| token := Some "ya29.lapsed"; expired := true; refresh_token := None |}.

(** [Sample.env_with events] in which the answers that differ are given:
    whether the client secret file exists, what the OAuth flow and the
    refresh answer at each attempt, and what a delete request answers. *)
Definition world (events : list RemoteEvent) (secret : bool)
  (flow : nat -> result Credentials) (refreshed : nat -> result Credentials)
  (insert : result InsertResult) (listing : result (list RemoteEvent))
  (delete : nat -> option exn) : Env :=
  {| import_day := "2024-03-01";
     today := "2024-03-15";
     calendar_email := calendar_email (Sample.env_with events);
     credentials_exists := secret;
     from_client_secrets_file := fun _ => None;
     run_local_server := flow;
     refresh := fun k _ => refreshed k;
     build := None;
     parse_Ymd_HM := fun s =>
       if (s =? "2024-03-01 14:30")%string then Ok (2024, 3, 1, 14, 30)%Z
       else if (s =? "9999-12-31 23:30")%string then Ok (9999, 12, 31, 23, 30)%Z
       else if (s =? "2024-03-15 09:00")%string then Ok (2024, 3, 15, 9, 0)%Z
       else if (s =? "2024-02-30 10:00")%string then Ok (2024, 2, 30, 10, 0)%Z
       else parse_Ymd_HM (Sample.env_with events) s;
     parse_Ymd := fun s =>
       if (s =? "2024-03-01")%string then Ok (2024, 3, 1)%Z
       else parse_Ymd (Sample.env_with events) s;
     fromisoformat := fromisoformat (Sample.env_with events);
     events_insert := fun _ => insert;
     events_list := fun _ => listing;
     events_delete := fun k _ => delete k |}.

(** The OAuth flow fails once with a timeout and then succeeds. *)
Definition second_try : Env :=
  world [] true
    (fun k => match k with O => Raise (TimeoutError EmptyString) | _ => Ok Sample.fresh end)
    (fun _ => Ok Sample.fresh)
    (Ok {| res_id := Some "new1"; res_htmlLink := Some "https://calendar.example/new1" |})
    (Ok []) (fun _ => None).

(** Every run of the OAuth flow fails: first a timeout, then refusals. *)
Definition refused : Env :=
  world [] true
    (fun k => match k with
              | O => Raise (TimeoutError EmptyString)
              | _ => Raise (Exception "access_denied")
              end)
    (fun _ => Raise (Exception "invalid_grant"))
    (Raise (Exception "quota exceeded"))
    (Raise (TimeoutError EmptyString)) (fun _ => None).

(** There is no client secret file. *)
Definition no_secret : Env :=
  world [] false (fun _ => Ok Sample.fresh) (fun _ => Ok Sample.fresh)
    (Raise (Exception "quota exceeded")) (Ok []) (fun _ => None).

(** The insert request is refused. *)
Definition insert_refused : Env :=
  world [] true (fun _ => Ok Sample.fresh) (fun _ => Ok Sample.fresh)
    (Raise (Exception "quota exceeded")) (Ok []) (fun _ => None).

(** An event of the answer has no start that can be read. *)
Definition untimed : RemoteEvent :=
  {| ev_id := "ev3"; ev_dateTime := None; ev_date := None |}.

Definition with_untimed : Env :=
  world [] true (fun _ => Ok Sample.fresh) (fun _ => Ok Sample.fresh)
    (Raise (Exception "quota exceeded"))
    (Ok [Sample.standup; untimed]) (fun _ => None).

(** Two events are found; the first delete request fails. *)
Definition first_delete_fails : Env :=
  world [] true (fun _ => Ok Sample.fresh) (fun _ => Ok Sample.fresh)
    (Raise (Exception "quota exceeded"))
    (Ok [Sample.standup; Sample.standup_again])
    (fun k => match k with O => Some (Exception "410 Gone") | _ => None end).

(** The list request times out. *)
Definition listing_times_out : Env :=
  world [] true (fun _ => Ok Sample.fresh) (fun _ => Ok Sample.fresh)
    (Raise (Exception "quota exceeded"))
    (Raise (TimeoutError EmptyString)) (fun _ => None).

Definition last_evening : CreateCalendarEvent.t :=
  {| CreateCalendarEvent.title := Some "Review";
     CreateCalendarEvent.date := "9999-12-31";
     CreateCalendarEvent.time := Some "23:30";
     CreateCalendarEvent.duration_minutes := 45;
     CreateCalendarEvent.description := EmptyString |}.

Definition unparsable : CreateCalendarEvent.t :=
  {| CreateCalendarEvent.title := Some "Review";
     CreateCalendarEvent.date := "2024-03-15";
     CreateCalendarEvent.time := Some "25:99";
     CreateCalendarEvent.duration_minutes := 45;
     CreateCalendarEvent.description := EmptyString |}.

(** A day that February does not have. *)
Definition february_30 : CreateCalendarEvent.t :=
  {| CreateCalendarEvent.title := Some "Review";
     CreateCalendarEvent.date := "2024-02-30";
     CreateCalendarEvent.time := Some "10:00";
     CreateCalendarEvent.duration_minutes := 45;
     CreateCalendarEvent.description := EmptyString |}.

Definition cancel_at_0900 : CancelCalendarEvent.t :=
  {| CancelCalendarEvent.title := Some "Standup";
     CancelCalendarEvent.date := "2024-03-15";
     CancelCalendarEvent.time := Some "09:00" |}.

End Scenario.

(** * Facts *)

Module DTLemmas.

Import DTFacts.
Local Open Scope Z_scope.

Lemma holds_from_sound p fuel : forall n k,
  holds_from p fuel n = true -> n <= k < n + Z.of_nat fuel -> p k = true.
Proof.
  induction fuel as [|fuel IH]; intros n k H Hk.
  - simpl in Hk. lia.
  - cbn [holds_from] in H. apply andb_prop in H. destruct H as [H0 H1].
    destruct (Z.eq_dec k n) as [->|Hne]; [assumption|].
    apply (IH (n + 1)); [assumption|lia].
Qed.

(** Within a year, by evaluation over its days. *)
Lemma month_day_year leapyear n : 0 <= n < 365 -> month_day_ok leapyear n = true.
Proof.
  intros H.
  apply (holds_from_sound (month_day_ok leapyear) 365 0); [|lia].
  destruct leapyear; vm_compute; reflexivity.
Qed.

(** [_ord2ymd] is a right inverse of [_ymd2ord]. *)
Lemma ymd2ord_ord2ymd n : ord_of (ord2ymd n) = n.
Proof.
  unfold ord2ymd.
  set (a := n - 1).
  pose proof (Z.div_mod a DI400Y ltac:(discriminate)) as E400.
  pose proof (Z.mod_pos_bound a DI400Y eq_refl) as B400.
  set (n400 := a / DI400Y) in *. set (r400 := a mod DI400Y) in *.
  pose proof (Z.div_mod r400 DI100Y ltac:(discriminate)) as E100.
  pose proof (Z.mod_pos_bound r400 DI100Y eq_refl) as B100.
  set (n100 := r400 / DI100Y) in *. set (r100 := r400 mod DI100Y) in *.
  pose proof (Z.div_mod r100 DI4Y ltac:(discriminate)) as E4.
  pose proof (Z.mod_pos_bound r100 DI4Y eq_refl) as B4.
  set (n4 := r100 / DI4Y) in *. set (r4 := r100 mod DI4Y) in *.
  pose proof (Z.div_mod r4 365 ltac:(discriminate)) as E1.
  pose proof (Z.mod_pos_bound r4 365 eq_refl) as B1.
  set (n1 := r4 / 365) in *. set (r1 := r4 mod 365) in *.
  unfold DI400Y, DI100Y, DI4Y in *.
  assert (Hn100 : 0 <= n100 <= 4) by lia.
  assert (Hn4 : 0 <= n4 <= 24) by lia.
  assert (Hn1 : 0 <= n1 <= 4) by lia.
  destruct ((n1 =? 4) || (n100 =? 4)) eqn:Elast.
  - (* the last day of a leap year *)
    cbn [ord_of]. unfold ymd2ord, days_before_month, days_before_year, is_leap.
    cbn [DAYS_BEFORE_MONTH Z.ltb Z.compare Pos.compare Pos.compare_cont andb].
    apply orb_true_iff in Elast. rewrite !Z.eqb_eq in Elast.
    set (y := n400 * 400 + 1 + n100 * 100 + n4 * 4 + n1 - 1).
    assert (Hl : (y mod 4 =? 0) && (negb (y mod 100 =? 0) || (y mod 400 =? 0)) = true).
    { subst y. destruct Elast as [E|E].
      - assert (n4 <> 24) by lia.
        replace ((n400 * 400 + 1 + n100 * 100 + n4 * 4 + n1 - 1) mod 4) with 0
          by (Z.div_mod_to_equations; lia).
        destruct (Z.eqb_spec ((n400 * 400 + 1 + n100 * 100 + n4 * 4 + n1 - 1) mod 100) 0)
          as [E'|E']; [exfalso; Z.div_mod_to_equations; lia|reflexivity].
      - replace ((n400 * 400 + 1 + n100 * 100 + n4 * 4 + n1 - 1) mod 4) with 0
          by (Z.div_mod_to_equations; lia).
        replace ((n400 * 400 + 1 + n100 * 100 + n4 * 4 + n1 - 1) mod 400) with 0
          by (Z.div_mod_to_equations; lia).
        cbn. apply orb_true_r. }
    rewrite Hl. subst y. Z.div_mod_to_equations. lia.
  - apply orb_false_iff in Elast. rewrite !Z.eqb_neq in Elast.
    set (leapyear := (n1 =? 3) && (negb (n4 =? 24) || (n100 =? 3))).
    pose proof (month_day_year leapyear r1 B1) as Hmd.
    unfold month_day_ok, month_day in Hmd.
    set (y := n400 * 400 + 1 + n100 * 100 + n4 * 4 + n1).
    assert (Hl : is_leap y = leapyear).
    { unfold is_leap, leapyear. subst y.
      destruct (Z.eqb_spec n1 3) as [H3|H3];
        destruct (Z.eqb_spec n4 24) as [H24|H24];
        destruct (Z.eqb_spec n100 3) as [H103|H103]; cbn [negb andb orb];
        repeat match goal with
               | |- context [(?x mod ?k =? 0)] =>
                   destruct (Z.eqb_spec (x mod k) 0)
               end; cbn [negb andb orb]; try reflexivity;
        exfalso; Z.div_mod_to_equations; lia. }
    assert (Hy : days_before_year y = a - r1).
    { unfold days_before_year. subst y. Z.div_mod_to_equations. lia. }
    destruct (r1 <? _) eqn:Epre; cbn [ord_of]; unfold ymd2ord, days_before_month;
      rewrite Hl, Hy; apply Z.eqb_eq in Hmd; lia.
Qed.

Lemma construct_ok dt dt' : construct dt = Ok dt' -> dt' = dt /\ check dt = true.
Proof.
  unfold construct, check.
  repeat match goal with
         | |- context [negb ?b] => destruct b; cbn [negb andb]; try discriminate
         end.
  intros H. inversion H. auto.
Qed.

Lemma check_second dt : check dt = true -> 0 <= second dt <= 59.
Proof.
  unfold check. intros H.
  repeat (apply andb_prop in H; destruct H as [H ?]). lia.
Qed.

(** Adding minutes moves a timestamp by that many minutes on the time line
    and keeps its second. *)
Lemma add_minutes_spec dt mins e :
  0 <= second dt <= 59 ->
  add_minutes dt mins = Ok e ->
  minutes_of e = minutes_of dt + mins /\ second e = second dt.
Proof.
  intros Hs. unfold add_minutes.
  set (secs := hour dt * 3600 + minute dt * 60 + second dt + mins * 60).
  destruct ((0 <? toordinal dt + secs / 86400)
            && (toordinal dt + secs / 86400 <=? MAXORDINAL)); [|discriminate].
  pose proof (ymd2ord_ord2ymd (toordinal dt + secs / 86400)) as Hrt.
  destruct (ord2ymd (toordinal dt + secs / 86400)) as [[y m] d].
  intros H. inversion H; subst e; clear H.
  unfold minutes_of, toordinal in *. cbn [year month day hour minute second].
  cbn [ord_of] in Hrt. rewrite Hrt. subst secs.
  split; Z.div_mod_to_equations; lia.
Qed.

End DTLemmas.

(** ** Facts about [authenticate_calendar] *)

Ltac run_m :=
  cbv beta iota zeta delta
    [attempt_iteration attempt_body refresh_credentials new_authentication_flow
     load_token dump_token log sleep try_except bind ret raise emit lift
     lift_unit get_fs put_fs value final_fs effects fst snd].

Ltac step :=
  run_m;
  match goal with
  | |- context [match ?x with _ => _ end] =>
      lazymatch x with
      | context [match _ with _ => _ end] => fail
      | _ => first [is_var x; destruct x | destruct x eqn:?]
      end
  end.

Ltac break := repeat step; run_m.

Section AuthFacts.

Variable cfg : Config.
Variable env : Env.

Lemma range_pos n : (0 < n)%Z -> range n = 0%nat :: seq 1 (Z.to_nat n - 1).
Proof.
  intros H. unfold range.
  destruct (Z.to_nat n) as [|k] eqn:E; [lia|].
  cbn. now rewrite Nat.sub_0_r.
Qed.

Lemma range_nonpos n : (n <= 0)%Z -> range n = [].
Proof.
  intros H. unfold range. replace (Z.to_nat n) with 0%nat by lia. reflexivity.
Qed.

(** A stored credential that is valid is returned by the first iteration. *)
Lemma attempt_iteration_valid attempt c :
  valid c = true ->
  attempt_iteration cfg env attempt (Some (Pickled c)) =
    (Ok (Some (Some c, None)), Some (Pickled c),
     [Log INFO ("Authentication attempt " ++ str_int (Z.of_nat attempt + 1) ++ "/"
                ++ str_int (MAX_RETRIES cfg));
      Sleep (1 # 2); Log DEBUG "Loading existing token"; ReadToken]).
Proof.
  intros H. run_m. rewrite H. reflexivity.
Qed.

Lemma authenticate_valid c :
  (0 < MAX_RETRIES cfg)%Z ->
  valid c = true ->
  authenticate_calendar cfg env (Some (Pickled c)) =
    (Ok (Some (Some c, None)), Some (Pickled c),
     [Log INFO ("Authentication attempt " ++ str_int 1 ++ "/" ++ str_int (MAX_RETRIES cfg));
      Sleep (1 # 2); Log DEBUG "Loading existing token"; ReadToken]).
Proof.
  intros Hn H. unfold authenticate_calendar. rewrite (range_pos _ Hn).
  cbn [for_attempts]. unfold bind at 1.
  rewrite (attempt_iteration_valid 0 c H). reflexivity.
Qed.


(** ** The handlers catch everything. *)
Lemma attempt_iteration_no_raise attempt fs e :
  value (attempt_iteration cfg env attempt fs) <> Raise e.
Proof.
  unfold value. break; cbn; discriminate.
Qed.

(** ** Only an attempt that succeeds through the interactive flow touches the
    token file. *)
Lemma attempt_body_raise_fs attempt fs e :
  value (attempt_body cfg env attempt fs) = Raise e ->
  final_fs (attempt_body cfg env attempt fs) = fs.
Proof.
  unfold value, final_fs. break; cbn; intros; try discriminate; reflexivity.
Qed.

Lemma attempt_iteration_auth_effects attempt fs :
  Forall (fun e => is_auth_effect e = true) (effects (attempt_iteration cfg env attempt fs)).
Proof.
  unfold effects. break; cbn; repeat constructor.
Qed.


Lemma for_attempts_cons attempt rest fs :
  for_attempts cfg env (attempt :: rest) fs =
    match attempt_iteration cfg env attempt fs with
    | (Ok (Some v), fs1, t1) => (Ok (Some v), fs1, t1)
    | (Ok None, fs1, t1) =>
        match for_attempts cfg env rest fs1 with
        | (r, fs2, t2) => (r, fs2, (t1 ++ t2)%list)
        end
    | (Raise e, fs1, t1) => (Raise e, fs1, t1)
    end.
Proof.
  cbn [for_attempts]. unfold bind at 1.
  destruct (attempt_iteration cfg env attempt fs) as [[[[v|]|e] fs1] t1];
    unfold ret; try reflexivity.
  now rewrite app_nil_r.
Qed.

Lemma for_attempts_auth_effects attempts : forall fs,
  Forall (fun e => is_auth_effect e = true) (effects (for_attempts cfg env attempts fs)).
Proof.
  induction attempts as [|attempt rest IH]; intros fs.
  - constructor.
  - rewrite for_attempts_cons.
    pose proof (attempt_iteration_auth_effects attempt fs) as H.
    destruct (attempt_iteration cfg env attempt fs) as [[[[v|]|e] fs1] t1]; try exact H.
    specialize (IH fs1).
    destruct (for_attempts cfg env rest fs1) as [[r fs2] t2].
    unfold effects in *. cbn [snd] in *. apply Forall_app. split; assumption.
Qed.

Lemma authenticate_auth_effects fs :
  Forall (fun e => is_auth_effect e = true) (effects (authenticate_calendar cfg env fs)).
Proof. apply for_attempts_auth_effects. Qed.

(** ** An iteration returns a well-shaped pair, or continues, and it continues
    only when another attempt is left. *)

Lemma attempt_iteration_shape attempt fs :
  match value (attempt_iteration cfg env attempt fs) with
  | Ok (Some r) => well_shaped r
  | Ok None => (Z.of_nat attempt < MAX_RETRIES cfg - 1)%Z
  | Raise _ => False
  end.
Proof.
  unfold value, well_shaped. break; cbn;
    try (left; eexists; reflexivity);
    try (right; eexists; split; reflexivity);
    try (apply Z.ltb_lt; assumption).
Qed.

Lemma for_attempts_shape n : forall a fs,
  (0 < n)%nat ->
  (Z.of_nat (a + n) = MAX_RETRIES cfg)%Z ->
  exists r, value (for_attempts cfg env (seq a n) fs) = Ok (Some r) /\ well_shaped r.
Proof.
  induction n as [|n IH]; intros a fs Hn Ha; [lia|].
  cbn [seq]. rewrite for_attempts_cons.
  pose proof (attempt_iteration_shape a fs) as H.
  destruct (attempt_iteration cfg env a fs) as [[[[v|]|e] fs1] t1];
    unfold value in H; cbn [fst] in H.
  - exists v. split; [reflexivity|assumption].
  - destruct n as [|n']; [lia|].
    destruct (IH (S a) fs1) as [r [Hr Hs]]; [lia|lia|].
    exists r. split; [|assumption].
    destruct (for_attempts cfg env (seq (S a) (S n')) fs1) as [[r' fs2] t2].
    exact Hr.
  - contradiction.
Qed.

(** With at least one attempt configured the method returns a pair of the
    declared shape. *)
Lemma authenticate_shape fs :
  (0 < MAX_RETRIES cfg)%Z ->
  exists r, value (authenticate_calendar cfg env fs) = Ok (Some r) /\ well_shaped r.
Proof.
  intros H. unfold authenticate_calendar, range.
  apply for_attempts_shape; lia.
Qed.

(** With no attempt configured the loop body never runs. *)
Lemma authenticate_no_attempt fs :
  (MAX_RETRIES cfg <= 0)%Z ->
  authenticate_calendar cfg env fs = (Ok None, fs, []).
Proof.
  intros H. unfold authenticate_calendar. now rewrite range_nonpos.
Qed.


(** ** Attempts that time out *)

Lemma attempt_iteration_timeout attempt fs msg :
  value (attempt_body cfg env attempt fs) = Raise (TimeoutError msg) ->
  attempt_iteration cfg env attempt fs =
    ((if (Z.of_nat attempt <? MAX_RETRIES cfg - 1)%Z then Ok None
      else Ok (Some (None, Some "Authentication timed out after multiple attempts."))),
     fs, timed_out_attempt cfg env fs attempt).
Proof.
  intros H. pose proof (attempt_body_raise_fs attempt fs _ H) as Hfs.
  unfold attempt_iteration, timed_out_attempt, try_except, bind at 1.
  destruct (attempt_body cfg env attempt fs) as [[r fs1] t1].
  unfold value, final_fs, effects in *. cbn [fst snd] in *. subst r fs1.
  unfold log, sleep, bind, emit, ret.
  destruct (Z.of_nat attempt <? MAX_RETRIES cfg - 1)%Z; reflexivity.
Qed.

Lemma for_attempts_timeouts n : forall a fs,
  (0 < n)%nat ->
  (Z.of_nat (a + n) = MAX_RETRIES cfg)%Z ->
  (forall k, (a <= k < a + n)%nat ->
     exists msg, value (attempt_body cfg env k fs) = Raise (TimeoutError msg)) ->
  for_attempts cfg env (seq a n) fs =
    (Ok (Some (None, Some "Authentication timed out after multiple attempts.")), fs,
     flat_map (timed_out_attempt cfg env fs) (seq a n)).
Proof.
  induction n as [|n IH]; intros a fs Hn Ha Hall; [lia|].
  cbn [seq flat_map]. rewrite for_attempts_cons.
  destruct (Hall a) as [msg Hmsg]; [lia|].
  rewrite (attempt_iteration_timeout a fs msg Hmsg).
  destruct (Z.of_nat a <? MAX_RETRIES cfg - 1)%Z eqn:E.
  - apply Z.ltb_lt in E.
    rewrite (IH (S a) fs); [reflexivity|lia|lia|].
    intros k Hk. apply Hall. lia.
  - apply Z.ltb_ge in E.
    destruct n as [|n']; [|lia].
    cbn [seq flat_map]. now rewrite app_nil_r.
Qed.

(** ** A stored credential that is expired and has a refresh token *)

Lemma attempt_iteration_refresh attempt c :
  expired c = true ->
  truthy_opt (refresh_token c) = true ->
  final_fs (attempt_iteration cfg env attempt (Some (Pickled c))) = Some (Pickled c) /\
  In (RefreshRequest c) (effects (attempt_iteration cfg env attempt (Some (Pickled c)))) /\
  Forall (fun e => is_interactive_flow e = false /\ is_token_write e = false)
    (effects (attempt_iteration cfg env attempt (Some (Pickled c)))).
Proof.
  intros He Hr.
  assert (Hv : valid c = false).
  { unfold valid. rewrite He. now destruct (token c). }
  run_m. rewrite Hv, He, Hr. cbn [negb andb]. run_m.
  destruct (refresh env attempt c) as [c'|[m|m]]; run_m;
    try destruct (Z.of_nat attempt <? MAX_RETRIES cfg - 1)%Z; run_m;
    (split; [reflexivity|split; [cbn; tauto|cbn; repeat constructor]]).
Qed.

(** A stored credential that is expired is refreshed by the first iteration;
    the refreshed credential is returned and the token file is left as it
    was. *)
Lemma authenticate_refreshed c c' :
  (0 < MAX_RETRIES cfg)%Z ->
  expired c = true ->
  truthy_opt (refresh_token c) = true ->
  refresh env 0 c = Ok c' ->
  authenticate_calendar cfg env (Some (Pickled c)) =
    (Ok (Some (Some c', None)), Some (Pickled c),
     [Log INFO ("Authentication attempt " ++ str_int 1 ++ "/" ++ str_int (MAX_RETRIES cfg));
      Sleep (1 # 2); Log DEBUG "Loading existing token"; ReadToken;
      Log INFO "Refreshing expired credentials"; Sleep (1 # 2); RefreshRequest c]).
Proof.
  intros Hn He Hr Hc.
  assert (Hv : valid c = false).
  { unfold valid. rewrite He. now destruct (token c). }
  unfold authenticate_calendar. rewrite (range_pos _ Hn).
  cbn [for_attempts]. run_m. rewrite Hv, He, Hr. cbn [negb andb]. run_m.
  rewrite Hc. reflexivity.
Qed.

Lemma for_attempts_refresh c attempts :
  expired c = true ->
  truthy_opt (refresh_token c) = true ->
  final_fs (for_attempts cfg env attempts (Some (Pickled c))) = Some (Pickled c) /\
  (attempts <> [] ->
   In (RefreshRequest c) (effects (for_attempts cfg env attempts (Some (Pickled c))))) /\
  Forall (fun e => is_interactive_flow e = false /\ is_token_write e = false)
    (effects (for_attempts cfg env attempts (Some (Pickled c)))).
Proof.
  intros He Hr. induction attempts as [|attempt rest IH].
  - cbn. repeat split; [congruence|constructor].
  - rewrite for_attempts_cons.
    destruct (attempt_iteration_refresh attempt c He Hr) as [Hfs [Hin Hall]].
    destruct (attempt_iteration cfg env attempt (Some (Pickled c))) as [[[[v|]|e] fs1] t1];
      unfold final_fs, effects in *; cbn [fst snd] in *; subst fs1;
      try (repeat split; [intros _; assumption|assumption]).
    destruct IH as [IHfs [_ IHall]].
    destruct (for_attempts cfg env rest (Some (Pickled c))) as [[r fs2] t2].
    cbn [fst snd] in *. repeat split.
    + assumption.
    + intros _. apply in_or_app. now left.
    + apply Forall_app. split; assumption.
Qed.

End AuthFacts.

(** ** Where an effect of a composed computation comes from *)

Lemma effects_bind {A B} (m : M A) (k : A -> M B) fs :
  effects (bind m k fs) =
    match value (m fs) with
    | Ok a => (effects (m fs) ++ effects (k a (final_fs (m fs))))%list
    | Raise _ => effects (m fs)
    end.
Proof.
  unfold bind, effects, value, final_fs.
  destruct (m fs) as [[[a|e] fs1] t1]; cbn [fst snd]; [|reflexivity].
  now destruct (k a fs1) as [[r fs2] t2].
Qed.

Lemma effects_try_except {A} (m : M A) (h : exn -> M A) fs :
  effects (try_except m h fs) =
    match value (m fs) with
    | Ok _ => effects (m fs)
    | Raise e => (effects (m fs) ++ effects (h e (final_fs (m fs))))%list
    end.
Proof.
  unfold try_except, effects, value, final_fs.
  destruct (m fs) as [[[a|e] fs1] t1]; cbn [fst snd]; [reflexivity|].
  now destruct (h e fs1) as [[r fs2] t2].
Qed.

Lemma effects_ret {A} (a : A) fs : effects (ret a fs) = [].
Proof. reflexivity. Qed.

Lemma delete_requests_app t1 t2 :
  delete_requests (t1 ++ t2) = (delete_requests t1 ++ delete_requests t2)%list.
Proof.
  induction t1 as [|e t1 IH]; [reflexivity|].
  destruct e; cbn; now rewrite ?IH.
Qed.

Lemma delete_requests_auth t :
  Forall (fun e => is_auth_effect e = true) t -> delete_requests t = [].
Proof.
  induction 1 as [|e t He _ IH]; [reflexivity|].
  destruct e; cbn in *; try discriminate; assumption.
Qed.

Lemma auth_effect_not_insert t cal body :
  Forall (fun e => is_auth_effect e = true) t -> ~ In (ApiInsert cal body) t.
Proof.
  intros H Hin. rewrite Forall_forall in H. specialize (H _ Hin). discriminate.
Qed.

(** ** Facts about [CreateCalendarEvent.run] *)

Section CreateFacts.

Variable cfg : Config.
Variable env : Env.

Import CreateCalendarEvent.

(** Every insert request of the inner block carries the dictionary built
    from the parsed start and the computed end. *)
Lemma submit_insert_inv self date fs cal body :
  In (ApiInsert cal body) (effects (submit cfg env self date fs)) ->
  exists start_time end_time,
    strptime_datetime env (date ++ " " ++ str_opt (time self)) = Ok start_time /\
    add_minutes start_time (duration_minutes self) = Ok end_time /\
    cal = "primary" /\
    body = event_body env self start_time end_time.
Proof.
  unfold submit, CreateCalendarEvent.setdefaulttimeout.
  destruct (strptime_datetime env (date ++ " " ++ str_opt (time self)))
    as [start_time|e1] eqn:Hs;
  [destruct (add_minutes start_time (duration_minutes self)) as [end_time|e2] eqn:He|];
  break; cbn; intros H;
    repeat (destruct H as [H|H]; try discriminate); try contradiction.
  all: inversion H; subst; eauto 8.
Qed.

Lemma run_insert_inv self fs cal body :
  In (ApiInsert cal body) (effects (run cfg env self fs)) ->
  exists start_time end_time,
    strptime_datetime env
      ((if truthy (date self) then date self else today env) ++ " " ++ str_opt (time self))
      = Ok start_time /\
    add_minutes start_time (duration_minutes self) = Ok end_time /\
    cal = "primary" /\
    body = event_body env self start_time end_time.
Proof.
  set (date' := if truthy (date self) then date self else today env).
  pose proof (authenticate_auth_effects cfg env fs) as Hauth.
  pose proof (auth_effect_not_insert _ cal body Hauth) as Hno. clear Hauth.
  unfold run. fold date'.
  cbv beta iota zeta delta [try_except bind log emit ret raise effects snd].
  destruct (authenticate_calendar cfg env fs) as [[[[[[creds|] error]|]|e] fs1] t1];
    cbv beta iota zeta delta [effects snd] in Hno |- *.
  - pose proof (submit_insert_inv self date' fs1 cal body) as Hsub.
    destruct (truthy_opt error).
    + rewrite !in_app_iff. cbn [In]. intuition discriminate.
    + destruct (submit cfg env self date' fs1) as [[[msg|[m|m]] fs2] t2];
        cbv beta iota zeta delta [effects snd] in Hsub |- *;
        rewrite !in_app_iff; cbn [In]; intuition discriminate.
  - destruct (truthy_opt error); rewrite !in_app_iff; cbn [In]; intuition discriminate.
  - rewrite !in_app_iff. cbn [In]. intuition discriminate.
  - rewrite !in_app_iff. cbn [In]. intuition discriminate.
Qed.

End CreateFacts.

(** ** Facts about [CancelCalendarEvent.run] *)

Section CancelFacts.

Variable cfg : Config.
Variable env : Env.

Import CancelCalendarEvent.

Lemma delete_one_run k event c fs :
  delete_one env k event c fs =
    match events_delete env k (ev_id event) with
    | None => (Ok (c + 1)%Z, fs, [ApiDelete "primary" (ev_id event)])
    | Some e =>
        (Ok c, fs,
         [ApiDelete "primary" (ev_id event);
          Log ERROR ("Error deleting event " ++ ev_id event ++ ": " ++ str_exn e)])
    end.
Proof.
  unfold delete_one. run_m.
  destruct (events_delete env k (ev_id event)); reflexivity.
Qed.

(** The delete loop asks for every event in turn, whatever the earlier
    answers were, and counts the requests that succeeded. *)
Lemma delete_events_spec events : forall k c fs,
  value (delete_events env k events c fs) = Ok (c + deleted env k events)%Z /\
  final_fs (delete_events env k events c fs) = fs /\
  delete_requests (effects (delete_events env k events c fs)) = map ev_id events.
Proof.
  induction events as [|event rest IH]; intros k c fs.
  - cbn. repeat split. f_equal. lia.
  - cbn [delete_events deleted map]. unfold bind. rewrite delete_one_run.
    destruct (events_delete env k (ev_id event)) as [e|].
    + destruct (IH (S k) c fs) as [Hv [Hfs Hreq]].
      destruct (delete_events env (S k) rest c fs) as [[r fs2] t2].
      unfold value, final_fs, effects in *. cbn [fst snd] in *.
      repeat split; [rewrite Hv; f_equal; lia|assumption|].
      cbn [app delete_requests]. now rewrite Hreq.
    + destruct (IH (S k) (c + 1)%Z fs) as [Hv [Hfs Hreq]].
      destruct (delete_events env (S k) rest (c + 1)%Z fs) as [[r fs2] t2].
      unfold value, final_fs, effects in *. cbn [fst snd] in *.
      repeat split; [rewrite Hv; f_equal; lia|assumption|].
      cbn [app delete_requests]. now rewrite Hreq.
Qed.

Lemma filter_by_time_elsewhere target events :
  Forall (starts_elsewhere env target) events ->
  filter_by_time env target events = Ok [].
Proof.
  induction 1 as [|event rest [event_time [Ht Hne]] _ IH]; [reflexivity|].
  cbn [filter_by_time]. rewrite Ht, IH.
  destruct (hour event_time =? hour target)%Z eqn:Eh;
    destruct (minute event_time =? minute target)%Z eqn:Em; try reflexivity.
  apply Z.eqb_eq in Eh, Em. destruct Hne; contradiction.
Qed.

(** The inner block, once the search has answered with some events. *)
Lemma search_and_delete_found self date fs date_obj events matched :
  build env = None ->
  (0 <= API_TIMEOUT cfg)%Z ->
  strptime_date env date = Ok date_obj ->
  events_list env (list_query self date_obj) = Ok events ->
  events <> [] ->
  matching_events env self date events = Ok matched ->
  value (search_and_delete cfg env self date fs) =
    Ok (if is_empty matched then
          "No events found matching '" ++ str_opt (title self) ++ "' at "
          ++ str_opt (time self) ++ " on " ++ date
        else report (title self) date (deleted env 0 matched)) /\
  delete_requests (effects (search_and_delete cfg env self date fs)) = map ev_id matched.
Proof.
  intros Hb Ht Hd Hl Hne Hm.
  assert (Hlt : (API_TIMEOUT cfg <? 0)%Z = false) by (apply Z.ltb_ge; lia).
  unfold search_and_delete, CancelCalendarEvent.setdefaulttimeout.
  run_m. rewrite Hb, Hlt, Hd. run_m. rewrite Hl.
  destruct events as [|ev0 evs]; [congruence|].
  cbn [is_empty]. run_m. rewrite Hm.
  destruct matched as [|m0 ms]; cbn [is_empty]; [split; reflexivity|].
  destruct (delete_events_spec (m0 :: ms) 0 0%Z fs) as [Hv [_ Hreq]].
  destruct (delete_events env 0 (m0 :: ms) 0%Z fs) as [[r fs2] t2].
  unfold value, effects in *. cbn [fst snd] in *. subst r.
  split; [reflexivity|]. rewrite !delete_requests_app. cbn [delete_requests app].
  rewrite Hreq. apply app_nil_r.
Qed.

(** The inner block, when the search answers with no event at all. *)
Lemma search_and_delete_none self date fs date_obj :
  build env = None ->
  (0 <= API_TIMEOUT cfg)%Z ->
  strptime_date env date = Ok date_obj ->
  events_list env (list_query self date_obj) = Ok [] ->
  value (search_and_delete cfg env self date fs) =
    Ok ("No events found matching '" ++ str_opt (title self) ++ "' on " ++ date) /\
  delete_requests (effects (search_and_delete cfg env self date fs)) = [].
Proof.
  intros Hb Ht Hd Hl.
  assert (Hlt : (API_TIMEOUT cfg <? 0)%Z = false) by (apply Z.ltb_ge; lia).
  unfold search_and_delete, CancelCalendarEvent.setdefaulttimeout.
  run_m. rewrite Hb, Hlt, Hd. run_m. rewrite Hl. split; reflexivity.
Qed.

(** [run] after a successful authentication: the answer and the delete
    requests are those of the inner block. *)
Lemma run_after_auth self fs creds fs1 t1 msg :
  authenticate_calendar cfg env fs = (Ok (Some (Some creds, None)), fs1, t1) ->
  value (search_and_delete cfg env self
           (if truthy (date self) then date self else today env) fs1) = Ok msg ->
  value (run cfg env self fs) = Ok msg /\
  delete_requests (effects (run cfg env self fs)) =
    delete_requests (effects (search_and_delete cfg env self
           (if truthy (date self) then date self else today env) fs1)).
Proof.
  intros Ha Hs.
  pose proof (authenticate_auth_effects cfg env fs) as Hauth.
  rewrite Ha in Hauth. unfold effects in Hauth. cbn [snd] in Hauth.
  apply delete_requests_auth in Hauth.
  unfold run. set (date' := if truthy (date self) then date self else today env) in *.
  cbv beta iota zeta delta [try_except bind log emit ret raise effects value fst snd].
  rewrite Ha. cbn [truthy_opt].
  destruct (search_and_delete cfg env self date' fs1) as [[r fs2] t2].
  unfold value in Hs. cbn [fst] in Hs. subst r.
  cbv beta iota zeta delta [fst snd]. split; [reflexivity|].
  rewrite !delete_requests_app, Hauth. cbn [delete_requests app].
  now rewrite ?app_nil_r.
Qed.

End CancelFacts.

(** ** The message of [report] determines the count *)

Module ReportFacts.

Import CancelCalendarEvent.

Lemma string_of_uint_digits d : all_digits (NilEmpty.string_of_uint d) = true.
Proof. induction d; cbn; auto. Qed.

Lemma string_of_uint_inj d d' :
  NilEmpty.string_of_uint d = NilEmpty.string_of_uint d' -> d = d'.
Proof.
  intros H. apply (f_equal NilEmpty.uint_of_string) in H.
  rewrite !NilEmpty.usu in H. now inversion H.
Qed.

Lemma str_int_pos p : str_int (Z.pos p) = NilEmpty.string_of_uint (Pos.to_uint p).
Proof.
  unfold str_int. cbn [Z.to_int NilZero.string_of_int].
  pose proof (DecimalPos.Unsigned.to_uint_nonnil p) as H.
  unfold NilZero.string_of_uint. now destruct (Pos.to_uint p).
Qed.

Lemma str_int_pos_inj p p' : str_int (Z.pos p) = str_int (Z.pos p') -> p = p'.
Proof.
  rewrite !str_int_pos. intros H.
  now apply DecimalPos.Unsigned.to_uint_inj, string_of_uint_inj.
Qed.

Lemma str_int_pos_nonempty p : exists c rest,
  str_int (Z.pos p) = String c rest /\ is_digit c = true.
Proof.
  rewrite str_int_pos.
  pose proof (DecimalPos.Unsigned.to_uint_nonnil p) as H.
  destruct (Pos.to_uint p); try congruence; cbn; eauto.
Qed.

(** Two runs of digits that are each followed by a space and agree with what
    follows them are the same run. *)
Lemma digits_then_space s1 : forall s2 x y,
  all_digits s1 = true -> all_digits s2 = true ->
  s1 ++ String " " x = s2 ++ String " " y -> s1 = s2.
Proof.
  induction s1 as [|c1 s1 IH]; intros [|c2 s2] x y H1 H2 H; cbn in *.
  - reflexivity.
  - inversion H; subst c2. discriminate.
  - inversion H; subst c1. discriminate.
  - apply andb_prop in H1, H2. inversion H; subst c2.
    f_equal. apply (IH s2 x y); tauto.
Qed.

Lemma append_cancel_l p : forall a b, p ++ a = p ++ b -> a = b.
Proof.
  induction p as [|c p IH]; intros a b H; [exact H|].
  cbn in H. inversion H. now apply IH.
Qed.

Lemma report_determines_count title date n m :
  (0 <= n)%Z -> (0 <= m)%Z ->
  report title date n = report title date m -> n = m.
Proof.
  intros Hn Hm. unfold report.
  destruct (Z.eqb_spec n 1) as [->|N1]; destruct (Z.eqb_spec m 1) as [->|M1];
    [reflexivity| | |].
  - destruct (Z.ltb_spec 1 m) as [Lm|Lm]; [|cbn; discriminate].
    destruct m as [|p|p]; try lia. intros H.
    change ("Successfully cancelled the meeting '" ++ str_opt title ++ "' on " ++ date)
      with ("Successfully cancelled "
            ++ ("the meeting '" ++ str_opt title ++ "' on " ++ date)) in H.
    apply append_cancel_l in H.
    destruct (str_int_pos_nonempty p) as [c [rest [E D]]]. rewrite E in H.
    cbn in H. inversion H; subst c. discriminate.
  - destruct (Z.ltb_spec 1 n) as [Ln|Ln]; [|cbn; discriminate].
    destruct n as [|p|p]; try lia. intros H.
    change ("Successfully cancelled the meeting '" ++ str_opt title ++ "' on " ++ date)
      with ("Successfully cancelled "
            ++ ("the meeting '" ++ str_opt title ++ "' on " ++ date)) in H.
    apply append_cancel_l in H.
    destruct (str_int_pos_nonempty p) as [c [rest [E D]]]. rewrite E in H.
    cbn in H. inversion H; subst c. discriminate.
  - destruct (Z.ltb_spec 1 n) as [Ln|Ln]; destruct (Z.ltb_spec 1 m) as [Lm|Lm];
      try (cbn; discriminate); [|lia].
    destruct n as [|p|p]; try lia. destruct m as [|q|q]; try lia. intros H.
    apply append_cancel_l in H.
    change (" occurrences of '" ++ str_opt title ++ "' on " ++ date)
      with (String " " ("occurrences of '" ++ str_opt title ++ "' on " ++ date)) in H.
    apply digits_then_space in H.
    + f_equal. now apply str_int_pos_inj.
    + rewrite str_int_pos. apply string_of_uint_digits.
    + rewrite str_int_pos. apply string_of_uint_digits.
Qed.

Lemma deleted_nonneg env events : forall k, (0 <= deleted env k events)%Z.
Proof.
  induction events as [|event rest IH]; intros k; cbn [deleted]; [lia|].
  specialize (IH (S k)). destruct (events_delete env k (ev_id event)); lia.
Qed.

End ReportFacts.

(** * The claims *)

(** ** Authentication *)

(** C6. With at least one attempt configured, a token file that holds a
    valid credential makes [authenticate_calendar] return that credential
    with no error, and the interactive flow is never started. *)
Theorem C6_valid_token_skips_interactive_flow (cfg : Config) (env : Env) (c : Credentials) :
  (0 < MAX_RETRIES cfg)%Z ->
  valid c = true ->
  value (authenticate_calendar cfg env (Some (Pickled c))) = Ok (Some (Some c, None)) /\
  ~ In RunLocalServer (effects (authenticate_calendar cfg env (Some (Pickled c)))).
Proof.
  intros Hn Hv. rewrite (authenticate_valid cfg env c Hn Hv).
  split; [reflexivity|].
  cbn. intros H. repeat (destruct H as [H|H]; try discriminate). exact H.
Qed.

Lemma C6_witness :
  (0 < MAX_RETRIES default_config)%Z /\
  valid Sample.stored = true /\
  value (authenticate_calendar default_config Sample.env (Some (Pickled Sample.stored)))
    = Ok (Some (Some Sample.stored, None)) /\
  ~ In RunLocalServer
      (effects (authenticate_calendar default_config Sample.env
                  (Some (Pickled Sample.stored)))).
Proof.
  split; [reflexivity|]. split; [reflexivity|].
  apply (C6_valid_token_skips_interactive_flow default_config Sample.env Sample.stored);
    reflexivity.
Defined.

(** C10. With at least one attempt configured, a token file that holds a
    valid credential makes [authenticate_calendar] return that credential
    with no error; the token file is not written and holds the same
    credential afterwards. *)
Theorem C10_valid_token_is_not_rewritten (cfg : Config) (env : Env) (c : Credentials) :
  (0 < MAX_RETRIES cfg)%Z ->
  valid c = true ->
  value (authenticate_calendar cfg env (Some (Pickled c))) = Ok (Some (Some c, None)) /\
  (forall c', ~ In (WriteToken c')
                (effects (authenticate_calendar cfg env (Some (Pickled c))))) /\
  final_fs (authenticate_calendar cfg env (Some (Pickled c))) = Some (Pickled c).
Proof.
  intros Hn Hv. rewrite (authenticate_valid cfg env c Hn Hv).
  split; [reflexivity|]. split; [|reflexivity].
  cbn. intros c' H. repeat (destruct H as [H|H]; try discriminate). exact H.
Qed.

Lemma C10_witness :
  (0 < MAX_RETRIES default_config)%Z /\
  valid Sample.stored = true /\
  value (authenticate_calendar default_config Sample.env (Some (Pickled Sample.stored)))
    = Ok (Some (Some Sample.stored, None)) /\
  (forall c', ~ In (WriteToken c')
                (effects (authenticate_calendar default_config Sample.env
                            (Some (Pickled Sample.stored))))) /\
  final_fs (authenticate_calendar default_config Sample.env (Some (Pickled Sample.stored)))
    = Some (Pickled Sample.stored).
Proof.
  split; [reflexivity|]. split; [reflexivity|].
  apply (C10_valid_token_is_not_rewritten default_config Sample.env Sample.stored);
    reflexivity.
Defined.

(** C7. With at least one attempt configured, a token file that holds an
    expired credential with a refresh token makes [authenticate_calendar]
    send a refresh request for that credential, and the interactive flow is
    never started, whatever the refresh requests answer. *)
Theorem C7_expired_token_is_refreshed (cfg : Config) (env : Env) (c : Credentials) :
  (0 < MAX_RETRIES cfg)%Z ->
  expired c = true ->
  truthy_opt (refresh_token c) = true ->
  In (RefreshRequest c) (effects (authenticate_calendar cfg env (Some (Pickled c)))) /\
  ~ In RunLocalServer (effects (authenticate_calendar cfg env (Some (Pickled c)))).
Proof.
  intros Hn He Hr. unfold authenticate_calendar.
  destruct (for_attempts_refresh cfg env c (range (MAX_RETRIES cfg)) He Hr)
    as [_ [Hin Hall]].
  split.
  - apply Hin. rewrite (range_pos _ Hn). discriminate.
  - intros H. rewrite Forall_forall in Hall. destruct (Hall _ H) as [Hflow _].
    discriminate.
Qed.

Lemma C7_witness :
  (0 < MAX_RETRIES default_config)%Z /\
  expired Sample.stale = true /\
  truthy_opt (refresh_token Sample.stale) = true /\
  In (RefreshRequest Sample.stale)
    (effects (authenticate_calendar default_config Sample.env
                (Some (Pickled Sample.stale)))) /\
  ~ In RunLocalServer
      (effects (authenticate_calendar default_config Sample.env
                  (Some (Pickled Sample.stale)))).
Proof.
  split; [reflexivity|]. split; [reflexivity|]. split; [reflexivity|].
  apply (C7_expired_token_is_refreshed default_config Sample.env Sample.stale);
    reflexivity.
Defined.

(** C4. With a retry count of at least one, if the body of every attempt
    raises [TimeoutError], then [authenticate_calendar] runs one attempt for
    each index below the retry count and no more, each followed by the
    timeout warning and, except after the last, by a sleep of [RETRY_DELAY];
    it returns no credential together with the terminal timeout message, and
    the token file is as before.  The default retry count is 3. *)
Theorem C4_timeouts_exhaust_retries (cfg : Config) (env : Env) (fs : FS) :
  (0 < MAX_RETRIES cfg)%Z ->
  (forall attempt, (Z.of_nat attempt < MAX_RETRIES cfg)%Z ->
     exists msg, value (attempt_body cfg env attempt fs) = Raise (TimeoutError msg)) ->
  authenticate_calendar cfg env fs =
    (Ok (Some (None, Some "Authentication timed out after multiple attempts.")), fs,
     flat_map (timed_out_attempt cfg env fs) (range (MAX_RETRIES cfg))) /\
  Z.of_nat (length (range (MAX_RETRIES cfg))) = MAX_RETRIES cfg /\
  MAX_RETRIES default_config = 3%Z.
Proof.
  intros Hn Hall. split; [|split; [|reflexivity]].
  - unfold authenticate_calendar, range.
    apply for_attempts_timeouts; [lia|lia|].
    intros k Hk. apply Hall. lia.
  - unfold range. rewrite length_seq. lia.
Qed.

Lemma C4_witness :
  authenticate_calendar default_config Sample.env_timeout None =
    (Ok (Some (None, Some "Authentication timed out after multiple attempts.")), None,
     flat_map (timed_out_attempt default_config Sample.env_timeout None)
       (range (MAX_RETRIES default_config))) /\
  Z.of_nat (length (range (MAX_RETRIES default_config))) = MAX_RETRIES default_config /\
  MAX_RETRIES default_config = 3%Z.
Proof.
  apply (C4_timeouts_exhaust_retries default_config Sample.env_timeout None).
  - reflexivity.
  - intros attempt _. exists EmptyString. reflexivity.
Defined.

(** C2 (the code departs from it).  A stored credential that is expired is
    refreshed and returned with no error, yet the token file is not written:
    it still holds the expired credential.  The interactive flow, on the
    other hand, stores the credential it obtains. *)
Theorem C2_refreshed_credential_is_not_persisted :
  let refreshed :=
    authenticate_calendar default_config Sample.env (Some (Pickled Sample.stale)) in
  let interactive := authenticate_calendar default_config Sample.env None in
  value refreshed = Ok (Some (Some Sample.fresh, None)) /\
  final_fs refreshed = Some (Pickled Sample.stale) /\
  existsb is_token_write (effects refreshed) = false /\
  value interactive = Ok (Some (Some Sample.fresh, None)) /\
  final_fs interactive = Some (Pickled Sample.fresh) /\
  In (WriteToken Sample.fresh) (effects interactive).
Proof.
  vm_compute. repeat split. do 5 right. left. reflexivity.
Qed.

(** C5 (the code departs from it).  With a retry count of 0 the loop body
    never runs: [authenticate_calendar] returns a bare [None], which is neither
    a credential paired with no error nor an error message paired with no
    credential; unpacking it in [run] raises, and [run] reports that
    exception. *)
Theorem C5_zero_retries_returns_bare_none (env : Env) (fs : FS)
  (self : CreateCalendarEvent.t) :
  authenticate_calendar Sample.no_retries env fs = (Ok None, fs, []) /\
  value (CreateCalendarEvent.run Sample.no_retries env self fs) =
    Ok "Error creating calendar event: cannot unpack non-iterable NoneType object".
Proof.
  split; reflexivity.
Qed.

(** ** Cancelling events *)

(** C3. Once [CancelCalendarEvent.run] has authenticated and the search has
    answered, every event that is left after the optional time filter gets
    its delete request, in order, whether or not earlier requests failed, and
    the message returned is the one [report] chooses for the number of
    requests that succeeded; no other count gives that message.  In
    particular, without a time filter, when the
    search answers with two events and both requests succeed, both events are
    requested for deletion and the message names the count 2. *)
Theorem C3_delete_failures_are_skipped (cfg : Config) (env : Env)
  (self : CancelCalendarEvent.t) (fs : FS) (creds : Credentials) (fs1 : FS)
  (t1 : list Effect) (date_obj : datetime) (events matched : list RemoteEvent) :
  let date := if truthy (CancelCalendarEvent.date self) then CancelCalendarEvent.date self
              else today env in
  authenticate_calendar cfg env fs = (Ok (Some (Some creds, None)), fs1, t1) ->
  build env = None ->
  (0 <= API_TIMEOUT cfg)%Z ->
  strptime_date env date = Ok date_obj ->
  events_list env (CancelCalendarEvent.list_query self date_obj) = Ok events ->
  CancelCalendarEvent.matching_events env self date events = Ok matched ->
  matched <> [] ->
  delete_requests (effects (CancelCalendarEvent.run cfg env self fs)) = map ev_id matched /\
  value (CancelCalendarEvent.run cfg env self fs) =
    Ok (CancelCalendarEvent.report (CancelCalendarEvent.title self) date
          (deleted env 0 matched)) /\
  (forall n, (0 <= n)%Z ->
     CancelCalendarEvent.report (CancelCalendarEvent.title self) date n =
     CancelCalendarEvent.report (CancelCalendarEvent.title self) date
       (deleted env 0 matched) ->
     n = deleted env 0 matched) /\
  (truthy_opt (CancelCalendarEvent.time self) = false ->
   forall e1 e2,
     events = [e1; e2] ->
     events_delete env 0 (ev_id e1) = None ->
     events_delete env 1 (ev_id e2) = None ->
     delete_requests (effects (CancelCalendarEvent.run cfg env self fs))
       = [ev_id e1; ev_id e2] /\
     value (CancelCalendarEvent.run cfg env self fs) =
       Ok ("Successfully cancelled 2 occurrences of '"
           ++ str_opt (CancelCalendarEvent.title self) ++ "' on " ++ date)).
Proof.
  intros date Ha Hb Ht Hd Hl Hm Hne.
  assert (Hev : events <> []).
  { intros ->. unfold CancelCalendarEvent.matching_events in Hm.
    destruct (truthy_opt (CancelCalendarEvent.time self)).
    - destruct (strptime_datetime env _); [|discriminate].
      cbn in Hm. inversion Hm. congruence.
    - inversion Hm. congruence. }
  destruct (search_and_delete_found cfg env self date fs1 date_obj events matched
              Hb Ht Hd Hl Hev Hm) as [Hv Hreq].
  assert (Hnonempty : CancelCalendarEvent.is_empty matched = false)
    by (destruct matched; [congruence|reflexivity]).
  rewrite Hnonempty in Hv.
  destruct (run_after_auth cfg env self fs creds fs1 t1 _ Ha Hv) as [Hrv Hrreq].
  fold date in Hrreq. rewrite Hreq in Hrreq.
  split; [exact Hrreq|]. split; [exact Hrv|].
  split.
  { intros n Hn. apply ReportFacts.report_determines_count; [exact Hn|].
    apply ReportFacts.deleted_nonneg. }
  intros Hnt e1 e2 He H1 H2.
  unfold CancelCalendarEvent.matching_events in Hm. rewrite Hnt in Hm.
  inversion Hm; subst matched events. split; [exact Hrreq|].
  rewrite Hrv. cbn [deleted]. rewrite H1, H2. reflexivity.
Qed.

Lemma C3_witness :
  delete_requests
    (effects (CancelCalendarEvent.run default_config Sample.env Sample.cancel_all
                (Some (Pickled Sample.stored)))) = ["ev1"; "ev2"] /\
  value (CancelCalendarEvent.run default_config Sample.env Sample.cancel_all
           (Some (Pickled Sample.stored))) =
    Ok "Successfully cancelled 2 occurrences of 'Standup' on 2024-03-15".
Proof.
  destruct (C3_delete_failures_are_skipped default_config Sample.env Sample.cancel_all
              (Some (Pickled Sample.stored)) Sample.stored (Some (Pickled Sample.stored))
              [Log INFO "Authentication attempt 1/3"; Sleep (1 # 2);
               Log DEBUG "Loading existing token"; ReadToken]
              (mkdt 2024 3 15 0 0 0)
              [Sample.standup; Sample.standup_again]
              [Sample.standup; Sample.standup_again])
    as [_ [_ [_ H]]]; try reflexivity.
  - discriminate.
  - discriminate.
  - apply (H eq_refl Sample.standup Sample.standup_again); reflexivity.
Defined.

(** C8, as the code has it.  When the query has a time filter, the search
    answers with at least one event, and every event it answers with starts
    at another hour or minute than the requested time, then
    [CancelCalendarEvent.run] sends no delete request and returns the message
    that no events were found matching the title at that time on that date. *)
Theorem C8_no_event_at_requested_time (cfg : Config) (env : Env)
  (self : CancelCalendarEvent.t) (fs : FS) (creds : Credentials) (fs1 : FS)
  (t1 : list Effect) (date_obj : datetime) (events : list RemoteEvent)
  (tm : string) (target : datetime) :
  let date := if truthy (CancelCalendarEvent.date self) then CancelCalendarEvent.date self
              else today env in
  authenticate_calendar cfg env fs = (Ok (Some (Some creds, None)), fs1, t1) ->
  build env = None ->
  (0 <= API_TIMEOUT cfg)%Z ->
  strptime_date env date = Ok date_obj ->
  events_list env (CancelCalendarEvent.list_query self date_obj) = Ok events ->
  events <> [] ->
  CancelCalendarEvent.time self = Some tm ->
  truthy tm = true ->
  strptime_datetime env (date ++ " " ++ tm) = Ok target ->
  Forall (starts_elsewhere env target) events ->
  delete_requests (effects (CancelCalendarEvent.run cfg env self fs)) = [] /\
  value (CancelCalendarEvent.run cfg env self fs) =
    Ok ("No events found matching '" ++ str_opt (CancelCalendarEvent.title self)
        ++ "' at " ++ tm ++ " on " ++ date).
Proof.
  intros date Ha Hb Ht Hd Hl Hev Htm Htruthy Hs Hall.
  assert (Hm : CancelCalendarEvent.matching_events env self date events = Ok []).
  { unfold CancelCalendarEvent.matching_events. rewrite Htm. cbn [truthy_opt str_opt].
    rewrite Htruthy, Hs. now apply filter_by_time_elsewhere. }
  destruct (search_and_delete_found cfg env self date fs1 date_obj events []
              Hb Ht Hd Hl Hev Hm) as [Hv Hreq].
  cbn [CancelCalendarEvent.is_empty map] in Hv, Hreq.
  destruct (run_after_auth cfg env self fs creds fs1 t1 _ Ha Hv) as [Hrv Hrreq].
  fold date in Hrreq. rewrite Hreq in Hrreq.
  split; [exact Hrreq|]. rewrite Hrv, Htm. reflexivity.
Qed.

Lemma C8_witness :
  delete_requests
    (effects (CancelCalendarEvent.run default_config Sample.env Sample.cancel_at_1430
                (Some (Pickled Sample.stored)))) = [] /\
  value (CancelCalendarEvent.run default_config Sample.env Sample.cancel_at_1430
           (Some (Pickled Sample.stored))) =
    Ok "No events found matching 'Standup' at 14:30 on 2024-03-15".
Proof.
  apply (C8_no_event_at_requested_time default_config Sample.env Sample.cancel_at_1430
           (Some (Pickled Sample.stored)) Sample.stored (Some (Pickled Sample.stored))
           [Log INFO "Authentication attempt 1/3"; Sleep (1 # 2);
            Log DEBUG "Loading existing token"; ReadToken]
           (mkdt 2024 3 15 0 0 0)
           [Sample.standup; Sample.standup_again]
           "14:30" (mkdt 2024 3 15 14 30 0)); try reflexivity; try discriminate.
  repeat constructor.
  - exists (mkdt 2024 3 15 9 0 0). split; [reflexivity|left; discriminate].
  - exists (mkdt 2024 3 15 16 0 0). split; [reflexivity|left; discriminate].
Defined.

(** C8 as the specification words it fails when the search answers with no
    event at all: every premise holds (there is a time filter, and no event
    of the answer starts at the requested time), no delete request is sent,
    but the message is the one without the time. *)
Lemma C8_counterexample :
  exists creds fs1 t1 date_obj events tm target,
    authenticate_calendar default_config (Sample.env_with []) (Some (Pickled Sample.stored))
      = (Ok (Some (Some creds, None)), fs1, t1) /\
    build (Sample.env_with []) = None /\
    (0 <= API_TIMEOUT default_config)%Z /\
    strptime_date (Sample.env_with []) "2024-03-15" = Ok date_obj /\
    events_list (Sample.env_with [])
      (CancelCalendarEvent.list_query Sample.cancel_at_1430 date_obj) = Ok events /\
    CancelCalendarEvent.time Sample.cancel_at_1430 = Some tm /\
    truthy tm = true /\
    strptime_datetime (Sample.env_with []) ("2024-03-15" ++ " " ++ tm) = Ok target /\
    Forall (starts_elsewhere (Sample.env_with []) target) events /\
    value (CancelCalendarEvent.run default_config (Sample.env_with [])
             Sample.cancel_at_1430 (Some (Pickled Sample.stored))) =
      Ok "No events found matching 'Standup' on 2024-03-15" /\
    ~ (delete_requests
         (effects (CancelCalendarEvent.run default_config (Sample.env_with [])
                     Sample.cancel_at_1430 (Some (Pickled Sample.stored)))) = [] /\
       value (CancelCalendarEvent.run default_config (Sample.env_with [])
                Sample.cancel_at_1430 (Some (Pickled Sample.stored))) =
         Ok ("No events found matching '"
             ++ str_opt (CancelCalendarEvent.title Sample.cancel_at_1430)
             ++ "' at " ++ tm ++ " on " ++ "2024-03-15")).
Proof.
  exists Sample.stored, (Some (Pickled Sample.stored)),
    [Log INFO "Authentication attempt 1/3"; Sleep (1 # 2);
     Log DEBUG "Loading existing token"; ReadToken],
    (mkdt 2024 3 15 0 0 0), [], "14:30", (mkdt 2024 3 15 14 30 0).
  repeat (split; [reflexivity|]).
  split; [discriminate|].
  repeat (split; [reflexivity|]).
  split; [constructor|]. split; [reflexivity|].
  intros [_ H]. vm_compute in H. discriminate.
Qed.

(** * Further properties *)

(** ** The retry loop *)

Section RetryFacts.

Variable cfg : Config.
Variable env : Env.

Lemma attempt_iteration_ok attempt fs r fs' t :
  attempt_body cfg env attempt fs = (Ok r, fs', t) ->
  attempt_iteration cfg env attempt fs = (Ok (Some r), fs', t).
Proof.
  intros H. unfold attempt_iteration, try_except, bind. rewrite H.
  unfold ret. now rewrite app_nil_r.
Qed.

Lemma attempt_iteration_raise attempt fs e :
  value (attempt_body cfg env attempt fs) = Raise e ->
  attempt_iteration cfg env attempt fs =
    ((if (Z.of_nat attempt <? MAX_RETRIES cfg - 1)%Z then Ok None
      else Ok (Some (None, Some (terminal_message e)))),
     fs, failed_attempt cfg env fs attempt).
Proof.
  intros H. pose proof (attempt_body_raise_fs cfg env attempt fs _ H) as Hfs.
  unfold attempt_iteration, failed_attempt, try_except, bind at 1.
  destruct (attempt_body cfg env attempt fs) as [[r fs1] t1].
  unfold value, final_fs, effects in *. cbn [fst snd] in *. subst r fs1.
  unfold log, sleep, bind, emit, ret, handler_log, terminal_message.
  destruct e; destruct (Z.of_nat attempt <? MAX_RETRIES cfg - 1)%Z; reflexivity.
Qed.

(** Attempts that fail are retried until one returns. *)
Lemma for_attempts_recover n : forall a fs r fs' t rest,
  (Z.of_nat (a + n) < MAX_RETRIES cfg)%Z ->
  (forall k, (a <= k < a + n)%nat ->
     exists e, value (attempt_body cfg env k fs) = Raise e) ->
  attempt_body cfg env (a + n) fs = (Ok r, fs', t) ->
  for_attempts cfg env (seq a n ++ (a + n)%nat :: rest) fs =
    (Ok (Some r), fs', (flat_map (failed_attempt cfg env fs) (seq a n) ++ t)%list).
Proof.
  induction n as [|n IH]; intros a fs r fs' t rest Hlt Hall Hok.
  - rewrite Nat.add_0_r in *. cbn [seq app flat_map]. rewrite for_attempts_cons.
    now rewrite (attempt_iteration_ok _ _ _ _ _ Hok).
  - cbn [seq app flat_map]. rewrite for_attempts_cons.
    destruct (Hall a) as [e He]; [lia|].
    rewrite (attempt_iteration_raise a fs e He).
    replace (Z.of_nat a <? MAX_RETRIES cfg - 1)%Z with true
      by (symmetry; apply Z.ltb_lt; lia).
    replace (a + S n)%nat with (S a + n)%nat in * by lia.
    rewrite (IH (S a) fs r fs' t rest); [now rewrite app_assoc|lia| |assumption].
    intros k Hk. apply Hall. lia.
Qed.

(** Attempts that all fail end with the message for the last exception. *)
Lemma for_attempts_all_fail n : forall a fs,
  (0 < n)%nat ->
  (Z.of_nat (a + n) = MAX_RETRIES cfg)%Z ->
  (forall k, (a <= k < a + n)%nat ->
     exists e, value (attempt_body cfg env k fs) = Raise e) ->
  exists e,
    value (attempt_body cfg env (a + n - 1) fs) = Raise e /\
    for_attempts cfg env (seq a n) fs =
      (Ok (Some (None, Some (terminal_message e))), fs,
       flat_map (failed_attempt cfg env fs) (seq a n)).
Proof.
  induction n as [|n IH]; intros a fs Hn Ha Hall; [lia|].
  cbn [seq flat_map]. rewrite for_attempts_cons.
  destruct (Hall a) as [e He]; [lia|].
  rewrite (attempt_iteration_raise a fs e He).
  destruct (Z.of_nat a <? MAX_RETRIES cfg - 1)%Z eqn:E.
  - apply Z.ltb_lt in E.
    destruct (IH (S a) fs) as [e' [He' Hrun]]; [lia|lia| |].
    { intros k Hk. apply Hall. lia. }
    exists e'. replace (a + S n - 1)%nat with (S a + n - 1)%nat by lia.
    split; [assumption|]. now rewrite Hrun.
  - apply Z.ltb_ge in E.
    destruct n as [|n']; [|lia].
    exists e. replace (a + 1 - 1)%nat with a by lia.
    split; [assumption|]. cbn [seq flat_map]. now rewrite app_nil_r.
Qed.

(** An iteration that continues leaves the token file alone. *)
Lemma attempt_iteration_continue_fs attempt fs :
  value (attempt_iteration cfg env attempt fs) = Ok None ->
  final_fs (attempt_iteration cfg env attempt fs) = fs.
Proof.
  break; cbn; intros; try discriminate; reflexivity.
Qed.

(** What holds of the effects of every iteration from a token file holds of
    the effects of the loop. *)
Lemma for_attempts_effects (P : Effect -> Prop) fs attempts :
  (forall attempt, Forall P (effects (attempt_iteration cfg env attempt fs))) ->
  Forall P (effects (for_attempts cfg env attempts fs)).
Proof.
  intros H. induction attempts as [|attempt rest IH]; [constructor|].
  rewrite for_attempts_cons.
  pose proof (H attempt) as Ht.
  pose proof (attempt_iteration_continue_fs attempt fs) as Hfs.
  destruct (attempt_iteration cfg env attempt fs) as [[[[v|]|e] fs1] t1];
    unfold value, final_fs, effects in *; cbn [fst snd] in *; try assumption.
  rewrite (Hfs eq_refl).
  destruct (for_attempts cfg env rest fs) as [[r fs2] t2]. cbn [snd] in *.
  apply Forall_app. split; assumption.
Qed.

Lemma token_writes_app t1 t2 :
  token_writes (t1 ++ t2) = (token_writes t1 ++ token_writes t2)%list.
Proof.
  induction t1 as [|e t1 IH]; [reflexivity|].
  destruct e; cbn; now rewrite ?IH.
Qed.

(** An iteration either leaves the token file alone and writes nothing, or
    writes once, the credential it returns. *)
Lemma attempt_iteration_writes attempt fs :
  (final_fs (attempt_iteration cfg env attempt fs) = fs /\
   token_writes (effects (attempt_iteration cfg env attempt fs)) = []) \/
  (exists c,
     value (attempt_iteration cfg env attempt fs) = Ok (Some (Some c, None)) /\
     final_fs (attempt_iteration cfg env attempt fs) = Some (Pickled c) /\
     token_writes (effects (attempt_iteration cfg env attempt fs)) = [c]).
Proof.
  break; cbn; try (left; split; reflexivity); right; eexists; repeat split.
Qed.

Lemma for_attempts_writes attempts : forall fs,
  (final_fs (for_attempts cfg env attempts fs) = fs /\
   token_writes (effects (for_attempts cfg env attempts fs)) = []) \/
  (exists c,
     value (for_attempts cfg env attempts fs) = Ok (Some (Some c, None)) /\
     final_fs (for_attempts cfg env attempts fs) = Some (Pickled c) /\
     token_writes (effects (for_attempts cfg env attempts fs)) = [c]).
Proof.
  induction attempts as [|attempt rest IH]; intros fs; [left; split; reflexivity|].
  rewrite for_attempts_cons.
  pose proof (attempt_iteration_writes attempt fs) as H.
  destruct (attempt_iteration cfg env attempt fs) as [[[[v|]|e] fs1] t1];
    unfold value, final_fs, effects in *; cbn [fst snd] in *; try exact H.
  destruct H as [[Hfs Hw]|[c [Hv _]]]; [subst fs1|discriminate].
  specialize (IH fs).
  destruct (for_attempts cfg env rest fs) as [[r fs2] t2]. cbn [fst snd] in *.
  rewrite token_writes_app, Hw. exact IH.
Qed.

(** Where a refresh request and a run of the interactive flow come from. *)
Lemma attempt_iteration_origin attempt fs :
  Forall (fun e =>
            match e with
            | RefreshRequest c =>
                fs = Some (Pickled c) /\ valid c = false /\ expired c = true /\
                truthy_opt (refresh_token c) = true
            | RunLocalServer =>
                needs_interactive_flow fs /\ credentials_exists env = true
            | _ => True
            end)
    (effects (attempt_iteration cfg env attempt fs)).
Proof.
  unfold needs_interactive_flow.
  break; cbn; repeat (apply Forall_cons || apply Forall_nil); try exact I;
    repeat match goal with
           | H : negb _ = _ |- _ => apply (f_equal negb) in H; rewrite negb_involutive in H;
                                    cbn [negb] in H
           | H : _ && _ = true |- _ => apply andb_prop in H; destruct H
           end;
    try (repeat split; assumption);
    (split; [|assumption]);
    first [left; reflexivity | right; eexists; repeat split; eassumption].
Qed.

(** An iteration that starts with nothing usable in the token file and
    returns a credential has run the interactive flow and has written that
    credential, which the file then holds. *)
Lemma attempt_iteration_flow_return attempt fs c e :
  needs_interactive_flow fs ->
  value (attempt_iteration cfg env attempt fs) = Ok (Some (Some c, e)) ->
  final_fs (attempt_iteration cfg env attempt fs) = Some (Pickled c) /\
  In (WriteToken c) (effects (attempt_iteration cfg env attempt fs)) /\
  In RunLocalServer (effects (attempt_iteration cfg env attempt fs)) /\
  token_writes (effects (attempt_iteration cfg env attempt fs)) = [c].
Proof.
  intros [->|[c0 [-> [Hv Hr]]]].
  - break; cbn; intros H; try discriminate; inversion H; subst;
      repeat split; cbn; auto 10.
  - run_m. rewrite Hv, Hr. cbn [negb].
    break; cbn; intros H; try discriminate; inversion H; subst;
      repeat split; cbn; auto 10.
Qed.

Lemma for_attempts_flow_return attempts fs c e :
  needs_interactive_flow fs ->
  value (for_attempts cfg env attempts fs) = Ok (Some (Some c, e)) ->
  final_fs (for_attempts cfg env attempts fs) = Some (Pickled c) /\
  In (WriteToken c) (effects (for_attempts cfg env attempts fs)) /\
  In RunLocalServer (effects (for_attempts cfg env attempts fs)) /\
  token_writes (effects (for_attempts cfg env attempts fs)) = [c].
Proof.
  intros Hfs. induction attempts as [|attempt rest IH]; [discriminate|].
  rewrite for_attempts_cons.
  pose proof (attempt_iteration_flow_return attempt fs c e Hfs) as Hit.
  pose proof (attempt_iteration_continue_fs attempt fs) as Hcont.
  pose proof (attempt_iteration_writes attempt fs) as Hw.
  destruct (attempt_iteration cfg env attempt fs) as [[[[v|]|x] fs1] t1];
    unfold value, final_fs, effects in *; cbn [fst snd] in *.
  - intros H. apply Hit. exact H.
  - specialize (Hcont eq_refl). subst fs1.
    destruct Hw as [[_ Hw]|[c' [Hv _]]]; [|discriminate].
    destruct (for_attempts cfg env rest fs) as [[r fs2] t2]. cbn [fst snd] in *.
    intros H. destruct (IH H) as [H1 [H2 [H3 H4]]].
    split; [exact H1|]. split; [apply in_or_app; right; exact H2|].
    split; [apply in_or_app; right; exact H3|].
    rewrite token_writes_app, Hw. exact H4.
  - discriminate.
Qed.

(** Where a write of the token file comes from. *)
Lemma attempt_iteration_write_origin attempt fs :
  Forall (fun e =>
            match e with
            | WriteToken c =>
                needs_interactive_flow fs /\ credentials_exists env = true /\
                exists k,
                  from_client_secrets_file env k = None /\
                  run_local_server env k = Ok c
            | _ => True
            end)
    (effects (attempt_iteration cfg env attempt fs)).
Proof.
  unfold needs_interactive_flow.
  break; cbn; repeat (apply Forall_cons || apply Forall_nil); try exact I;
    repeat match goal with
           | H : negb _ = _ |- _ => apply (f_equal negb) in H; rewrite negb_involutive in H;
                                    cbn [negb] in H
           | H : _ && _ = true |- _ => apply andb_prop in H; destruct H
           end;
    (split; [first [left; reflexivity | right; eexists; repeat split; eassumption]|]);
    (split; [assumption|]);
    exists attempt; split; assumption.
Qed.

(** The loop over the configured attempts, when attempt [k] is the first to
    return. *)
Lemma authenticate_recovers fs k r fs' t :
  (Z.of_nat k < MAX_RETRIES cfg)%Z ->
  (forall j, (j < k)%nat -> exists e, value (attempt_body cfg env j fs) = Raise e) ->
  attempt_body cfg env k fs = (Ok r, fs', t) ->
  authenticate_calendar cfg env fs =
    (Ok (Some r), fs', (flat_map (failed_attempt cfg env fs) (seq 0 k) ++ t)%list).
Proof.
  intros Hk Hall Hok. unfold authenticate_calendar, range.
  replace (Z.to_nat (MAX_RETRIES cfg))
    with (k + S (Z.to_nat (MAX_RETRIES cfg) - k - 1))%nat by lia.
  rewrite seq_app. cbn [seq].
  apply (for_attempts_recover k 0 fs r fs' t); cbn [Nat.add]; try assumption.
  intros j Hj. apply Hall. lia.
Qed.

(** The first attempt returns. *)
Lemma authenticate_first_attempt fs r fs' t :
  (0 < MAX_RETRIES cfg)%Z ->
  attempt_body cfg env 0 fs = (Ok r, fs', t) ->
  authenticate_calendar cfg env fs = (Ok (Some r), fs', t).
Proof.
  intros Hn Hok.
  rewrite (authenticate_recovers fs 0 r fs' t); [reflexivity|lia| |exact Hok].
  intros j Hj. lia.
Qed.

(** The loop over the configured attempts, when none returns. *)
Lemma authenticate_fails fs :
  (0 < MAX_RETRIES cfg)%Z ->
  (forall k, (Z.of_nat k < MAX_RETRIES cfg)%Z ->
     exists e, value (attempt_body cfg env k fs) = Raise e) ->
  exists e,
    value (attempt_body cfg env (Z.to_nat (MAX_RETRIES cfg) - 1) fs) = Raise e /\
    authenticate_calendar cfg env fs =
      (Ok (Some (None, Some (terminal_message e))), fs,
       flat_map (failed_attempt cfg env fs) (range (MAX_RETRIES cfg))).
Proof.
  intros Hn Hall. unfold authenticate_calendar, range.
  destruct (for_attempts_all_fail (Z.to_nat (MAX_RETRIES cfg)) 0 fs)
    as [e [He Hrun]]; [lia|lia| |].
  - intros k Hk. apply Hall. lia.
  - exists e. split; assumption.
Qed.

End RetryFacts.

(** ** Authentication: retries, failures, and the token file *)

(** X1. An attempt that fails is followed by another one: when the attempts
    before attempt [k] all raise and attempt [k], one of the configured
    attempts, returns, [authenticate_calendar] returns what attempt [k]
    returns, and the trace is the failed attempts, each with the line of its
    handler and the retry delay, followed by the effects of attempt [k]. *)
Theorem X1_retry_recovers (cfg : Config) (env : Env) (fs : FS) (k : nat)
  (r : AuthResult) (fs' : FS) (t : list Effect) :
  (Z.of_nat k < MAX_RETRIES cfg)%Z ->
  (forall j, (j < k)%nat -> exists e, value (attempt_body cfg env j fs) = Raise e) ->
  attempt_body cfg env k fs = (Ok r, fs', t) ->
  authenticate_calendar cfg env fs =
    (Ok (Some r), fs', (flat_map (failed_attempt cfg env fs) (seq 0 k) ++ t)%list).
Proof. apply authenticate_recovers. Qed.

Lemma X1_witness :
  authenticate_calendar default_config Scenario.second_try None =
    (Ok (Some (Some Sample.fresh, None)), Some (Pickled Sample.fresh),
     (flat_map (failed_attempt default_config Scenario.second_try None) (seq 0 1)
      ++ [Log INFO "Authentication attempt 2/3"; Sleep (1 # 2);
          Log INFO "Initiating new authentication flow"; Sleep (1 # 2);
          RunLocalServer; WriteToken Sample.fresh])%list).
Proof.
  apply (X1_retry_recovers default_config Scenario.second_try None 1).
  - reflexivity.
  - intros j Hj. exists (TimeoutError EmptyString).
    destruct j as [|j]; [reflexivity|lia].
  - reflexivity.
Defined.



(** X3. When the token file holds nothing usable and there is no client
    secret file, the first attempt returns the message that credentials.json
    was not found, and this is final: no further attempt is made, the
    interactive flow is not started, and the token file is as before. *)
Theorem X3_missing_secret_file_is_final (cfg : Config) (env : Env) (fs : FS) :
  (0 < MAX_RETRIES cfg)%Z ->
  needs_interactive_flow fs ->
  credentials_exists env = false ->
  authenticate_calendar cfg env fs =
    (Ok (Some (None, Some "Error: credentials.json file not found.")), fs,
     effects (attempt_body cfg env 0 fs)) /\
  ~ In RunLocalServer (effects (attempt_body cfg env 0 fs)).
Proof.
  intros Hn Hfs Hc.
  assert (Hbody : attempt_body cfg env 0 fs =
                    (Ok (None, Some "Error: credentials.json file not found."), fs,
                     effects (attempt_body cfg env 0 fs)) /\
                  ~ In RunLocalServer (effects (attempt_body cfg env 0 fs))).
  { destruct Hfs as [->|[c [-> [Hv Hr]]]]; run_m; rewrite ?Hv, ?Hr, Hc;
      cbn [negb]; run_m; (split; [reflexivity|]); cbn; intros H;
      repeat (destruct H as [H|H]; try discriminate); exact H. }
  destruct Hbody as [Hbody Hno]. split; [|exact Hno].
  now apply authenticate_first_attempt.
Qed.

Lemma X3_witness :
  authenticate_calendar default_config Scenario.no_secret (Some (Pickled Scenario.lapsed)) =
    (Ok (Some (None, Some "Error: credentials.json file not found.")),
     Some (Pickled Scenario.lapsed),
     effects (attempt_body default_config Scenario.no_secret 0
                (Some (Pickled Scenario.lapsed)))) /\
  ~ In RunLocalServer
      (effects (attempt_body default_config Scenario.no_secret 0
                  (Some (Pickled Scenario.lapsed)))).
Proof.
  apply (X3_missing_secret_file_is_final default_config Scenario.no_secret
           (Some (Pickled Scenario.lapsed))).
  - reflexivity.
  - right. exists Scenario.lapsed. repeat split.
  - reflexivity.
Defined.

(** X4. When [authenticate_calendar] starts with nothing usable in the token
    file and returns a credential with no error, it has run the interactive
    flow, it has written that credential, and the token file holds it (the
    write is in the [try]: the method returns from that branch only after the
    [with] block has completed); if the credential is valid, the next call,
    whatever the world answers then, returns it from the file without
    starting the flow and without writing the file. *)
Theorem X4_flow_credential_is_stored_and_reused (cfg : Config) (env : Env) (fs : FS)
  (c : Credentials) :
  needs_interactive_flow fs ->
  value (authenticate_calendar cfg env fs) = Ok (Some (Some c, None)) ->
  final_fs (authenticate_calendar cfg env fs) = Some (Pickled c) /\
  In (WriteToken c) (effects (authenticate_calendar cfg env fs)) /\
  In RunLocalServer (effects (authenticate_calendar cfg env fs)) /\
  (valid c = true ->
   forall env',
     value (authenticate_calendar cfg env' (final_fs (authenticate_calendar cfg env fs)))
       = Ok (Some (Some c, None)) /\
     final_fs (authenticate_calendar cfg env' (final_fs (authenticate_calendar cfg env fs)))
       = Some (Pickled c) /\
     Forall (fun e => is_interactive_flow e = false /\ is_token_write e = false)
       (effects (authenticate_calendar cfg env'
                   (final_fs (authenticate_calendar cfg env fs))))).
Proof.
  intros Hfs Hret.
  assert (Hn : (0 < MAX_RETRIES cfg)%Z).
  { destruct (Z.ltb_spec 0 (MAX_RETRIES cfg)) as [H|H]; [exact H|].
    exfalso. revert Hret. unfold authenticate_calendar, range.
    replace (Z.to_nat (MAX_RETRIES cfg)) with 0%nat by lia. discriminate. }
  destruct (for_attempts_flow_return cfg env (range (MAX_RETRIES cfg)) fs c None Hfs Hret)
    as [H1 [H2 [H3 _]]].
  fold (authenticate_calendar cfg env fs) in H1, H2, H3.
  split; [exact H1|]. split; [exact H2|]. split; [exact H3|].
  intros Hv env'. rewrite H1.
  rewrite (authenticate_valid cfg env' c Hn Hv).
  unfold value, final_fs, effects. cbn [fst snd].
  split; [reflexivity|]. split; [reflexivity|]. repeat constructor.
Qed.

Lemma X4_witness :
  final_fs (authenticate_calendar default_config Sample.env None)
    = Some (Pickled Sample.fresh) /\
  In (WriteToken Sample.fresh) (effects (authenticate_calendar default_config Sample.env None)) /\
  In RunLocalServer (effects (authenticate_calendar default_config Sample.env None)) /\
  value (authenticate_calendar default_config Scenario.refused
           (final_fs (authenticate_calendar default_config Sample.env None)))
    = Ok (Some (Some Sample.fresh, None)).
Proof.
  destruct (X4_flow_credential_is_stored_and_reused default_config Sample.env None
              Sample.fresh) as [H1 [H2 [H3 H4]]].
  - left. reflexivity.
  - reflexivity.
  - split; [exact H1|]. split; [exact H2|]. split; [exact H3|].
    exact (proj1 (H4 eq_refl Scenario.refused)).
Defined.

(** X5. [authenticate_calendar] attempts to write the token file in one
    place only: every write is of a credential that the interactive flow
    answered at some attempt, after the client secret file was found and
    read, in a call that started with nothing usable in the token file (no
    file, or a credential that is not valid and cannot be refreshed).  This
    is about the writes that are attempted, whether or not they complete. *)
Theorem X5_origin_of_token_writes (cfg : Config) (env : Env) (fs : FS)
  (c : Credentials) :
  In (WriteToken c) (effects (authenticate_calendar cfg env fs)) ->
  needs_interactive_flow fs /\
  credentials_exists env = true /\
  exists attempt,
    from_client_secrets_file env attempt = None /\
    run_local_server env attempt = Ok c.
Proof.
  intros Hin.
  pose proof (for_attempts_effects cfg env _ fs (range (MAX_RETRIES cfg))
                (fun attempt => attempt_iteration_write_origin cfg env attempt fs)) as H.
  rewrite Forall_forall in H. exact (H _ Hin).
Qed.

Lemma X5_witness :
  In (WriteToken Sample.fresh) (effects (authenticate_calendar default_config Sample.env None)) /\
  needs_interactive_flow None /\
  credentials_exists Sample.env = true /\
  exists attempt,
    from_client_secrets_file Sample.env attempt = None /\
    run_local_server Sample.env attempt = Ok Sample.fresh.
Proof.
  assert (Hin : In (WriteToken Sample.fresh)
                  (effects (authenticate_calendar default_config Sample.env None))).
  { vm_compute. repeat (first [left; reflexivity | right]). }
  split; [exact Hin|].
  exact (X5_origin_of_token_writes default_config Sample.env None Sample.fresh Hin).
Defined.

(** X6. With at least one attempt configured, no exception of the class
    [Exception] escapes [authenticate_calendar], whichever call raises it and
    at whichever attempt, and the method does not return a bare [None]: it
    returns a credential with no error, or no credential with a message that
    is not empty.  (Exceptions outside [Exception], such as
    [KeyboardInterrupt] or a cancellation of the task during
    [asyncio.sleep], are not caught by the handlers and are outside the
    model.) *)
Theorem X6_positive_retry_count_gives_a_pair (cfg : Config) (env : Env) (fs : FS) :
  (0 < MAX_RETRIES cfg)%Z ->
  exists r, value (authenticate_calendar cfg env fs) = Ok (Some r) /\ well_shaped r.
Proof. apply authenticate_shape. Qed.

Lemma X6_witness :
  exists r,
    value (authenticate_calendar default_config Scenario.refused
             (Some (Corrupt "invalid load key")))
      = Ok (Some r) /\ well_shaped r.
Proof.
  apply (X6_positive_retry_count_gives_a_pair default_config Scenario.refused
           (Some (Corrupt "invalid load key"))).
  reflexivity.
Defined.

(** X7. A refresh request is only ever sent for the credential that the
    token file holds, and only when that credential is not valid, is expired
    and has a refresh token; the interactive flow is only ever started when
    the token file holds nothing usable and the client secret file exists. *)
Theorem X7_origin_of_refresh_and_flow (cfg : Config) (env : Env) (fs : FS) :
  (forall c, In (RefreshRequest c) (effects (authenticate_calendar cfg env fs)) ->
     fs = Some (Pickled c) /\ valid c = false /\ expired c = true /\
     truthy_opt (refresh_token c) = true) /\
  (In RunLocalServer (effects (authenticate_calendar cfg env fs)) ->
     needs_interactive_flow fs /\ credentials_exists env = true).
Proof.
  pose proof (for_attempts_effects cfg env _ fs (range (MAX_RETRIES cfg))
                (fun attempt => attempt_iteration_origin cfg env attempt fs)) as H.
  rewrite Forall_forall in H. fold (authenticate_calendar cfg env fs) in H.
  split.
  - intros c Hin. exact (H _ Hin).
  - intros Hin. exact (H _ Hin).
Qed.

Lemma X7_witness :
  (Some (Pickled Sample.stale) = Some (Pickled Sample.stale) /\
   valid Sample.stale = false /\ expired Sample.stale = true /\
   truthy_opt (refresh_token Sample.stale) = true) /\
  (needs_interactive_flow None /\ credentials_exists Sample.env = true).
Proof.
  split.
  - apply (proj1 (X7_origin_of_refresh_and_flow default_config Sample.env
                    (Some (Pickled Sample.stale))) Sample.stale).
    vm_compute. do 6 right. left. reflexivity.
  - apply (proj2 (X7_origin_of_refresh_and_flow default_config Sample.env None)).
    vm_compute. do 4 right. left. reflexivity.
Defined.

(** X8. A token file that [pickle.load] rejects makes every attempt fail in
    the same way: with at least one attempt configured the method returns no
    credential and [Authentication failed: ] followed by the text of the
    load error; it never falls back on the interactive flow, sends no refresh
    request, and leaves the file as it is. *)
Theorem X8_corrupt_token_file (cfg : Config) (env : Env) (msg : string) :
  (0 < MAX_RETRIES cfg)%Z ->
  value (authenticate_calendar cfg env (Some (Corrupt msg)))
    = Ok (Some (None, Some ("Authentication failed: " ++ msg))) /\
  final_fs (authenticate_calendar cfg env (Some (Corrupt msg))) = Some (Corrupt msg) /\
  Forall (fun e => is_interactive_flow e = false /\ is_token_write e = false /\
                   forall c, e <> RefreshRequest c)
    (effects (authenticate_calendar cfg env (Some (Corrupt msg)))).
Proof.
  intros Hn.
  destruct (authenticate_fails cfg env (Some (Corrupt msg)) Hn) as [e [He Hrun]].
  { intros k _. exists (Exception msg). reflexivity. }
  assert (e = Exception msg) by (cbn in He; congruence). subst e.
  split; [now rewrite Hrun|]. split; [now rewrite Hrun|].
  apply for_attempts_effects. intros attempt.
  break; cbn; repeat constructor; discriminate.
Qed.

Lemma X8_witness :
  value (authenticate_calendar default_config Sample.env (Some (Corrupt "invalid load key")))
    = Ok (Some (None, Some "Authentication failed: invalid load key")) /\
  final_fs (authenticate_calendar default_config Sample.env
              (Some (Corrupt "invalid load key"))) = Some (Corrupt "invalid load key") /\
  Forall (fun e => is_interactive_flow e = false /\ is_token_write e = false /\
                   forall c, e <> RefreshRequest c)
    (effects (authenticate_calendar default_config Sample.env
                (Some (Corrupt "invalid load key")))).
Proof.
  apply (X8_corrupt_token_file default_config Sample.env "invalid load key").
  reflexivity.
Defined.

(** ** The two [run] methods, step by step *)

Section RunFacts.

Variable cfg : Config.
Variable env : Env.

(** The inner block of [CreateCalendarEvent.run], one failure point after the
    other. *)
Lemma submit_eq self date fs :
  CreateCalendarEvent.submit cfg env self date fs =
    match build env with
    | Some e => (Raise e, fs, [BuildService])
    | None =>
        if (API_TIMEOUT cfg <? 0)%Z then
          (Raise (Exception "Timeout value out of range"), fs,
           [BuildService; SetDefaultTimeout (API_TIMEOUT cfg)])
        else
          match strptime_datetime env
                  (date ++ " " ++ str_opt (CreateCalendarEvent.time self)) with
          | Raise e => (Raise e, fs, [BuildService; SetDefaultTimeout (API_TIMEOUT cfg)])
          | Ok start_time =>
              match add_minutes start_time (CreateCalendarEvent.duration_minutes self) with
              | Raise e =>
                  (Raise e, fs, [BuildService; SetDefaultTimeout (API_TIMEOUT cfg)])
              | Ok end_time =>
                  let event := CreateCalendarEvent.event_body env self start_time end_time in
                  (match events_insert env event with
                   | Ok result => Ok (create_answer self date (Ok result))
                   | Raise e => Raise e
                   end, fs,
                   [BuildService; SetDefaultTimeout (API_TIMEOUT cfg);
                    LogEventBody DEBUG event; ApiInsert "primary" event])
              end
          end
    end.
Proof.
  unfold CreateCalendarEvent.submit, CreateCalendarEvent.setdefaulttimeout. run_m.
  destruct (build env); run_m; [reflexivity|].
  destruct (API_TIMEOUT cfg <? 0)%Z; run_m; [reflexivity|].
  destruct (strptime_datetime env _); run_m; [|reflexivity].
  destruct (add_minutes _ _); run_m; [|reflexivity].
  destruct (events_insert env _); reflexivity.
Qed.

Lemma create_run_eq self fs :
  CreateCalendarEvent.run cfg env self fs =
    let date := if truthy (CreateCalendarEvent.date self) then CreateCalendarEvent.date self
                else today env in
    let started := Log INFO ("Creating calendar event: "
                             ++ str_opt (CreateCalendarEvent.title self)) in
    match authenticate_calendar cfg env fs with
    | (Ok (Some (creds, error)), fs1, t1) =>
        if truthy_opt error then (Ok (str_opt error), fs1, started :: t1)
        else
          match creds with
          | None => (Ok "Failed to authenticate with Google Calendar.", fs1, started :: t1)
          | Some _ =>
              match create_handled (CreateCalendarEvent.submit cfg env self date fs1) with
              | (r, fs2, t2) => (r, fs2, started :: (t1 ++ t2)%list)
              end
          end
    | (Ok None, fs1, t1) =>
        (Ok "Error creating calendar event: cannot unpack non-iterable NoneType object",
         fs1,
         started :: (t1 ++ [Log ERROR
           "Unexpected error: cannot unpack non-iterable NoneType object"])%list)
    | (Raise e, fs1, t1) =>
        (Ok ("Error creating calendar event: " ++ str_exn e), fs1,
         started :: (t1 ++ [Log ERROR ("Unexpected error: " ++ str_exn e)])%list)
    end.
Proof.
  unfold CreateCalendarEvent.run, create_handled.
  cbv beta iota zeta delta [try_except bind log emit ret raise].
  destruct (authenticate_calendar cfg env fs) as [[[[[creds error]|]|e] fs1] t1];
    cbv beta iota zeta; try reflexivity.
  - destruct (truthy_opt error); cbv beta iota zeta; [now rewrite app_nil_r|].
    destruct creds as [c|]; cbv beta iota zeta; [|now rewrite app_nil_r].
    destruct (CreateCalendarEvent.submit cfg env self _ fs1) as [[[msg|[m|m]] fs2] t2];
      cbv beta iota zeta; rewrite ?app_nil_r; reflexivity.
  - now rewrite app_nil_r.
Qed.

Lemma delete_events_eq events k c fs :
  CancelCalendarEvent.delete_events env k events c fs =
    (Ok (c + deleted env k events)%Z, fs,
     effects (CancelCalendarEvent.delete_events env k events c fs)).
Proof.
  destruct (delete_events_spec env events k c fs) as [Hv [Hfs _]].
  destruct (CancelCalendarEvent.delete_events env k events c fs) as [[r fs2] t2].
  unfold value, final_fs, effects in *. cbn [fst snd] in *. now subst.
Qed.

(** The inner block of [CancelCalendarEvent.run], one failure point after the
    other. *)
Lemma search_and_delete_eq self date fs :
  CancelCalendarEvent.search_and_delete cfg env self date fs =
    match build env with
    | Some e => (Raise e, fs, [BuildService])
    | None =>
        if (API_TIMEOUT cfg <? 0)%Z then
          (Raise (Exception "Timeout value out of range"), fs,
           [BuildService; SetDefaultTimeout (API_TIMEOUT cfg)])
        else
          match strptime_date env date with
          | Raise e => (Raise e, fs, [BuildService; SetDefaultTimeout (API_TIMEOUT cfg)])
          | Ok date_obj =>
              let query := CancelCalendarEvent.list_query self date_obj in
              let asked := [BuildService; SetDefaultTimeout (API_TIMEOUT cfg); ApiList query] in
              match events_list env query with
              | Raise e => (Raise e, fs, asked)
              | Ok events =>
                  if CancelCalendarEvent.is_empty events then
                    (Ok ("No events found matching '"
                         ++ str_opt (CancelCalendarEvent.title self) ++ "' on " ++ date),
                     fs, asked)
                  else
                    match CancelCalendarEvent.matching_events env self date events with
                    | Raise e => (Raise e, fs, asked)
                    | Ok matched =>
                        if CancelCalendarEvent.is_empty matched then
                          (Ok ("No events found matching '"
                               ++ str_opt (CancelCalendarEvent.title self) ++ "' at "
                               ++ str_opt (CancelCalendarEvent.time self) ++ " on " ++ date),
                           fs, asked)
                        else
                          (Ok (CancelCalendarEvent.report (CancelCalendarEvent.title self)
                                 date (deleted env 0 matched)),
                           fs,
                           (asked ++ effects (CancelCalendarEvent.delete_events
                                                env 0 matched 0%Z fs))%list)
                    end
              end
          end
    end.
Proof.
  unfold CancelCalendarEvent.search_and_delete, CancelCalendarEvent.setdefaulttimeout.
  run_m.
  destruct (build env); run_m; [reflexivity|].
  destruct (API_TIMEOUT cfg <? 0)%Z; run_m; [reflexivity|].
  destruct (strptime_date env date) as [date_obj|e]; run_m; [|reflexivity].
  destruct (events_list env _) as [events|e]; run_m; [|reflexivity].
  destruct (CancelCalendarEvent.is_empty events); run_m; [reflexivity|].
  destruct (CancelCalendarEvent.matching_events env self date events) as [matched|e];
    run_m; [|reflexivity].
  destruct (CancelCalendarEvent.is_empty matched); run_m; [reflexivity|].
  rewrite (delete_events_eq matched 0 0%Z fs). cbv beta iota zeta.
  cbn [Z.add app]. now rewrite app_nil_r.
Qed.

Lemma cancel_run_eq self fs :
  CancelCalendarEvent.run cfg env self fs =
    let date := if truthy (CancelCalendarEvent.date self) then CancelCalendarEvent.date self
                else today env in
    let started := Log INFO ("Attempting to cancel event: "
                             ++ str_opt (CancelCalendarEvent.title self)) in
    match authenticate_calendar cfg env fs with
    | (Ok (Some (creds, error)), fs1, t1) =>
        if truthy_opt error then (Ok (str_opt error), fs1, started :: t1)
        else
          match creds with
          | None => (Ok "Failed to authenticate with Google Calendar.", fs1, started :: t1)
          | Some _ =>
              match cancel_handled
                      (CancelCalendarEvent.search_and_delete cfg env self date fs1) with
              | (r, fs2, t2) => (r, fs2, started :: (t1 ++ t2)%list)
              end
          end
    | (Ok None, fs1, t1) =>
        (Ok "Error cancelling calendar event: cannot unpack non-iterable NoneType object",
         fs1,
         started :: (t1 ++ [Log ERROR
           "Unexpected error: cannot unpack non-iterable NoneType object"])%list)
    | (Raise e, fs1, t1) =>
        (Ok ("Error cancelling calendar event: " ++ str_exn e), fs1,
         started :: (t1 ++ [Log ERROR ("Unexpected error: " ++ str_exn e)])%list)
    end.
Proof.
  unfold CancelCalendarEvent.run, cancel_handled.
  cbv beta iota zeta delta [try_except bind log emit ret raise].
  destruct (authenticate_calendar cfg env fs) as [[[[[creds error]|]|e] fs1] t1];
    cbv beta iota zeta; try reflexivity.
  - destruct (truthy_opt error); cbv beta iota zeta; [now rewrite app_nil_r|].
    destruct creds as [c|]; cbv beta iota zeta; [|now rewrite app_nil_r].
    destruct (CancelCalendarEvent.search_and_delete cfg env self _ fs1)
      as [[[msg|[m|m]] fs2] t2];
      cbv beta iota zeta; rewrite ?app_nil_r; reflexivity.
  - now rewrite app_nil_r.
Qed.

(** The time filter keeps the events that start at the requested hour and
    minute, in their order, when every start can be read. *)
Lemma filter_by_time_ok target events : forall matched,
  CancelCalendarEvent.filter_by_time env target events = Ok matched ->
  matched = filter (starts_at env target) events /\
  Forall (fun event => exists event_time,
            CancelCalendarEvent.event_time_of env event = Ok event_time) events.
Proof.
  induction events as [|event rest IH]; intros matched H; cbn in H.
  - inversion H. split; [reflexivity|constructor].
  - destruct (CancelCalendarEvent.event_time_of env event) as [event_time|e] eqn:Et;
      [|discriminate].
    destruct (CancelCalendarEvent.filter_by_time env target rest) as [matching|e];
      [|discriminate].
    destruct (IH matching eq_refl) as [-> Hall].
    cbn [filter]. unfold starts_at at 1. rewrite Et.
    destruct ((hour event_time =? hour target)%Z && (minute event_time =? minute target)%Z);
      inversion H; (split; [reflexivity|constructor; eauto]).
Qed.

(** The time filter fails exactly when some start cannot be read. *)
Lemma filter_by_time_raise target events :
  (exists e, CancelCalendarEvent.filter_by_time env target events = Raise e) <->
  Exists (fun event => exists e, CancelCalendarEvent.event_time_of env event = Raise e)
    events.
Proof.
  induction events as [|event rest IH]; cbn [CancelCalendarEvent.filter_by_time].
  - split; [intros [e H]; discriminate|intros H; inversion H].
  - destruct (CancelCalendarEvent.event_time_of env event) as [event_time|e0] eqn:Et.
    + destruct (CancelCalendarEvent.filter_by_time env target rest) as [matching|e1].
      * split.
        -- intros [e H].
           destruct ((hour event_time =? hour target)%Z
                     && (minute event_time =? minute target)%Z); discriminate.
        -- intros H. inversion H as [? ? [e He]|? ? Hrest]; subst.
           ++ congruence.
           ++ apply IH in Hrest. destruct Hrest as [e He]. discriminate.
      * split; [|intros _; eauto].
        intros _. apply Exists_cons_tl. apply IH. eauto.
    + split; [|intros _; eauto].
      intros _. apply Exists_cons_hd. eauto.
Qed.

End RunFacts.

Section RunFacts2.

Variable cfg : Config.
Variable env : Env.

Lemma insert_requests_app t1 t2 :
  insert_requests (t1 ++ t2) = (insert_requests t1 ++ insert_requests t2)%list.
Proof.
  induction t1 as [|e t1 IH]; [reflexivity|].
  destruct e; cbn; now rewrite ?IH.
Qed.

Lemma list_requests_app t1 t2 :
  list_requests (t1 ++ t2) = (list_requests t1 ++ list_requests t2)%list.
Proof.
  induction t1 as [|e t1 IH]; [reflexivity|].
  destruct e; cbn; now rewrite ?IH.
Qed.

Lemma auth_effects_requests t :
  Forall (fun e => is_auth_effect e = true) t ->
  insert_requests t = [] /\ list_requests t = [] /\ delete_requests t = [] /\
  Forall (fun e => is_calendar_request e = false) t.
Proof.
  induction 1 as [|e t He _ [H1 [H2 [H3 H4]]]]; [repeat split; constructor|].
  destruct e; cbn in *; try discriminate; repeat split; try assumption;
    constructor; auto.
Qed.

(** The delete loop does nothing but ask for deletions and log failures. *)
Lemma delete_events_effects events : forall k c fs,
  Forall (fun e => match e with
                   | ApiDelete _ _ | Log _ _ => True
                   | _ => False
                   end)
    (effects (CancelCalendarEvent.delete_events env k events c fs)).
Proof.
  induction events as [|event rest IH]; intros k c fs; [constructor|].
  cbn [CancelCalendarEvent.delete_events]. unfold bind. rewrite delete_one_run.
  destruct (events_delete env k (ev_id event)) as [e|].
  - specialize (IH (S k) c fs).
    destruct (CancelCalendarEvent.delete_events env (S k) rest c fs) as [[r fs2] t2].
    unfold effects in *. cbn [snd app] in *. repeat constructor. exact IH.
  - specialize (IH (S k) (c + 1)%Z fs).
    destruct (CancelCalendarEvent.delete_events env (S k) rest (c + 1)%Z fs)
      as [[r fs2] t2].
    unfold effects in *. cbn [snd app] in *. repeat constructor. exact IH.
Qed.

Lemma delete_events_quiet events k c fs :
  token_writes (effects (CancelCalendarEvent.delete_events env k events c fs)) = [] /\
  list_requests (effects (CancelCalendarEvent.delete_events env k events c fs)) = [].
Proof.
  pose proof (delete_events_effects events k c fs) as H.
  induction H as [|e t He _ IH]; [split; reflexivity|].
  destruct e; try contradiction; exact IH.
Qed.

(** Neither inner block touches the token file. *)
Lemma submit_quiet self date fs :
  final_fs (CreateCalendarEvent.submit cfg env self date fs) = fs /\
  token_writes (effects (CreateCalendarEvent.submit cfg env self date fs)) = [].
Proof.
  rewrite submit_eq.
  repeat match goal with
         | |- context [match ?x with _ => _ end] => destruct x
         end; split; reflexivity.
Qed.

Lemma search_and_delete_quiet self date fs :
  final_fs (CancelCalendarEvent.search_and_delete cfg env self date fs) = fs /\
  token_writes (effects (CancelCalendarEvent.search_and_delete cfg env self date fs)) = [].
Proof.
  rewrite search_and_delete_eq.
  repeat (cbv zeta;
          match goal with
          | |- context [match ?x with _ => _ end] => destruct x
          end); cbv zeta; split; try reflexivity.
  unfold effects at 1. cbn [snd]. rewrite token_writes_app.
  now rewrite (proj1 (delete_events_quiet _ _ _ _)).
Qed.

(** The handlers of the inner [try] turn every outcome into an answer, keep
    the token file, and add only log lines. *)
Lemma create_handled_spec x :
  (exists msg, value (create_handled x) = Ok msg) /\
  final_fs (create_handled x) = final_fs x /\
  token_writes (effects (create_handled x)) = token_writes (effects x) /\
  insert_requests (effects (create_handled x)) = insert_requests (effects x).
Proof.
  destruct x as [[[msg|[m|m]] fs2] t2]; cbn [create_handled];
    unfold value, final_fs, effects; cbn [fst snd];
    rewrite ?token_writes_app, ?insert_requests_app; cbn; rewrite ?app_nil_r; eauto.
Qed.

Lemma cancel_handled_spec x :
  (exists msg, value (cancel_handled x) = Ok msg) /\
  final_fs (cancel_handled x) = final_fs x /\
  token_writes (effects (cancel_handled x)) = token_writes (effects x) /\
  delete_requests (effects (cancel_handled x)) = delete_requests (effects x) /\
  list_requests (effects (cancel_handled x)) = list_requests (effects x).
Proof.
  destruct x as [[[msg|[m|m]] fs2] t2]; cbn [cancel_handled];
    unfold value, final_fs, effects; cbn [fst snd];
    rewrite ?token_writes_app, ?delete_requests_app, ?list_requests_app; cbn;
    rewrite ?app_nil_r; eauto 6.
Qed.

(** A sum that passes the last minute of year 9999 is an overflow. *)
Lemma add_minutes_overflow dt mins :
  (0 <= second dt <= 59)%Z ->
  ((MAXORDINAL + 1) * 1440 <= minutes_of dt + mins)%Z ->
  add_minutes dt mins = Raise (Exception "date value out of range").
Proof.
  intros Hs Hm. unfold add_minutes, minutes_of in *.
  set (secs := (hour dt * 3600 + minute dt * 60 + second dt + mins * 60)%Z).
  replace ((toordinal dt + secs / 86400 <=? MAXORDINAL)%Z) with false;
    [now rewrite andb_false_r|].
  symmetry. apply Z.leb_gt. subst secs. unfold MAXORDINAL in *.
  Z.div_mod_to_equations. lia.
Qed.

End RunFacts2.

(** ** Both tools *)

(** X9. With a retry count of zero or less neither tool reaches the calendar:
    [authenticate_calendar] returns a bare [None], and each [run] answers with
    the text of the unpacking error after logging it, with no other effect. *)
Theorem X9_no_attempt_configured (cfg : Config) (env : Env) (fs : FS)
  (create : CreateCalendarEvent.t) (cancel : CancelCalendarEvent.t) :
  (MAX_RETRIES cfg <= 0)%Z ->
  authenticate_calendar cfg env fs = (Ok None, fs, []) /\
  CreateCalendarEvent.run cfg env create fs =
    (Ok "Error creating calendar event: cannot unpack non-iterable NoneType object", fs,
     [Log INFO ("Creating calendar event: " ++ str_opt (CreateCalendarEvent.title create));
      Log ERROR "Unexpected error: cannot unpack non-iterable NoneType object"]) /\
  CancelCalendarEvent.run cfg env cancel fs =
    (Ok "Error cancelling calendar event: cannot unpack non-iterable NoneType object", fs,
     [Log INFO ("Attempting to cancel event: " ++ str_opt (CancelCalendarEvent.title cancel));
      Log ERROR "Unexpected error: cannot unpack non-iterable NoneType object"]).
Proof.
  intros H. pose proof (authenticate_no_attempt cfg env fs H) as Ha.
  split; [exact Ha|]. split.
  - rewrite create_run_eq, Ha. reflexivity.
  - rewrite cancel_run_eq, Ha. reflexivity.
Qed.

Lemma X9_witness :
  authenticate_calendar (mkConfig 15 10 (-2) (1 # 1)) Sample.env None = (Ok None, None, []) /\
  CreateCalendarEvent.run (mkConfig 15 10 (-2) (1 # 1)) Sample.env Sample.meeting None =
    (Ok "Error creating calendar event: cannot unpack non-iterable NoneType object", None,
     [Log INFO ("Creating calendar event: "
                ++ str_opt (CreateCalendarEvent.title Sample.meeting));
      Log ERROR "Unexpected error: cannot unpack non-iterable NoneType object"]) /\
  CancelCalendarEvent.run (mkConfig 15 10 (-2) (1 # 1)) Sample.env Sample.cancel_all None =
    (Ok "Error cancelling calendar event: cannot unpack non-iterable NoneType object", None,
     [Log INFO ("Attempting to cancel event: "
                ++ str_opt (CancelCalendarEvent.title Sample.cancel_all));
      Log ERROR "Unexpected error: cannot unpack non-iterable NoneType object"]).
Proof.
  apply (X9_no_attempt_configured (mkConfig 15 10 (-2) (1 # 1)) Sample.env None
           Sample.meeting Sample.cancel_all).
  discriminate.
Defined.

(** X10. No exception of the class [Exception] escapes either [run]:
    whatever the configuration, the token file and the answers of the outside
    world, and whichever call raises a [TimeoutError] or another [Exception],
    each [run] returns a string.  (Exceptions outside [Exception], such as
    [KeyboardInterrupt] or a cancellation of the task during
    [asyncio.sleep], are not caught by the handlers and are outside the
    model.) *)
Theorem X10_run_never_raises (cfg : Config) (env : Env) (fs : FS)
  (create : CreateCalendarEvent.t) (cancel : CancelCalendarEvent.t) :
  (exists msg, value (CreateCalendarEvent.run cfg env create fs) = Ok msg) /\
  (exists msg, value (CancelCalendarEvent.run cfg env cancel fs) = Ok msg).
Proof.
  split.
  - rewrite create_run_eq. cbv zeta.
    destruct (authenticate_calendar cfg env fs) as [[[[[creds error]|]|e] fs1] t1];
      try (eexists; reflexivity).
    destruct (truthy_opt error); [eexists; reflexivity|].
    destruct creds as [c|]; [|eexists; reflexivity].
    destruct (create_handled_spec
                (CreateCalendarEvent.submit cfg env create
                   (if truthy (CreateCalendarEvent.date create)
                    then CreateCalendarEvent.date create else today env) fs1))
      as [[msg Hmsg] _].
    destruct (create_handled _) as [[r fs2] t2]. exists msg. exact Hmsg.
  - rewrite cancel_run_eq. cbv zeta.
    destruct (authenticate_calendar cfg env fs) as [[[[[creds error]|]|e] fs1] t1];
      try (eexists; reflexivity).
    destruct (truthy_opt error); [eexists; reflexivity|].
    destruct creds as [c|]; [|eexists; reflexivity].
    destruct (cancel_handled_spec
                (CancelCalendarEvent.search_and_delete cfg env cancel
                   (if truthy (CancelCalendarEvent.date cancel)
                    then CancelCalendarEvent.date cancel else today env) fs1))
      as [[msg Hmsg] _].
    destruct (cancel_handled _) as [[r fs2] t2]. exists msg. exact Hmsg.
Qed.

(** X11. Apart from what [authenticate_calendar] does, neither [run] touches
    the token file: after a run the file is as the authentication left it,
    and the writes of the run are those of the authentication. *)
Theorem X11_run_leaves_the_token_file_to_authentication (cfg : Config) (env : Env)
  (fs : FS) (create : CreateCalendarEvent.t) (cancel : CancelCalendarEvent.t) :
  (final_fs (CreateCalendarEvent.run cfg env create fs)
     = final_fs (authenticate_calendar cfg env fs) /\
   token_writes (effects (CreateCalendarEvent.run cfg env create fs))
     = token_writes (effects (authenticate_calendar cfg env fs))) /\
  (final_fs (CancelCalendarEvent.run cfg env cancel fs)
     = final_fs (authenticate_calendar cfg env fs) /\
   token_writes (effects (CancelCalendarEvent.run cfg env cancel fs))
     = token_writes (effects (authenticate_calendar cfg env fs))).
Proof.
  split.
  - rewrite create_run_eq. cbv zeta.
    destruct (authenticate_calendar cfg env fs) as [[[[[creds error]|]|e] fs1] t1];
      unfold final_fs, effects; cbn [fst snd token_writes];
      rewrite ?token_writes_app; cbn [token_writes]; rewrite ?app_nil_r;
      try (split; reflexivity).
    destruct (truthy_opt error); [split; reflexivity|].
    destruct creds as [c|]; [|split; reflexivity].
    set (date := if truthy (CreateCalendarEvent.date create)
                 then CreateCalendarEvent.date create else today env).
    destruct (create_handled_spec (CreateCalendarEvent.submit cfg env create date fs1))
      as [_ [Hfs [Hw _]]].
    destruct (submit_quiet cfg env create date fs1) as [Hfs' Hw'].
    destruct (create_handled _) as [[r fs2] t2].
    unfold final_fs, effects in *. cbn [fst snd token_writes] in *.
    rewrite token_writes_app, Hw, Hw', app_nil_r. split; congruence.
  - rewrite cancel_run_eq. cbv zeta.
    destruct (authenticate_calendar cfg env fs) as [[[[[creds error]|]|e] fs1] t1];
      unfold final_fs, effects; cbn [fst snd token_writes];
      rewrite ?token_writes_app; cbn [token_writes]; rewrite ?app_nil_r;
      try (split; reflexivity).
    destruct (truthy_opt error); [split; reflexivity|].
    destruct creds as [c|]; [|split; reflexivity].
    set (date := if truthy (CancelCalendarEvent.date cancel)
                 then CancelCalendarEvent.date cancel else today env).
    destruct (cancel_handled_spec
                (CancelCalendarEvent.search_and_delete cfg env cancel date fs1))
      as [_ [Hfs [Hw _]]].
    destruct (search_and_delete_quiet cfg env cancel date fs1) as [Hfs' Hw'].
    destruct (cancel_handled _) as [[r fs2] t2].
    unfold final_fs, effects in *. cbn [fst snd token_writes] in *.
    rewrite token_writes_app, Hw, Hw', app_nil_r. split; congruence.
Qed.

(** X12. When [authenticate_calendar] returns an error message, each [run]
    returns that very message and performs nothing beyond its first log line
    and the authentication: no request reaches the calendar. *)
Theorem X12_authentication_error_is_the_answer (cfg : Config) (env : Env) (fs : FS)
  (create : CreateCalendarEvent.t) (cancel : CancelCalendarEvent.t)
  (creds : option Credentials) (msg : string) (fs1 : FS) (t1 : list Effect) :
  authenticate_calendar cfg env fs = (Ok (Some (creds, Some msg)), fs1, t1) ->
  truthy msg = true ->
  (value (CreateCalendarEvent.run cfg env create fs) = Ok msg /\
   Forall (fun e => is_calendar_request e = false)
     (effects (CreateCalendarEvent.run cfg env create fs))) /\
  (value (CancelCalendarEvent.run cfg env cancel fs) = Ok msg /\
   Forall (fun e => is_calendar_request e = false)
     (effects (CancelCalendarEvent.run cfg env cancel fs))).
Proof.
  intros Ha Hm.
  pose proof (authenticate_auth_effects cfg env fs) as Hauth.
  rewrite Ha in Hauth. unfold effects in Hauth. cbn [snd] in Hauth.
  apply auth_effects_requests in Hauth. destruct Hauth as [_ [_ [_ Hauth]]].
  split.
  - rewrite create_run_eq, Ha. cbv zeta. cbn [truthy_opt]. rewrite Hm.
    split; [reflexivity|]. constructor; [reflexivity|exact Hauth].
  - rewrite cancel_run_eq, Ha. cbv zeta. cbn [truthy_opt]. rewrite Hm.
    split; [reflexivity|]. constructor; [reflexivity|exact Hauth].
Qed.

Lemma X12_witness :
  (value (CreateCalendarEvent.run default_config Scenario.no_secret Sample.meeting None)
     = Ok "Error: credentials.json file not found." /\
   Forall (fun e => is_calendar_request e = false)
     (effects (CreateCalendarEvent.run default_config Scenario.no_secret
                 Sample.meeting None))) /\
  (value (CancelCalendarEvent.run default_config Scenario.no_secret Sample.cancel_all None)
     = Ok "Error: credentials.json file not found." /\
   Forall (fun e => is_calendar_request e = false)
     (effects (CancelCalendarEvent.run default_config Scenario.no_secret
                 Sample.cancel_all None))).
Proof.
  apply (X12_authentication_error_is_the_answer default_config Scenario.no_secret None
           Sample.meeting Sample.cancel_all None
           "Error: credentials.json file not found." None
           [Log INFO "Authentication attempt 1/3"; Sleep (1 # 2);
            Log INFO "Initiating new authentication flow"]);
    reflexivity.
Defined.

(** ** Creating an event: requests and answers *)

(** X13. A run of [CreateCalendarEvent] sends at most one insert request, and
    it sends one only after [authenticate_calendar] has returned a credential
    with no error and the service object was built. *)
Theorem X13_at_most_one_insert (cfg : Config) (env : Env)
  (self : CreateCalendarEvent.t) (fs : FS) :
  (length (insert_requests (effects (CreateCalendarEvent.run cfg env self fs))) <= 1)%nat /\
  (insert_requests (effects (CreateCalendarEvent.run cfg env self fs)) <> [] ->
   (exists creds error,
      value (authenticate_calendar cfg env fs) = Ok (Some (Some creds, error)) /\
      truthy_opt error = false) /\
   build env = None).
Proof.
  pose proof (authenticate_auth_effects cfg env fs) as Hauth.
  apply auth_effects_requests in Hauth. destruct Hauth as [Hauth _].
  rewrite create_run_eq. cbv zeta.
  destruct (authenticate_calendar cfg env fs) as [[[[[creds error]|]|e] fs1] t1];
    unfold value, effects in *; cbn [fst snd insert_requests] in *;
    rewrite ?insert_requests_app, ?Hauth; cbn [insert_requests app length];
    try (split; [lia|congruence]).
  destruct (truthy_opt error) eqn:Herr; cbn [snd insert_requests]; rewrite ?Hauth;
    [split; [cbn; lia|congruence]|].
  destruct creds as [c|]; cbn [snd insert_requests]; rewrite ?Hauth;
    [|split; [cbn; lia|congruence]].
  set (date := if truthy (CreateCalendarEvent.date self)
               then CreateCalendarEvent.date self else today env).
  destruct (create_handled_spec (CreateCalendarEvent.submit cfg env self date fs1))
    as [_ [_ [_ Hi]]].
  destruct (create_handled _) as [[r fs2] t2].
  unfold effects in Hi. cbn [snd insert_requests] in *.
  rewrite insert_requests_app, Hauth, Hi. cbn [app].
  rewrite submit_eq.
  destruct (build env) as [e|]; [split; [cbn; lia|cbn; congruence]|].
  repeat (cbv zeta;
          match goal with
          | |- context [match ?x with _ => _ end] => destruct x
          end); cbn; (split; [lia|]); intros; try congruence; eauto.
Qed.

Lemma X13_witness :
  (length (insert_requests
             (effects (CreateCalendarEvent.run default_config Sample.env Sample.meeting
                         (Some (Pickled Sample.stored))))) <= 1)%nat /\
  ((exists creds error,
      value (authenticate_calendar default_config Sample.env (Some (Pickled Sample.stored)))
        = Ok (Some (Some creds, error)) /\
      truthy_opt error = false) /\
   build Sample.env = None).
Proof.
  destruct (X13_at_most_one_insert default_config Sample.env Sample.meeting
              (Some (Pickled Sample.stored))) as [H1 H2].
  split; [exact H1|]. apply H2. discriminate.
Defined.

(** X14. Once the authentication gave a credential, the service was built and
    the start and the end were computed, the answer of [CreateCalendarEvent.run]
    is decided by the outcome of the one insert request it sends: the
    confirmation with the link of the new event, the timeout message for a
    [TimeoutError], or [Error creating calendar event: ] followed by the text of
    any other exception. *)
Theorem X14_answer_follows_the_insert (cfg : Config) (env : Env)
  (self : CreateCalendarEvent.t) (fs : FS) (creds : Credentials) (fs1 : FS)
  (t1 : list Effect) (start_time end_time : datetime) :
  let date := if truthy (CreateCalendarEvent.date self) then CreateCalendarEvent.date self
              else today env in
  authenticate_calendar cfg env fs = (Ok (Some (Some creds, None)), fs1, t1) ->
  build env = None ->
  (0 <= API_TIMEOUT cfg)%Z ->
  strptime_datetime env (date ++ " " ++ str_opt (CreateCalendarEvent.time self))
    = Ok start_time ->
  add_minutes start_time (CreateCalendarEvent.duration_minutes self) = Ok end_time ->
  value (CreateCalendarEvent.run cfg env self fs) =
    Ok (create_answer self date
          (events_insert env (CreateCalendarEvent.event_body env self start_time end_time))) /\
  insert_requests (effects (CreateCalendarEvent.run cfg env self fs)) =
    [CreateCalendarEvent.event_body env self start_time end_time].
Proof.
  intros date Ha Hb Ht Hs He.
  assert (Hlt : (API_TIMEOUT cfg <? 0)%Z = false) by (apply Z.ltb_ge; lia).
  pose proof (authenticate_auth_effects cfg env fs) as Hauth.
  rewrite Ha in Hauth. unfold effects in Hauth. cbn [snd] in Hauth.
  apply auth_effects_requests in Hauth. destruct Hauth as [Hauth _].
  rewrite create_run_eq, Ha. cbv zeta. fold date. cbn [truthy_opt].
  rewrite submit_eq, Hb, Hlt, Hs, He. cbv zeta.
  destruct (events_insert env _) as [result|[m|m]]; cbn [create_handled create_answer];
    unfold value, effects; cbn [fst snd insert_requests];
    rewrite insert_requests_app, Hauth; split; reflexivity.
Qed.

Lemma X14_witness :
  value (CreateCalendarEvent.run default_config Scenario.insert_refused Sample.meeting
           (Some (Pickled Sample.stored))) =
    Ok "Error creating calendar event: quota exceeded" /\
  insert_requests
    (effects (CreateCalendarEvent.run default_config Scenario.insert_refused Sample.meeting
                (Some (Pickled Sample.stored)))) =
    [CreateCalendarEvent.event_body Scenario.insert_refused Sample.meeting
       (mkdt 2024 12 31 23 30 0) (mkdt 2025 1 1 0 15 0)].
Proof.
  apply (X14_answer_follows_the_insert default_config Scenario.insert_refused Sample.meeting
           (Some (Pickled Sample.stored)) Sample.stored (Some (Pickled Sample.stored))
           [Log INFO "Authentication attempt 1/3"; Sleep (1 # 2);
            Log DEBUG "Loading existing token"; ReadToken]
           (mkdt 2024 12 31 23 30 0) (mkdt 2025 1 1 0 15 0));
    try reflexivity.
  discriminate.
Defined.

(** X15. An event whose end would fall after the last minute of the year 9999
    is not submitted: the addition overflows, and the run answers
    [Error creating calendar event: date value out of range] without an
    insert request. *)
Theorem X15_end_beyond_the_calendar (cfg : Config) (env : Env)
  (self : CreateCalendarEvent.t) (fs : FS) (creds : Credentials) (fs1 : FS)
  (t1 : list Effect) (start_time : datetime) :
  let date := if truthy (CreateCalendarEvent.date self) then CreateCalendarEvent.date self
              else today env in
  authenticate_calendar cfg env fs = (Ok (Some (Some creds, None)), fs1, t1) ->
  build env = None ->
  (0 <= API_TIMEOUT cfg)%Z ->
  strptime_datetime env (date ++ " " ++ str_opt (CreateCalendarEvent.time self))
    = Ok start_time ->
  ((MAXORDINAL + 1) * 1440
   <= minutes_of start_time + CreateCalendarEvent.duration_minutes self)%Z ->
  value (CreateCalendarEvent.run cfg env self fs) =
    Ok "Error creating calendar event: date value out of range" /\
  insert_requests (effects (CreateCalendarEvent.run cfg env self fs)) = [].
Proof.
  intros date Ha Hb Ht Hs Hover.
  assert (Hlt : (API_TIMEOUT cfg <? 0)%Z = false) by (apply Z.ltb_ge; lia).
  assert (Hsec : (0 <= second start_time <= 59)%Z).
  { unfold strptime_datetime in Hs.
    destruct (parse_Ymd_HM env _) as [[[[[y m] d] H] Mi]|e]; [|discriminate].
    apply DTLemmas.construct_ok in Hs. destruct Hs as [-> Hc].
    now apply DTLemmas.check_second. }
  pose proof (authenticate_auth_effects cfg env fs) as Hauth.
  rewrite Ha in Hauth. unfold effects in Hauth. cbn [snd] in Hauth.
  apply auth_effects_requests in Hauth. destruct Hauth as [Hauth _].
  rewrite create_run_eq, Ha. cbv zeta. fold date. cbn [truthy_opt].
  rewrite submit_eq, Hb, Hlt, Hs, (add_minutes_overflow _ _ Hsec Hover).
  cbn [create_handled]. unfold value, effects. cbn [fst snd insert_requests].
  rewrite insert_requests_app, Hauth. split; reflexivity.
Qed.

Lemma X15_witness :
  value (CreateCalendarEvent.run default_config Scenario.insert_refused
           Scenario.last_evening (Some (Pickled Sample.stored))) =
    Ok "Error creating calendar event: date value out of range" /\
  insert_requests
    (effects (CreateCalendarEvent.run default_config Scenario.insert_refused
                Scenario.last_evening (Some (Pickled Sample.stored)))) = [].
Proof.
  apply (X15_end_beyond_the_calendar default_config Scenario.insert_refused
           Scenario.last_evening (Some (Pickled Sample.stored)) Sample.stored
           (Some (Pickled Sample.stored))
           [Log INFO "Authentication attempt 1/3"; Sleep (1 # 2);
            Log DEBUG "Loading existing token"; ReadToken]
           (mkdt 9999 12 31 23 30 0));
    try reflexivity; vm_compute; discriminate.
Defined.

(** X16. A date and time that [strptime] rejects, because the text does not
    match the format or because its fields are not a date (a 30th of
    February), is reported and nothing is submitted: the run answers
    [Error creating calendar event: ] followed by the text of the exception,
    without an insert request. *)
Theorem X16_unreadable_start_is_reported (cfg : Config) (env : Env)
  (self : CreateCalendarEvent.t) (fs : FS) (creds : Credentials) (fs1 : FS)
  (t1 : list Effect) (msg : string) :
  let date := if truthy (CreateCalendarEvent.date self) then CreateCalendarEvent.date self
              else today env in
  authenticate_calendar cfg env fs = (Ok (Some (Some creds, None)), fs1, t1) ->
  build env = None ->
  (0 <= API_TIMEOUT cfg)%Z ->
  strptime_datetime env (date ++ " " ++ str_opt (CreateCalendarEvent.time self))
    = Raise (Exception msg) ->
  value (CreateCalendarEvent.run cfg env self fs) =
    Ok ("Error creating calendar event: " ++ msg) /\
  insert_requests (effects (CreateCalendarEvent.run cfg env self fs)) = [].
Proof.
  intros date Ha Hb Ht Hs.
  assert (Hlt : (API_TIMEOUT cfg <? 0)%Z = false) by (apply Z.ltb_ge; lia).
  pose proof (authenticate_auth_effects cfg env fs) as Hauth.
  rewrite Ha in Hauth. unfold effects in Hauth. cbn [snd] in Hauth.
  apply auth_effects_requests in Hauth. destruct Hauth as [Hauth _].
  rewrite create_run_eq, Ha. cbv zeta. fold date. cbn [truthy_opt].
  rewrite submit_eq, Hb, Hlt, Hs.
  cbn [create_handled]. unfold value, effects. cbn [fst snd insert_requests].
  rewrite insert_requests_app, Hauth. split; reflexivity.
Qed.

Lemma X16_witness :
  value (CreateCalendarEvent.run default_config Scenario.insert_refused
           Scenario.february_30 (Some (Pickled Sample.stored))) =
    Ok "Error creating calendar event: day is out of range for month" /\
  insert_requests
    (effects (CreateCalendarEvent.run default_config Scenario.insert_refused
                Scenario.february_30 (Some (Pickled Sample.stored)))) = [].
Proof.
  apply (X16_unreadable_start_is_reported default_config Scenario.insert_refused
           Scenario.february_30 (Some (Pickled Sample.stored)) Sample.stored
           (Some (Pickled Sample.stored))
           [Log INFO "Authentication attempt 1/3"; Sleep (1 # 2);
            Log DEBUG "Loading existing token"; ReadToken]);
    try reflexivity.
  discriminate.
Defined.

(** ** Construction, defaults and the schemas *)

(** X17. The default of the field [date] is the day on which the module was
    imported, not the day of the call: for a tool constructed without a date,
    every event that [run] submits starts on the import day (when that string
    is not empty), although the schema read on the day of the call advertises
    that day as the default. *)
Theorem X17_default_date_is_the_import_day (cfg : Config) (env : Env)
  (args : CreateCalendarEvent.Args) (self : CreateCalendarEvent.t) (fs : FS)
  (cal : string) (body : EventBody) :
  CreateCalendarEvent.arg_date args = None ->
  CreateCalendarEvent.new env args = inr self ->
  truthy (import_day env) = true ->
  In (ApiInsert cal body) (effects (CreateCalendarEvent.run cfg env self fs)) ->
  (exists start_time,
     strptime_datetime env
       (import_day env ++ " " ++ str_opt (CreateCalendarEvent.arg_time args))
       = Ok start_time /\
     dateTime (start body) = isoformat start_time) /\
  Json.path ["parameters"; "properties"; "date"; "default"]
    (CreateCalendarEvent_schema env) = Some (Json.Str (today env)).
Proof.
  intros Hd Hnew Himp Hin. split; [|reflexivity].
  unfold CreateCalendarEvent.new in Hnew.
  destruct (CreateCalendarEvent.validate_duration _) as [err|d]; [discriminate|].
  inversion Hnew; subst self; clear Hnew. rewrite Hd in Hin.
  apply run_insert_inv in Hin. cbn [CreateCalendarEvent.date CreateCalendarEvent.time] in Hin.
  rewrite Himp in Hin.
  destruct Hin as [start_time [end_time [Hs [_ [_ ->]]]]].
  exists start_time. split; [exact Hs|reflexivity].
Qed.

Lemma X17_witness :
  (exists start_time,
     strptime_datetime Scenario.insert_refused ("2024-03-01" ++ " " ++ "14:30")
       = Ok start_time /\
     isoformat (mkdt 2024 3 1 14 30 0) = isoformat start_time) /\
  Json.path ["parameters"; "properties"; "date"; "default"]
    (CreateCalendarEvent_schema Scenario.insert_refused) = Some (Json.Str "2024-03-15").
Proof.
  apply (X17_default_date_is_the_import_day default_config Scenario.insert_refused
           (CreateCalendarEvent.mkArgs (Some "Review") None (Some "14:30") None None)
           (CreateCalendarEvent.mk (Some "Review") "2024-03-01" (Some "14:30") 30
              EmptyString)
           (Some (Pickled Sample.stored)) "primary"
           (CreateCalendarEvent.event_body Scenario.insert_refused
              (CreateCalendarEvent.mk (Some "Review") "2024-03-01" (Some "14:30") 30
                 EmptyString)
              (mkdt 2024 3 1 14 30 0) (mkdt 2024 3 1 15 0 0)));
    try reflexivity.
  vm_compute. do 8 right. left. reflexivity.
Defined.

(** X18. The constructor of [CreateCalendarEvent] and its schema agree on the
    duration, and on nothing else: the constructor accepts a call exactly when
    the duration, given or the default, lies between the minimum and the
    maximum that the schema declares, and the default it uses is the schema's;
    it accepts a call without the title and the time that the schema lists as
    required. *)
Theorem X18_constructor_and_schema (env : Env) :
  exists lo hi default,
    Json.path ["parameters"; "properties"; "duration_minutes"; "minimum"]
      (CreateCalendarEvent_schema env) = Some (Json.Int lo) /\
    Json.path ["parameters"; "properties"; "duration_minutes"; "maximum"]
      (CreateCalendarEvent_schema env) = Some (Json.Int hi) /\
    Json.path ["parameters"; "properties"; "duration_minutes"; "default"]
      (CreateCalendarEvent_schema env) = Some (Json.Int default) /\
    Json.path ["parameters"; "required"] (CreateCalendarEvent_schema env)
      = Some (Json.Arr [Json.Str "title"; Json.Str "time"]) /\
    (forall args,
       let d := match CreateCalendarEvent.arg_duration_minutes args with
                | Some d => d
                | None => default
                end in
       (exists self, CreateCalendarEvent.new env args = inr self) <-> (lo <= d <= hi)%Z) /\
    (exists self,
       CreateCalendarEvent.new env (CreateCalendarEvent.mkArgs None None None None None)
         = inr self).
Proof.
  exists 1%Z, 480%Z, 30%Z. repeat (split; [reflexivity|]). split.
  - intros args d. unfold CreateCalendarEvent.new, CreateCalendarEvent.validate_duration.
    fold d. destruct (Z.ltb_spec 0 d); cbn [negb].
    + destruct (Z.leb_spec d 480); cbn [negb].
      * split; [lia|eauto].
      * split; [intros [self H']; discriminate|lia].
    + split; [intros [self H']; discriminate|lia].
  - eexists. reflexivity.
Qed.

(** ** Cancelling events: what is deleted and what is answered *)

(** X19. The time filter keeps exactly the events that start at the requested
    hour and minute, in the order of the answer, provided every start can be
    read; it fails, and keeps nothing, exactly when the start of some event
    cannot be read. *)
Theorem X19_time_filter (env : Env) (target : datetime) (events : list RemoteEvent) :
  (forall matched,
     CancelCalendarEvent.filter_by_time env target events = Ok matched ->
     matched = filter (starts_at env target) events) /\
  ((exists e, CancelCalendarEvent.filter_by_time env target events = Raise e) <->
   Exists (fun event => exists e, CancelCalendarEvent.event_time_of env event = Raise e)
     events).
Proof.
  split.
  - intros matched H. now apply filter_by_time_ok in H.
  - apply filter_by_time_raise.
Qed.

Lemma X19_witness :
  [Sample.standup] =
    filter (starts_at Sample.env (mkdt 2024 3 15 9 0 0))
      [Sample.standup; Sample.standup_again] /\
  exists e,
    CancelCalendarEvent.filter_by_time Sample.env (mkdt 2024 3 15 9 0 0)
      [Sample.standup; Scenario.untimed] = Raise e.
Proof.
  split.
  - apply (proj1 (X19_time_filter Sample.env (mkdt 2024 3 15 9 0 0)
                    [Sample.standup; Sample.standup_again]) [Sample.standup]).
    reflexivity.
  - apply (proj2 (X19_time_filter Sample.env (mkdt 2024 3 15 9 0 0)
                    [Sample.standup; Scenario.untimed])).
    apply Exists_cons_tl. apply Exists_cons_hd. eexists. reflexivity.
Defined.

(** X20. [CancelCalendarEvent.run] only deletes what it was asked to: every
    delete request is for an event of the answer to the list request of this
    run, made for the requested date, and, when a time is given, for an event
    that starts at the requested hour and minute. *)
Theorem X20_only_matching_events_are_deleted (cfg : Config) (env : Env)
  (self : CancelCalendarEvent.t) (fs : FS) (id : string) :
  let date := if truthy (CancelCalendarEvent.date self) then CancelCalendarEvent.date self
              else today env in
  In id (delete_requests (effects (CancelCalendarEvent.run cfg env self fs))) ->
  exists date_obj events event,
    strptime_date env date = Ok date_obj /\
    events_list env (CancelCalendarEvent.list_query self date_obj) = Ok events /\
    In event events /\ ev_id event = id /\
    (truthy_opt (CancelCalendarEvent.time self) = true ->
     exists target,
       strptime_datetime env (date ++ " " ++ str_opt (CancelCalendarEvent.time self))
         = Ok target /\
       starts_at env target event = true).
Proof.
  intros date.
  pose proof (authenticate_auth_effects cfg env fs) as Hauth.
  apply auth_effects_requests in Hauth. destruct Hauth as [_ [_ [Hauth _]]].
  rewrite cancel_run_eq. cbv zeta. fold date.
  destruct (authenticate_calendar cfg env fs) as [[[[[creds error]|]|e] fs1] t1];
    unfold effects in *; cbn [snd delete_requests] in *;
    rewrite ?delete_requests_app, ?Hauth; cbn [delete_requests app];
    try contradiction.
  destruct (truthy_opt error); cbn [snd delete_requests]; rewrite ?Hauth;
    [contradiction|].
  destruct creds as [c|]; cbn [snd delete_requests]; rewrite ?Hauth; [|contradiction].
  destruct (cancel_handled_spec
              (CancelCalendarEvent.search_and_delete cfg env self date fs1))
    as [_ [_ [_ [Hd _]]]].
  destruct (cancel_handled _) as [[r fs2] t2].
  unfold effects in Hd. cbn [snd delete_requests] in *.
  rewrite delete_requests_app, Hauth, Hd. cbn [app].
  rewrite search_and_delete_eq.
  destruct (build env) as [e|]; [contradiction|].
  destruct (API_TIMEOUT cfg <? 0)%Z; [contradiction|].
  destruct (strptime_date env date) as [date_obj|e]; [|contradiction]. cbv zeta.
  destruct (events_list env _) as [events|e] eqn:Hl; [|contradiction].
  destruct (CancelCalendarEvent.is_empty events); [contradiction|].
  destruct (CancelCalendarEvent.matching_events env self date events)
    as [matched|e] eqn:Hm; [|contradiction].
  destruct (CancelCalendarEvent.is_empty matched); [contradiction|].
  cbn [snd]. rewrite delete_requests_app. cbn [delete_requests app].
  rewrite (proj2 (proj2 (delete_events_spec env matched 0 0%Z fs1))).
  intros Hin. apply in_map_iff in Hin. destruct Hin as [event [Hid Hin]].
  exists date_obj, events, event.
  unfold CancelCalendarEvent.matching_events in Hm.
  destruct (truthy_opt (CancelCalendarEvent.time self)).
  - destruct (strptime_datetime env _) as [target|e] eqn:Hs; [|discriminate].
    apply filter_by_time_ok in Hm. destruct Hm as [-> _].
    apply filter_In in Hin. destruct Hin as [Hin Hat].
    repeat split; try assumption. intros _. exists target. split; [reflexivity|assumption].
  - inversion Hm; subst matched. repeat split; try assumption. discriminate.
Qed.

Lemma X20_witness :
  exists date_obj events event,
    strptime_date Scenario.first_delete_fails "2024-03-15" = Ok date_obj /\
    events_list Scenario.first_delete_fails
      (CancelCalendarEvent.list_query Scenario.cancel_at_0900 date_obj) = Ok events /\
    In event events /\ ev_id event = "ev1" /\
    (truthy_opt (CancelCalendarEvent.time Scenario.cancel_at_0900) = true ->
     exists target,
       strptime_datetime Scenario.first_delete_fails
         ("2024-03-15" ++ " " ++ str_opt (CancelCalendarEvent.time Scenario.cancel_at_0900))
         = Ok target /\
       starts_at Scenario.first_delete_fails target event = true).
Proof.
  apply (X20_only_matching_events_are_deleted default_config Scenario.first_delete_fails
           Scenario.cancel_at_0900 (Some (Pickled Sample.stored)) "ev1").
  vm_compute. left. reflexivity.
Defined.

(** X21. When the search answers with no event, [CancelCalendarEvent.run]
    answers that no events were found matching the title on the date, and
    deletes nothing; this answer does not name the time, with or without a
    time filter. *)
Theorem X21_nothing_found (cfg : Config) (env : Env)
  (self : CancelCalendarEvent.t) (fs : FS) (creds : Credentials) (fs1 : FS)
  (t1 : list Effect) (date_obj : datetime) :
  let date := if truthy (CancelCalendarEvent.date self) then CancelCalendarEvent.date self
              else today env in
  authenticate_calendar cfg env fs = (Ok (Some (Some creds, None)), fs1, t1) ->
  build env = None ->
  (0 <= API_TIMEOUT cfg)%Z ->
  strptime_date env date = Ok date_obj ->
  events_list env (CancelCalendarEvent.list_query self date_obj) = Ok [] ->
  value (CancelCalendarEvent.run cfg env self fs) =
    Ok ("No events found matching '" ++ str_opt (CancelCalendarEvent.title self)
        ++ "' on " ++ date) /\
  delete_requests (effects (CancelCalendarEvent.run cfg env self fs)) = [].
Proof.
  intros date Ha Hb Ht Hd Hl.
  destruct (search_and_delete_none cfg env self date fs1 date_obj Hb Ht Hd Hl) as [Hv Hreq].
  destruct (run_after_auth cfg env self fs creds fs1 t1 _ Ha Hv) as [Hrv Hrreq].
  fold date in Hrreq. rewrite Hreq in Hrreq. split; assumption.
Qed.

Lemma X21_witness :
  value (CancelCalendarEvent.run default_config (Sample.env_with []) Sample.cancel_at_1430
           (Some (Pickled Sample.stored))) =
    Ok ("No events found matching '" ++ "Standup" ++ "' on " ++ "2024-03-15") /\
  delete_requests
    (effects (CancelCalendarEvent.run default_config (Sample.env_with [])
                Sample.cancel_at_1430 (Some (Pickled Sample.stored)))) = [].
Proof.
  apply (X21_nothing_found default_config (Sample.env_with []) Sample.cancel_at_1430
           (Some (Pickled Sample.stored)) Sample.stored (Some (Pickled Sample.stored))
           [Log INFO "Authentication attempt 1/3"; Sleep (1 # 2);
            Log DEBUG "Loading existing token"; ReadToken]
           (mkdt 2024 3 15 0 0 0));
    try reflexivity.
  discriminate.
Defined.

(** X22. When the list request fails, [CancelCalendarEvent.run] deletes
    nothing and answers with the timeout message for a [TimeoutError], and
    with [Error cancelling calendar event: ] followed by the text of any other
    exception. *)
Theorem X22_failed_search (cfg : Config) (env : Env)
  (self : CancelCalendarEvent.t) (fs : FS) (creds : Credentials) (fs1 : FS)
  (t1 : list Effect) (date_obj : datetime) (e : exn) :
  let date := if truthy (CancelCalendarEvent.date self) then CancelCalendarEvent.date self
              else today env in
  authenticate_calendar cfg env fs = (Ok (Some (Some creds, None)), fs1, t1) ->
  build env = None ->
  (0 <= API_TIMEOUT cfg)%Z ->
  strptime_date env date = Ok date_obj ->
  events_list env (CancelCalendarEvent.list_query self date_obj) = Raise e ->
  value (CancelCalendarEvent.run cfg env self fs) = Ok (cancel_error_answer e) /\
  delete_requests (effects (CancelCalendarEvent.run cfg env self fs)) = [].
Proof.
  intros date Ha Hb Ht Hd Hl.
  assert (Hlt : (API_TIMEOUT cfg <? 0)%Z = false) by (apply Z.ltb_ge; lia).
  pose proof (authenticate_auth_effects cfg env fs) as Hauth.
  rewrite Ha in Hauth. unfold effects in Hauth. cbn [snd] in Hauth.
  apply auth_effects_requests in Hauth. destruct Hauth as [_ [_ [Hauth _]]].
  rewrite cancel_run_eq, Ha. cbv zeta. fold date. cbn [truthy_opt].
  rewrite search_and_delete_eq, Hb, Hlt, Hd. cbv zeta. rewrite Hl.
  destruct e as [m|m]; cbn [cancel_handled cancel_error_answer];
    unfold value, effects; cbn [fst snd delete_requests];
    rewrite delete_requests_app, Hauth; split; reflexivity.
Qed.

Lemma X22_witness :
  value (CancelCalendarEvent.run default_config Scenario.listing_times_out
           Sample.cancel_all (Some (Pickled Sample.stored))) =
    Ok "Calendar API request timed out. Please try again." /\
  delete_requests
    (effects (CancelCalendarEvent.run default_config Scenario.listing_times_out
                Sample.cancel_all (Some (Pickled Sample.stored)))) = [].
Proof.
  apply (X22_failed_search default_config Scenario.listing_times_out Sample.cancel_all
           (Some (Pickled Sample.stored)) Sample.stored (Some (Pickled Sample.stored))
           [Log INFO "Authentication attempt 1/3"; Sleep (1 # 2);
            Log DEBUG "Loading existing token"; ReadToken]
           (mkdt 2024 3 15 0 0 0) (TimeoutError EmptyString));
    try reflexivity.
  discriminate.
Defined.

(** X23. With a time filter, one event of the answer whose start cannot be
    read (it has neither a dateTime nor a date, or [fromisoformat] rejects the
    string) aborts the cancellation: the run answers with an error and deletes
    nothing, also when other events of the answer start at the requested
    time. *)
Theorem X23_unreadable_start_aborts (cfg : Config) (env : Env)
  (self : CancelCalendarEvent.t) (fs : FS) (creds : Credentials) (fs1 : FS)
  (t1 : list Effect) (date_obj : datetime) (events : list RemoteEvent)
  (target : datetime) :
  let date := if truthy (CancelCalendarEvent.date self) then CancelCalendarEvent.date self
              else today env in
  authenticate_calendar cfg env fs = (Ok (Some (Some creds, None)), fs1, t1) ->
  build env = None ->
  (0 <= API_TIMEOUT cfg)%Z ->
  strptime_date env date = Ok date_obj ->
  events_list env (CancelCalendarEvent.list_query self date_obj) = Ok events ->
  truthy_opt (CancelCalendarEvent.time self) = true ->
  strptime_datetime env (date ++ " " ++ str_opt (CancelCalendarEvent.time self))
    = Ok target ->
  Exists (fun event => exists e, CancelCalendarEvent.event_time_of env event = Raise e)
    events ->
  (exists e, value (CancelCalendarEvent.run cfg env self fs) = Ok (cancel_error_answer e)) /\
  delete_requests (effects (CancelCalendarEvent.run cfg env self fs)) = [].
Proof.
  intros date Ha Hb Ht Hd Hl Htm Hs Hex.
  assert (Hlt : (API_TIMEOUT cfg <? 0)%Z = false) by (apply Z.ltb_ge; lia).
  assert (Hne : CancelCalendarEvent.is_empty events = false).
  { destruct events; [inversion Hex|reflexivity]. }
  apply (filter_by_time_raise env target) in Hex. destruct Hex as [e He].
  pose proof (authenticate_auth_effects cfg env fs) as Hauth.
  rewrite Ha in Hauth. unfold effects in Hauth. cbn [snd] in Hauth.
  apply auth_effects_requests in Hauth. destruct Hauth as [_ [_ [Hauth _]]].
  rewrite cancel_run_eq, Ha. cbv zeta. fold date. cbn [truthy_opt].
  rewrite search_and_delete_eq, Hb, Hlt, Hd. cbv zeta. rewrite Hl, Hne.
  unfold CancelCalendarEvent.matching_events. rewrite Htm, Hs, He.
  split; [exists e|];
    destruct e as [m|m]; cbn [cancel_handled cancel_error_answer];
    unfold value, effects; cbn [fst snd delete_requests];
    rewrite ?delete_requests_app, ?Hauth; reflexivity.
Qed.

Lemma X23_witness :
  (exists e,
     value (CancelCalendarEvent.run default_config Scenario.with_untimed
              Scenario.cancel_at_0900 (Some (Pickled Sample.stored)))
       = Ok (cancel_error_answer e)) /\
  delete_requests
    (effects (CancelCalendarEvent.run default_config Scenario.with_untimed
                Scenario.cancel_at_0900 (Some (Pickled Sample.stored)))) = [].
Proof.
  apply (X23_unreadable_start_aborts default_config Scenario.with_untimed
           Scenario.cancel_at_0900 (Some (Pickled Sample.stored)) Sample.stored
           (Some (Pickled Sample.stored))
           [Log INFO "Authentication attempt 1/3"; Sleep (1 # 2);
            Log DEBUG "Loading existing token"; ReadToken]
           (mkdt 2024 3 15 0 0 0) [Sample.standup; Scenario.untimed]
           (mkdt 2024 3 15 9 0 0));
    try reflexivity.
  - discriminate.
  - apply Exists_cons_tl. apply Exists_cons_hd. eexists. reflexivity.
Defined.

(** X24. A run of [CancelCalendarEvent], whatever the tool, sends at most one
    list request, and that request is for the requested day (the day of the
    call when the date is empty): from midnight to 23:59:59 of that day,
    searching the title.  For a tool constructed without a date the requested
    day is the day on which the module was imported (when that string is not
    empty), while the schema read on the day of the call advertises that day
    as the default. *)
Theorem X24_one_search_for_the_requested_day (cfg : Config) (env : Env) (fs : FS) :
  (forall self : CancelCalendarEvent.t,
     list_requests (effects (CancelCalendarEvent.run cfg env self fs)) = [] \/
     exists y m d,
       strptime_date env
         (if truthy (CancelCalendarEvent.date self) then CancelCalendarEvent.date self
          else today env) = Ok (mkdt y m d 0 0 0) /\
       list_requests (effects (CancelCalendarEvent.run cfg env self fs)) =
         [ {| q_calendarId := "primary";
              q_timeMin := isoformat (mkdt y m d 0 0 0) ++ "Z";
              q_timeMax := isoformat (mkdt y m d 23 59 59) ++ "Z";
              q_q := CancelCalendarEvent.title self;
              q_singleEvents := true;
              q_orderBy := "startTime" |} ]) /\
  (forall args : CancelArgs,
     cancel_arg_date args = None ->
     truthy (import_day env) = true ->
     list_requests
       (effects (CancelCalendarEvent.run cfg env (CancelCalendarEvent_new env args) fs)) = [] \/
     exists y m d,
       strptime_date env (import_day env) = Ok (mkdt y m d 0 0 0) /\
       list_requests
         (effects (CancelCalendarEvent.run cfg env (CancelCalendarEvent_new env args) fs)) =
         [ {| q_calendarId := "primary";
              q_timeMin := isoformat (mkdt y m d 0 0 0) ++ "Z";
              q_timeMax := isoformat (mkdt y m d 23 59 59) ++ "Z";
              q_q := cancel_arg_title args;
              q_singleEvents := true;
              q_orderBy := "startTime" |} ]) /\
  Json.path ["parameters"; "properties"; "date"; "default"]
    (CancelCalendarEvent_schema env) = Some (Json.Str (today env)).
Proof.
  assert (Hany : forall self : CancelCalendarEvent.t,
     list_requests (effects (CancelCalendarEvent.run cfg env self fs)) = [] \/
     exists y m d,
       strptime_date env
         (if truthy (CancelCalendarEvent.date self) then CancelCalendarEvent.date self
          else today env) = Ok (mkdt y m d 0 0 0) /\
       list_requests (effects (CancelCalendarEvent.run cfg env self fs)) =
         [ {| q_calendarId := "primary";
              q_timeMin := isoformat (mkdt y m d 0 0 0) ++ "Z";
              q_timeMax := isoformat (mkdt y m d 23 59 59) ++ "Z";
              q_q := CancelCalendarEvent.title self;
              q_singleEvents := true;
              q_orderBy := "startTime" |} ]).
  { intros self.
    pose proof (authenticate_auth_effects cfg env fs) as Hauth.
    apply auth_effects_requests in Hauth. destruct Hauth as [_ [Hauth _]].
    rewrite cancel_run_eq. cbv zeta.
    remember (if truthy (CancelCalendarEvent.date self) then CancelCalendarEvent.date self
              else today env) as date eqn:Hdate. clear Hdate.
    destruct (authenticate_calendar cfg env fs) as [[[[[creds error]|]|e] fs1] t1];
      unfold effects in *; cbn [snd list_requests] in *;
      rewrite ?list_requests_app, ?Hauth; cbn [list_requests app];
      try (left; reflexivity).
    destruct (truthy_opt error); cbn [snd list_requests]; rewrite ?Hauth;
      [left; reflexivity|].
    destruct creds as [c|]; cbn [snd list_requests]; rewrite ?Hauth; [|left; reflexivity].
    destruct (cancel_handled_spec
                (CancelCalendarEvent.search_and_delete cfg env self date fs1))
      as [_ [_ [_ [_ Hq]]]].
    destruct (cancel_handled _) as [[r fs2] t2].
    unfold effects in Hq. cbn [snd list_requests] in *.
    rewrite list_requests_app, Hauth, Hq. cbn [app].
    rewrite search_and_delete_eq.
    destruct (build env) as [e|]; [left; reflexivity|].
    destruct (API_TIMEOUT cfg <? 0)%Z; [left; reflexivity|].
    destruct (strptime_date env date) as [date_obj|e] eqn:Hs;
      [|left; reflexivity].
    right.
    assert (Hmid : exists y m d, date_obj = mkdt y m d 0 0 0).
    { unfold strptime_date in Hs.
      destruct (parse_Ymd env date) as [[[y m] d]|e]; [|discriminate].
      apply DTLemmas.construct_ok in Hs. destruct Hs as [-> _]. eauto. }
    destruct Hmid as [y [m [d ->]]]. exists y, m, d. split; [reflexivity|].
    cbv zeta. unfold CancelCalendarEvent.list_query, replace_time.
    cbn [year month day].
    repeat match goal with
           | |- context [match ?x with _ => _ end] => destruct x
           end; cbn [snd list_requests];
      rewrite ?list_requests_app, ?(proj2 (delete_events_quiet env _ _ _ _));
      reflexivity. }
  split; [exact Hany|]. split; [|reflexivity].
  intros args Hd Himp.
  specialize (Hany (CancelCalendarEvent_new env args)).
  assert (Hdate : CancelCalendarEvent.date (CancelCalendarEvent_new env args)
                  = import_day env).
  { unfold CancelCalendarEvent_new. cbn. now rewrite Hd. }
  rewrite Hdate, Himp in Hany. exact Hany.
Qed.

Lemma X24_witness :
  (list_requests
     (effects (CancelCalendarEvent.run default_config Scenario.first_delete_fails
                 (CancelCalendarEvent_new Scenario.first_delete_fails
                    (mkCancelArgs (Some "Standup") None None))
                 (Some (Pickled Sample.stored)))) = [] \/
   exists y m d,
     strptime_date Scenario.first_delete_fails (import_day Scenario.first_delete_fails)
       = Ok (mkdt y m d 0 0 0) /\
     list_requests
       (effects (CancelCalendarEvent.run default_config Scenario.first_delete_fails
                   (CancelCalendarEvent_new Scenario.first_delete_fails
                      (mkCancelArgs (Some "Standup") None None))
                   (Some (Pickled Sample.stored)))) =
       [ {| q_calendarId := "primary";
            q_timeMin := isoformat (mkdt y m d 0 0 0) ++ "Z";
            q_timeMax := isoformat (mkdt y m d 23 59 59) ++ "Z";
            q_q := cancel_arg_title (mkCancelArgs (Some "Standup") None None);
            q_singleEvents := true;
            q_orderBy := "startTime" |} ]) /\
  Json.path ["parameters"; "properties"; "date"; "default"]
    (CancelCalendarEvent_schema Scenario.first_delete_fails) = Some (Json.Str "2024-03-15").
Proof.
  destruct (X24_one_search_for_the_requested_day default_config Scenario.first_delete_fails
              (Some (Pickled Sample.stored))) as [_ [H2 H3]].
  split; [|exact H3].
  apply (H2 (mkCancelArgs (Some "Standup") None None)); reflexivity.
Defined.


(** ** The calendar arithmetic, continued: valid results and uniqueness *)

Module DTValid.

Import DTFacts.
Local Open Scope Z_scope.

(** Within a year, by evaluation over its days. *)
Lemma month_day_in_year leapyear n : 0 <= n < 365 -> month_day_valid leapyear n = true.
Proof.
  intros H.
  apply (DTLemmas.holds_from_sound (month_day_valid leapyear) 365 0); [|lia].
  destruct leapyear; vm_compute; reflexivity.
Qed.


Lemma days_before_year_succ y :
  days_before_year (y + 1) = days_before_year y + 365 + (if is_leap y then 1 else 0).
Proof.
  unfold days_before_year, is_leap.
  repeat match goal with
         | |- context [(?x mod ?k =? 0)] => destruct (Z.eqb_spec (x mod k) 0)
         end; cbn [negb andb orb]; Z.div_mod_to_equations; lia.
Qed.

Lemma days_before_year_mono y y' : y <= y' -> days_before_year y <= days_before_year y'.
Proof.
  intros H. unfold days_before_year. Z.div_mod_to_equations. lia.
Qed.

(** A date that the constructor accepts lies within its year. *)
Lemma ymd2ord_in_year y m d :
  1 <= m <= 12 -> 1 <= d <= days_in_month y m ->
  days_before_year y < ymd2ord y m d <= days_before_year (y + 1).
Proof.
  intros Hm Hd. rewrite days_before_year_succ.
  unfold ymd2ord, days_before_month, days_in_month in *.
  assert (m = 1 \/ m = 2 \/ m = 3 \/ m = 4 \/ m = 5 \/ m = 6 \/ m = 7 \/ m = 8 \/ m = 9
          \/ m = 10 \/ m = 11 \/ m = 12) as Hcase by lia.
  destruct (is_leap y);
    repeat (destruct Hcase as [->|Hcase]); try subst m; cbn in *; lia.
Qed.

Lemma ymd2ord_inj y m d y' m' d' :
  1 <= m <= 12 -> 1 <= d <= days_in_month y m ->
  1 <= m' <= 12 -> 1 <= d' <= days_in_month y' m' ->
  ymd2ord y m d = ymd2ord y' m' d' ->
  y = y' /\ m = m' /\ d = d'.
Proof.
  intros Hm Hd Hm' Hd' H.
  pose proof (ymd2ord_in_year y m d Hm Hd) as B.
  pose proof (ymd2ord_in_year y' m' d' Hm' Hd') as B'.
  assert (y = y').
  { destruct (Z.lt_trichotomy y y') as [L|[E|L]]; [|exact E|].
    - pose proof (days_before_year_mono (y + 1) y' ltac:(lia)). lia.
    - pose proof (days_before_year_mono (y' + 1) y ltac:(lia)). lia. }
  subst y'. split; [reflexivity|].
  unfold ymd2ord, days_before_month, days_in_month in *.
  assert (m = 1 \/ m = 2 \/ m = 3 \/ m = 4 \/ m = 5 \/ m = 6 \/ m = 7 \/ m = 8 \/ m = 9
          \/ m = 10 \/ m = 11 \/ m = 12) as Hcase by lia.
  assert (m' = 1 \/ m' = 2 \/ m' = 3 \/ m' = 4 \/ m' = 5 \/ m' = 6 \/ m' = 7 \/ m' = 8
          \/ m' = 9 \/ m' = 10 \/ m' = 11 \/ m' = 12) as Hcase' by lia.
  destruct (is_leap y);
    repeat (destruct Hcase as [->|Hcase]); try subst m;
    repeat (destruct Hcase' as [->|Hcase']); try subst m'; cbn in *; lia.
Qed.

Lemma check_fields dt :
  check dt = true ->
  MINYEAR <= year dt <= MAXYEAR /\ 1 <= month dt <= 12 /\
  1 <= day dt <= days_in_month (year dt) (month dt) /\
  0 <= hour dt <= 23 /\ 0 <= minute dt <= 59 /\ 0 <= second dt <= 59.
Proof.
  unfold check. intros H.
  repeat (apply andb_prop in H; destruct H as [H ?]). lia.
Qed.

Lemma fields_check dt :
  MINYEAR <= year dt <= MAXYEAR -> 1 <= month dt <= 12 ->
  1 <= day dt <= days_in_month (year dt) (month dt) ->
  0 <= hour dt <= 23 -> 0 <= minute dt <= 59 -> 0 <= second dt <= 59 ->
  check dt = true.
Proof.
  intros. unfold check.
  repeat (apply andb_true_intro; split); lia.
Qed.

(** Two timestamps that the constructor accepts, at the same minute of the
    time line and with the same second, are the same timestamp. *)
Lemma minutes_of_inj a b :
  check a = true -> check b = true ->
  minutes_of a = minutes_of b -> second a = second b -> a = b.
Proof.
  intros Ha Hb Hm Hs.
  apply check_fields in Ha, Hb.
  destruct Ha as [_ [Ham [Had [Hah [Hami _]]]]].
  destruct Hb as [_ [Hbm [Hbd [Hbh [Hbmi _]]]]].
  unfold minutes_of, toordinal in Hm.
  assert (Ho : ymd2ord (year a) (month a) (day a) = ymd2ord (year b) (month b) (day b))
    by lia.
  destruct (ymd2ord_inj _ _ _ _ _ _ Ham Had Hbm Hbd Ho) as [Hy [Hmo Hd]].
  destruct a, b. cbn in *. f_equal; lia.
Qed.

(** The date of an ordinal of the calendar is a date of the calendar. *)
Lemma ord2ymd_valid n :
  1 <= n <= MAXORDINAL ->
  match ord2ymd n with
  | (y, m, d) =>
      MINYEAR <= y <= MAXYEAR /\ 1 <= m <= 12 /\ 1 <= d <= days_in_month y m
  end.
Proof.
  intros Hn. unfold ord2ymd.
  set (a := n - 1).
  pose proof (Z.div_mod a DI400Y ltac:(discriminate)) as E400.
  pose proof (Z.mod_pos_bound a DI400Y eq_refl) as B400.
  set (n400 := a / DI400Y) in *. set (r400 := a mod DI400Y) in *.
  pose proof (Z.div_mod r400 DI100Y ltac:(discriminate)) as E100.
  pose proof (Z.mod_pos_bound r400 DI100Y eq_refl) as B100.
  set (n100 := r400 / DI100Y) in *. set (r100 := r400 mod DI100Y) in *.
  pose proof (Z.div_mod r100 DI4Y ltac:(discriminate)) as E4.
  pose proof (Z.mod_pos_bound r100 DI4Y eq_refl) as B4.
  set (n4 := r100 / DI4Y) in *. set (r4 := r100 mod DI4Y) in *.
  pose proof (Z.div_mod r4 365 ltac:(discriminate)) as E1.
  pose proof (Z.mod_pos_bound r4 365 eq_refl) as B1.
  set (n1 := r4 / 365) in *. set (r1 := r4 mod 365) in *.
  unfold DI400Y, DI100Y, DI4Y, MAXORDINAL, MINYEAR, MAXYEAR in *.
  assert (Hn400 : 0 <= n400 <= 24) by lia.
  assert (Hn100 : 0 <= n100 <= 4) by lia.
  assert (Hn4 : 0 <= n4 <= 24) by lia.
  assert (Hn1 : 0 <= n1 <= 4) by lia.
  destruct ((n1 =? 4) || (n100 =? 4)) eqn:Elast.
  - apply orb_true_iff in Elast. rewrite !Z.eqb_eq in Elast.
    set (y := n400 * 400 + 1 + n100 * 100 + n4 * 4 + n1 - 1).
    assert (Hl : is_leap y = true).
    { unfold is_leap. subst y. destruct Elast as [E|E].
      - assert (n4 <> 24) by lia.
        replace ((n400 * 400 + 1 + n100 * 100 + n4 * 4 + n1 - 1) mod 4) with 0
          by (Z.div_mod_to_equations; lia).
        destruct (Z.eqb_spec ((n400 * 400 + 1 + n100 * 100 + n4 * 4 + n1 - 1) mod 100) 0)
          as [E'|E']; [exfalso; Z.div_mod_to_equations; lia|reflexivity].
      - replace ((n400 * 400 + 1 + n100 * 100 + n4 * 4 + n1 - 1) mod 4) with 0
          by (Z.div_mod_to_equations; lia).
        replace ((n400 * 400 + 1 + n100 * 100 + n4 * 4 + n1 - 1) mod 400) with 0
          by (Z.div_mod_to_equations; lia).
        cbn. apply orb_true_r. }
    unfold days_in_month. rewrite Hl. cbn. subst y. lia.
  - apply orb_false_iff in Elast. rewrite !Z.eqb_neq in Elast.
    set (leapyear := (n1 =? 3) && (negb (n4 =? 24) || (n100 =? 3))).
    pose proof (month_day_in_year leapyear r1 B1) as Hmd.
    unfold month_day_valid, month_day in Hmd.
    set (y := n400 * 400 + 1 + n100 * 100 + n4 * 4 + n1).
    assert (Hl : is_leap y = leapyear).
    { unfold is_leap, leapyear. subst y.
      destruct (Z.eqb_spec n1 3) as [H3|H3];
        destruct (Z.eqb_spec n4 24) as [H24|H24];
        destruct (Z.eqb_spec n100 3) as [H103|H103]; cbn [negb andb orb];
        repeat match goal with
               | |- context [(?x mod ?k =? 0)] =>
                   destruct (Z.eqb_spec (x mod k) 0)
               end; cbn [negb andb orb]; try reflexivity;
        exfalso; Z.div_mod_to_equations; lia. }
    assert (Hy : 1 <= y <= 9999) by (subst y; lia).
    destruct (r1 <? _) eqn:Epre; unfold days_in_month; rewrite Hl;
      repeat (apply andb_prop in Hmd; destruct Hmd as [Hmd ?]);
      match goal with
      | |- context [if ?c then 29 else DAYS_IN_MONTH ?m] =>
          replace (if c then 29 else DAYS_IN_MONTH m)
            with (DAYS_IN_MONTH m + (if c then 1 else 0))
            by (destruct (Z.eqb_spec m 2) as [->|?]; destruct leapyear; cbn; lia)
      end; lia.
Qed.

(** Adding minutes gives a timestamp that the constructor accepts. *)
Lemma add_minutes_check dt mins e :
  add_minutes dt mins = Ok e -> check e = true.
Proof.
  unfold add_minutes.
  set (secs := hour dt * 3600 + minute dt * 60 + second dt + mins * 60).
  destruct ((0 <? toordinal dt + secs / 86400)
            && (toordinal dt + secs / 86400 <=? MAXORDINAL)) eqn:Er; [|discriminate].
  apply andb_prop in Er. destruct Er as [E0 E1].
  apply Z.ltb_lt in E0. apply Z.leb_le in E1.
  pose proof (ord2ymd_valid (toordinal dt + secs / 86400) ltac:(lia)) as Hv.
  destruct (ord2ymd (toordinal dt + secs / 86400)) as [[y m] d].
  intros H. inversion H; subst e; clear H.
  destruct Hv as [Hy [Hm Hd]].
  apply fields_check; cbn [year month day hour minute second]; try assumption;
    Z.div_mod_to_equations; lia.
Qed.

(** Within the calendar the addition returns. *)
Lemma add_minutes_total dt mins :
  check dt = true -> 0 <= mins ->
  minutes_of dt + mins < (MAXORDINAL + 1) * 1440 ->
  exists e, add_minutes dt mins = Ok e.
Proof.
  intros Hc Hm Hlt. apply check_fields in Hc.
  destruct Hc as [Hy [Hmo [Hd [Hh [Hmi Hs]]]]].
  pose proof (ymd2ord_in_year _ _ _ Hmo Hd) as Hord.
  pose proof (days_before_year_mono 1 (year dt) ltac:(unfold MINYEAR in Hy; lia)) as H1.
  change (days_before_year 1) with 0 in H1.
  unfold add_minutes, minutes_of, toordinal in *.
  set (secs := hour dt * 3600 + minute dt * 60 + second dt + mins * 60).
  replace ((0 <? ymd2ord (year dt) (month dt) (day dt) + secs / 86400)
           && (ymd2ord (year dt) (month dt) (day dt) + secs / 86400 <=? MAXORDINAL))
    with true.
  - destruct (ord2ymd _) as [[y m] d]. eauto.
  - symmetry. apply andb_true_intro. split.
    + apply Z.ltb_lt. subst secs. Z.div_mod_to_equations. lia.
    + apply Z.leb_le. subst secs. unfold MAXORDINAL in *. Z.div_mod_to_equations. lia.
Qed.

End DTValid.


(** ** Creating an event: the end of the event, and the request *)

(** [run] after a successful authentication, once the start and the end are
    computed: one insert request, for the dictionary built from them. *)
Lemma run_submits cfg env self fs creds fs1 t1 start_time end_time :
  authenticate_calendar cfg env fs = (Ok (Some (Some creds, None)), fs1, t1) ->
  build env = None ->
  (0 <= API_TIMEOUT cfg)%Z ->
  strptime_datetime env
    ((if truthy (CreateCalendarEvent.date self) then CreateCalendarEvent.date self
      else today env) ++ " " ++ str_opt (CreateCalendarEvent.time self)) = Ok start_time ->
  add_minutes start_time (CreateCalendarEvent.duration_minutes self) = Ok end_time ->
  insert_requests (effects (CreateCalendarEvent.run cfg env self fs)) =
    [CreateCalendarEvent.event_body env self start_time end_time].
Proof.
  intros Ha Hb Ht Hs He.
  assert (Hlt : (API_TIMEOUT cfg <? 0)%Z = false) by (apply Z.ltb_ge; lia).
  pose proof (authenticate_auth_effects cfg env fs) as Hauth.
  rewrite Ha in Hauth. unfold effects in Hauth. cbn [snd] in Hauth.
  apply auth_effects_requests in Hauth. destruct Hauth as [Hauth _].
  rewrite create_run_eq, Ha. cbv zeta. cbn [truthy_opt].
  rewrite submit_eq, Hb, Hlt, Hs, He. cbv zeta.
  destruct (events_insert env _) as [result|[m|m]]; cbn [create_handled];
    unfold effects; cbn [snd insert_requests];
    rewrite insert_requests_app, Hauth; reflexivity.
Qed.

Lemma strptime_datetime_check env s dt :
  strptime_datetime env s = Ok dt -> check dt = true /\ second dt = 0%Z.
Proof.
  unfold strptime_datetime.
  destruct (parse_Ymd_HM env s) as [[[[[y m] d] H] Mi]|e]; [|discriminate].
  intros Hc. apply DTLemmas.construct_ok in Hc. destruct Hc as [-> Hc].
  split; [exact Hc|reflexivity].
Qed.

(** C1. [CreateCalendarEvent.run] computes the end of the event as its start
    plus the duration.  After a successful authentication, for a start that
    [strptime] reads from the date and the time, a duration from 1 to 480
    minutes and an end within the calendar, [run] sends one insert request;
    its event starts at the parsed start and ends at a timestamp that the
    [datetime] constructor accepts, that lies exactly [duration_minutes]
    minutes after the start on the time line, with the same second, and that
    is the only such timestamp.  Conversely every event that any [run]
    submits has this form.  A duration from 1 to 480 minutes is accepted as
    given; a duration below 1 or above 480 is rejected when the tool is
    constructed, so that [run] never starts: the call performs no effect at
    all, in particular no remote call, and leaves the token file alone. *)
Theorem C1_end_is_start_plus_duration (cfg : Config) (env : Env) :
  (forall self fs creds fs1 t1 start_time,
     authenticate_calendar cfg env fs = (Ok (Some (Some creds, None)), fs1, t1) ->
     build env = None ->
     (0 <= API_TIMEOUT cfg)%Z ->
     strptime_datetime env
       ((if truthy (CreateCalendarEvent.date self) then CreateCalendarEvent.date self
         else today env) ++ " " ++ str_opt (CreateCalendarEvent.time self))
       = Ok start_time ->
     (1 <= CreateCalendarEvent.duration_minutes self <= 480)%Z ->
     (minutes_of start_time + CreateCalendarEvent.duration_minutes self
      < (MAXORDINAL + 1) * 1440)%Z ->
     exists end_time,
       insert_requests (effects (CreateCalendarEvent.run cfg env self fs)) =
         [CreateCalendarEvent.event_body env self start_time end_time] /\
       dateTime (start (CreateCalendarEvent.event_body env self start_time end_time))
         = isoformat start_time /\
       dateTime (end_ (CreateCalendarEvent.event_body env self start_time end_time))
         = isoformat end_time /\
       check end_time = true /\
       minutes_of end_time
         = (minutes_of start_time + CreateCalendarEvent.duration_minutes self)%Z /\
       second end_time = second start_time /\
       (forall other,
          check other = true ->
          minutes_of other
            = (minutes_of start_time + CreateCalendarEvent.duration_minutes self)%Z ->
          second other = second start_time ->
          other = end_time)) /\
  (forall self fs cal body,
     In (ApiInsert cal body) (effects (CreateCalendarEvent.run cfg env self fs)) ->
     exists start_time end_time,
       strptime_datetime env
         ((if truthy (CreateCalendarEvent.date self) then CreateCalendarEvent.date self
           else today env) ++ " " ++ str_opt (CreateCalendarEvent.time self))
         = Ok start_time /\
       dateTime (start body) = isoformat start_time /\
       dateTime (end_ body) = isoformat end_time /\
       check end_time = true /\
       minutes_of end_time
         = (minutes_of start_time + CreateCalendarEvent.duration_minutes self)%Z /\
       second end_time = second start_time) /\
  (forall args d,
     CreateCalendarEvent.arg_duration_minutes args = Some d ->
     (1 <= d <= 480)%Z ->
     exists self,
       CreateCalendarEvent.new env args = inr self /\
       CreateCalendarEvent.duration_minutes self = d) /\
  (forall args fs d,
     CreateCalendarEvent.arg_duration_minutes args = Some d ->
     (d < 1 \/ 480 < d)%Z ->
     exists err, CreateCalendarEvent.call cfg env args fs = (inl err, fs, [])).
Proof.
  split; [|split; [|split]].
  - intros self fs creds fs1 t1 start_time Ha Hb Ht Hs Hd Hlt.
    destruct (strptime_datetime_check _ _ _ Hs) as [Hc Hsec0].
    destruct (DTValid.add_minutes_total start_time
                (CreateCalendarEvent.duration_minutes self) Hc ltac:(lia) Hlt)
      as [end_time He].
    assert (Hsec : (0 <= second start_time <= 59)%Z) by lia.
    destruct (DTLemmas.add_minutes_spec _ _ _ Hsec He) as [Hm Hsnd].
    pose proof (DTValid.add_minutes_check _ _ _ He) as Hce.
    exists end_time.
    split; [exact (run_submits cfg env self fs creds fs1 t1 _ _ Ha Hb Ht Hs He)|].
    repeat (split; [first [reflexivity|assumption]|]).
    intros other Hco Hmo Hso. apply DTValid.minutes_of_inj; congruence.
  - intros self fs cal body H.
    apply run_insert_inv in H.
    destruct H as [start_time [end_time [Hs [He [_ Hb]]]]].
    exists start_time, end_time. subst body.
    destruct (strptime_datetime_check _ _ _ Hs) as [Hc Hsec0].
    assert (Hsec : (0 <= second start_time <= 59)%Z) by lia.
    destruct (DTLemmas.add_minutes_spec _ _ _ Hsec He) as [Hm Hsnd].
    pose proof (DTValid.add_minutes_check _ _ _ He) as Hce.
    repeat split; assumption.
  - intros args d Hd Hr.
    unfold CreateCalendarEvent.new, CreateCalendarEvent.validate_duration. rewrite Hd.
    replace (0 <? d)%Z with true by (symmetry; apply Z.ltb_lt; lia).
    replace (d <=? 480)%Z with true by (symmetry; apply Z.leb_le; lia).
    cbn [negb]. eexists. split; reflexivity.
  - intros args fs d Hd Hr.
    unfold CreateCalendarEvent.call, CreateCalendarEvent.new,
      CreateCalendarEvent.validate_duration.
    rewrite Hd.
    destruct (0 <? d)%Z eqn:E0; cbn [negb]; [|eexists; reflexivity].
    destruct (d <=? 480)%Z eqn:E1; cbn [negb]; [|eexists; reflexivity].
    apply Z.ltb_lt in E0. apply Z.leb_le in E1. lia.
Qed.

Lemma C1_witness :
  insert_requests
    (effects (CreateCalendarEvent.run default_config Sample.env Sample.meeting
                (Some (Pickled Sample.stored)))) =
    [CreateCalendarEvent.event_body Sample.env Sample.meeting
       (mkdt 2024 12 31 23 30 0) (mkdt 2025 1 1 0 15 0)] /\
  dateTime (end_ (CreateCalendarEvent.event_body Sample.env Sample.meeting
                    (mkdt 2024 12 31 23 30 0) (mkdt 2025 1 1 0 15 0)))
    = "2025-01-01T00:15:00" /\
  minutes_of (mkdt 2025 1 1 0 15 0) = (minutes_of (mkdt 2024 12 31 23 30 0) + 45)%Z /\
  (exists err,
     CreateCalendarEvent.call default_config Sample.env
       (CreateCalendarEvent.mkArgs (Some "Review") None (Some "23:30") (Some 500%Z) None)
       None = (inl err, None, [])).
Proof.
  destruct (C1_end_is_start_plus_duration default_config Sample.env) as [H1 [_ [_ H4]]].
  destruct (H1 Sample.meeting (Some (Pickled Sample.stored)) Sample.stored
              (Some (Pickled Sample.stored))
              [Log INFO "Authentication attempt 1/3"; Sleep (1 # 2);
               Log DEBUG "Loading existing token"; ReadToken]
              (mkdt 2024 12 31 23 30 0))
    as [end_time [Hreq [_ [_ [_ [Hmin [_ Huniq]]]]]]];
    try reflexivity; try discriminate; try (split; discriminate).
  assert (Hend : mkdt 2025 1 1 0 15 0 = end_time)
    by (apply Huniq; reflexivity).
  rewrite <- Hend in Hreq, Hmin.
  split; [exact Hreq|]. split; [reflexivity|]. split; [exact Hmin|].
  apply (H4 _ None 500%Z); [reflexivity|right; reflexivity].
Defined.

(** The calls of [insert] among some effects are made from its requests. *)
Lemma insert_calls_inv t call :
  In call (insert_calls t) ->
  exists calendarId body,
    In (ApiInsert calendarId body) t /\ call = insert_call calendarId body.
Proof.
  induction t as [|e t IH]; [intros []|].
  destruct e; cbn [insert_calls In]; intros H;
    try (destruct (IH H) as [cal0 [body0 [Hin ->]]]; exists cal0, body0; split;
         [right; exact Hin|reflexivity]).
  destruct H as [<-|H].
  - eexists _, _. split; [left; reflexivity|reflexivity].
  - destruct (IH H) as [cal [b [Hin ->]]]. exists cal, b. split;
      [right; exact Hin|reflexivity].
Qed.

(** What every call of [insert] made by a [run] looks like: the reminders of
    the claim and the key [sendUpdates] are in the event, and the call has no
    [sendUpdates] argument. *)
Lemma run_insert_calls cfg env self fs call :
  In call (insert_calls (effects (CreateCalendarEvent.run cfg env self fs))) ->
  call_calendarId call = "primary" /\
  call_sendUpdates call = None /\
  sendUpdates (call_body call) = "all" /\
  reminders (call_body call) =
    {| useDefault := false;
       overrides := [ {| method := "email"; minutes := 30 |};
                      {| method := "popup"; minutes := 15 |} ] |}.
Proof.
  intros H. apply insert_calls_inv in H. destruct H as [cal [body [H ->]]].
  apply run_insert_inv in H.
  destruct H as [start_time [end_time [_ [_ [-> ->]]]]].
  repeat split.
Qed.

(** C9 (the code departs from it in part).  Every event that
    [CreateCalendarEvent.run] submits turns the default reminders off and
    carries exactly the two overrides email at 30 minutes and popup at 15
    minutes.  The request for notifications, however, is not made: [all] is
    stored under the key [sendUpdates] of the event itself, while the insert
    call passes the calendar and the event and no [sendUpdates] argument. *)
Theorem C9_notifications_are_not_requested :
  insert_calls
    (effects (CreateCalendarEvent.run default_config Sample.env Sample.meeting
                (Some (Pickled Sample.stored)))) =
    [ {| call_calendarId := "primary";
         call_body := CreateCalendarEvent.event_body Sample.env Sample.meeting
                        (mkdt 2024 12 31 23 30 0) (mkdt 2025 1 1 0 15 0);
         call_sendUpdates := None |} ] /\
  sendUpdates (CreateCalendarEvent.event_body Sample.env Sample.meeting
                 (mkdt 2024 12 31 23 30 0) (mkdt 2025 1 1 0 15 0)) = "all" /\
  reminders (CreateCalendarEvent.event_body Sample.env Sample.meeting
               (mkdt 2024 12 31 23 30 0) (mkdt 2025 1 1 0 15 0)) =
    {| useDefault := false;
       overrides := [ {| method := "email"; minutes := 30 |};
                      {| method := "popup"; minutes := 15 |} ] |}.
Proof. repeat split. Qed.
